(** * InnerProductLayer (src/caffe/layers/inner_product_layer.cpp)

    A shallow embedding of Caffe's fully-connected layer: [SetUp],
    [Forward_cpu], [Backward_cpu] and the two [normalize_weights] overloads.

    The C++ class is a template over the scalar type [Dtype] (instantiated at
    [float] and [double]).  The embedding is generic in the same way: a type
    class [Dtype] collects the scalar operations the layer uses, and the
    layer code is written once against it.  Two instances are given:
    IEEE binary64 ([PrimFloat.float], i.e. [Dtype = double]), on which the
    model runs, and the real numbers, on which the norm bounds are proved
    in exact arithmetic. *)

From Stdlib Require Import ZArith Floats Reals Lra Lia.
From stdpp Require Import base tactics option list.

Set Default Proof Using "Type*".

(** ** Scalars *)

Class Dtype (D : Type) : Type := {
  d_zero : D;                 (* Dtype(0), (Dtype)0. *)
  d_one  : D;                 (* (Dtype)1., 1. *)
  d_eps  : D;                 (* Dtype(1e-7) *)
  d_add  : D -> D -> D;
  d_mul  : D -> D -> D;
  d_div  : D -> D -> D;
  d_sqrt : D -> D;
  d_gt   : D -> D -> bool;    (* a > b *)
  d_lt   : D -> D -> bool     (* a < b *)
}.

(** The identities of [0] and [1] that the matrix claims need.  They hold in
    exact arithmetic; in IEEE arithmetic they hold on finite values up to the
    sign of zero. *)
Class DtypeLaws (D : Type) `{Dtype D} : Prop := {
  d_add_0_r : forall x : D, d_add x d_zero = x;
  d_mul_1_l : forall x : D, d_mul d_one x = x;
  d_mul_0_l : forall x : D, d_mul d_zero x = d_zero
}.

(** [Dtype = double].  The literal [1e-7] is rounded to the nearest binary64
    value, as the C++ compiler does. *)
#[export, warnings="-inexact-float"] Instance Dtype_double : Dtype PrimFloat.float := {|
  d_zero := 0%float;
  d_one  := 1%float;
  d_eps  := 1e-7%float;
  d_add  := PrimFloat.add;
  d_mul  := PrimFloat.mul;
  d_div  := PrimFloat.div;
  d_sqrt := PrimFloat.sqrt;
  d_gt a b := PrimFloat.ltb b a;
  d_lt a b := PrimFloat.ltb a b
|}.

#[export] Instance Dtype_R : Dtype R := {|
  d_zero := 0%R;
  d_one  := 1%R;
  d_eps  := (1 / 10 ^ 7)%R;
  d_add  := Rplus;
  d_mul  := Rmult;
  d_div  := Rdiv;
  d_sqrt := R_sqrt.sqrt;
  d_gt a b := if Rgt_dec a b then true else false;
  d_lt a b := if Rlt_dec a b then true else false
|}.

(** ** Dense linear algebra provider (caffe/util/math_functions) *)

Inductive CBLAS_TRANSPOSE := CblasNoTrans | CblasTrans.

Section Blas.
Context {D : Type} `{Dtype D}.

(** [x[i]] on a flat buffer.  Every caller below first checks that the
    indices it reads are in range, so the default is never observed. *)
Definition at_ (x : list D) (i : nat) : D := nth i x d_zero.

(** [acc = 0; for (k = 0; k < n; ++k) acc += f k] *)
Definition sum_upto (n : nat) (f : nat -> D) : D :=
  fold_left (fun acc k => d_add acc (f k)) (seq 0 n) d_zero.

(** Element [(i,k)] of op(A), A row-major: M x K when not transposed,
    K x M when transposed. *)
Definition opA (tA : CBLAS_TRANSPOSE) (M K : nat) (A : list D) (i k : nat) : D :=
  match tA with
  | CblasNoTrans => at_ A (i * K + k)
  | CblasTrans => at_ A (k * M + i)
  end.

(** Element [(k,j)] of op(B), B row-major: K x N when not transposed,
    N x K when transposed. *)
Definition opB (tB : CBLAS_TRANSPOSE) (N K : nat) (B : list D) (k j : nat) : D :=
  match tB with
  | CblasNoTrans => at_ B (k * N + j)
  | CblasTrans => at_ B (j * K + k)
  end.

Definition gemm_entry (tA tB : CBLAS_TRANSPOSE) (M N K : nat) (alpha : D)
    (A B : list D) (beta : D) (idx : nat) (c : D) : D :=
  let i := idx / N in
  let j := idx mod N in
  d_add (d_mul alpha (sum_upto K (fun k => d_mul (opA tA M K A i k) (opB tB N K B k j))))
        (d_mul beta c).

(** Modelled from the spec: caffe_cpu_gemm is declared in
    caffe/util/math_functions.hpp, whose implementation is not in this file.  It is
    the row-major GEMM(transA, transB, M, N, K, alpha, A, B, beta, C) of the
    spec's provider contract: C := alpha * op(A) * op(B) + beta * C on the
    first M*N entries of C.  [None] stands for an access outside one of the
    three buffers (undefined behaviour in C++). *)
Definition caffe_cpu_gemm (tA tB : CBLAS_TRANSPOSE) (M N K : nat) (alpha : D)
    (A B : list D) (beta : D) (C : list D) : option (list D) :=
  if (M * K <=? length A) && (K * N <=? length B) && (M * N <=? length C)
  then Some (imap (fun idx c => if idx <? M * N
                                then gemm_entry tA tB M N K alpha A B beta idx c
                                else c) C)
  else None.

(** Modelled from the spec: caffe_cpu_gemv, the provider's
    GEMV(trans, M, N, alpha, A, x, beta, y) with A row-major M x N:
    y := alpha * op(A) * x + beta * y, where y has M entries when A is not
    transposed and N entries when it is. *)
Definition caffe_cpu_gemv (tA : CBLAS_TRANSPOSE) (M N : nat) (alpha : D)
    (A x : list D) (beta : D) (y : list D) : option (list D) :=
  let rows := match tA with CblasNoTrans => M | CblasTrans => N end in
  let cols := match tA with CblasNoTrans => N | CblasTrans => M end in
  if (M * N <=? length A) && (cols <=? length x) && (rows <=? length y)
  then Some (imap (fun r c =>
         if r <? rows
         then d_add (d_mul alpha (sum_upto cols (fun k =>
                       d_mul (match tA with
                              | CblasNoTrans => at_ A (r * N + k)
                              | CblasTrans => at_ A (k * N + r)
                              end) (at_ x k))))
                    (d_mul beta c)
         else c) y)
  else None.

(** The [n] elements [x[p], x[p+inc], ..., x[p+(n-1)*inc]] lie inside [x].
    The C++ passes the pointer [weight] (advanced by [off] per iteration);
    the model passes the buffer and the pointer's offset [p] in it. *)
Definition strided_ok (n p inc : nat) (x : list D) : bool :=
  (n =? 0) || (p + (n - 1) * inc <? length x).

(** Modelled from the spec: caffe_cpu_norm2, the provider's
    Norm2(n, x, stride): the Euclidean norm of the [n] strided elements. *)
Definition caffe_cpu_norm2 (n : nat) (x : list D) (p inc : nat) : option D :=
  if strided_ok n p inc x
  then Some (d_sqrt (sum_upto n (fun j => d_mul (at_ x (p + j * inc)) (at_ x (p + j * inc)))))
  else None.

(** The buffer after the first [n] steps of the scale loop
    [for (j = 0; j < n; ++j) x[p + j*inc] *= alpha]. *)
Definition scal_steps (alpha : D) (p inc : nat) (n : nat) (x : list D) : list D :=
  fold_left (fun buf j => <[p + j * inc := d_mul alpha (at_ buf (p + j * inc))]> buf)
            (seq 0 n) x.

(** Modelled from the spec: caffe_scal, the provider's
    Scale(n, alpha, x, stride): [x[p + j*inc] *= alpha] for [j < n]. *)
Definition caffe_scal (n : nat) (alpha : D) (x : list D) (p inc : nat) : option (list D) :=
  if strided_ok n p inc x
  then Some (scal_steps alpha p inc n x)
  else None.

(** Modelled from the spec: the accelerator variants have "identical
    numerical results" to the CPU ones; residency of the buffer is owned by
    SyncedMemory and is not part of this model. *)
Definition caffe_gpu_norm2 := caffe_cpu_norm2.
Definition caffe_gpu_scal := caffe_scal.
End Blas.

(** ** Blobs (caffe/blob.hpp) *)

(** Modelled from the spec: Blob is declared in caffe/blob.hpp.  A tensor in
    the (batch, channels, height, width) convention with a [data] view and a
    [diff] view of equal shape, both flat row-major buffers. *)
Record Blob (D : Type) := mkBlob {
  num : nat;
  channels : nat;
  height : nat;
  width : nat;
  data : list D;      (* cpu_data() / mutable_cpu_data() *)
  diff : list D       (* cpu_diff() / mutable_cpu_diff() *)
}.
Arguments mkBlob {D}.
Arguments num {D}.
Arguments channels {D}.
Arguments height {D}.
Arguments width {D}.
Arguments data {D}.
Arguments diff {D}.

(** Initializer strategy: the value a filler stores at each index of the blob
    it is given.  [Fill] below writes [count] of them, so a filler cannot
    change a blob's shape. *)
Definition Filler (D : Type) := Blob D -> nat -> D.

(** layer_param_.inner_product_param() *)
Record InnerProductParameter (D : Type) := mkParam {
  num_output : nat;
  bias_term : bool;
  weight_filler : Filler D;
  bias_filler : Filler D
}.
Arguments mkParam {D}.
Arguments num_output {D}.
Arguments bias_term {D}.
Arguments weight_filler {D}.
Arguments bias_filler {D}.

(** The members of InnerProductLayer the four operations read or write.
    [blobs_] is the Parameter Store; [bias_multiplier_] is a shared pointer
    that is null until [SetUp] allocates it. *)
Record InnerProductLayer (D : Type) := mkLayer {
  layer_param_ : InnerProductParameter D;
  M_ : nat;
  K_ : nat;
  N_ : nat;
  bias_term_ : bool;
  blobs_ : list (Blob D);
  bias_multiplier_ : option (list D)
}.
Arguments mkLayer {D}.
Arguments layer_param_ {D}.
Arguments M_ {D}.
Arguments K_ {D}.
Arguments N_ {D}.
Arguments bias_term_ {D}.
Arguments blobs_ {D}.
Arguments bias_multiplier_ {D}.

(** Caffe::mode(): the enum Brew { CPU, GPU } read as the integer it is
    stored as, so that a value outside the enum can reach [default:]. *)
Definition Brew := Z.
Definition CPU : Brew := 0%Z.
Definition GPU : Brew := 1%Z.

(** How a call ends: a normal return, LOG(FATAL) (the process aborts; the
    payload is the state at that moment), or undefined behaviour (an index
    outside a vector or buffer, a null pointer). *)
Inductive outcome (A : Type) :=
| Returned (a : A)
| Fatal (a : A)
| Undefined.
Arguments Returned {A}.
Arguments Fatal {A}.
Arguments Undefined {A}.

(** One strided group handed to the norm and scale primitives: where it
    starts (as an offset from the buffer's base), how many elements it has
    and how far apart they are. *)
Record group := mkGroup { g_start : nat; g_count : nat; g_stride : nat }.

(** The layer's operations return [option]: [None] is undefined behaviour in
    the C++ (an index outside [bottom], [top], [blobs_] or a buffer, a null
    [bias_multiplier_], a division by zero). *)
Section Layer.
Context {D : Type} `{Dtype D}.

Definition count (b : Blob D) : nat := num b * channels b * height b * width b.

(** Blob::offset(n, c, h, w): the row-major index of element (n, c, h, w);
    part of the Blob model above. *)
Definition offset (b : Blob D) (n c h w : nat) : nat :=
  ((n * channels b + c) * height b + h) * width b + w.

(** new Blob<Dtype>(n, c, h, w): freshly allocated, zero-filled views. *)
Definition new_Blob (n c h w : nat) : Blob D :=
  mkBlob n c h w (replicate (n * c * h * w) d_zero) (replicate (n * c * h * w) d_zero).

(** Blob::Reshape(n, c, h, w) reallocates both views. *)
Definition Reshape (b : Blob D) (n c h w : nat) : Blob D := new_Blob n c h w.

Definition set_data (b : Blob D) (d : list D) : Blob D :=
  mkBlob (num b) (channels b) (height b) (width b) d (diff b).

Definition set_diff (b : Blob D) (d : list D) : Blob D :=
  mkBlob (num b) (channels b) (height b) (width b) (data b) d.

(** filler->Fill(blob) *)
Definition Fill (f : Filler D) (b : Blob D) : Blob D :=
  set_data b (map (f b) (seq 0 (count b))).

(** [for (int i = 0; i < M_; ++i) bias_multiplier_data[i] = 1.;] on a fresh
    SyncedMemory of [M_] scalars. *)
Definition fill_ones (M : nat) : list D :=
  fold_left (fun buf i => <[i := d_one]> buf) (seq 0 M) (replicate M d_zero).

(** InnerProductLayer::SetUp.  Layer<Dtype>::SetUp (the base class, which
    only checks the number of bottom and top blobs) is not modelled. *)
Definition SetUp (l : InnerProductLayer D) (bottom top : list (Blob D))
    : option (InnerProductLayer D * list (Blob D)) :=
  b ← bottom !! 0;
  t ← top !! 0;
  (* count() / num() divides by zero on an empty batch *)
  if num b =? 0 then None else
  let num_output := num_output (layer_param_ l) in
  let bias := bias_term (layer_param_ l) in
  let M := num b in
  let K := count b / num b in
  let N := num_output in
  let top' := <[0 := Reshape t (num b) num_output 1 1]> top in
  let blobs' :=
    if 0 <? length (blobs_ l)
    then blobs_ l                           (* "Skipping parameter initialization" *)
    else
      let weight := Fill (weight_filler (layer_param_ l)) (new_Blob 1 1 N K) in
      if bias
      then [weight; Fill (bias_filler (layer_param_ l)) (new_Blob 1 1 1 N)]
      else [weight] in
  let bm := if bias then Some (fill_ones M) else bias_multiplier_ l in
  Some (mkLayer (layer_param_ l) M K N bias blobs' bm, top').

(** InnerProductLayer::Forward_cpu.  Returns the layer (not written), the
    top blobs and the scalar the function returns. *)
Definition Forward_cpu (l : InnerProductLayer D) (bottom top : list (Blob D))
    : option (InnerProductLayer D * list (Blob D) * D) :=
  b ← bottom !! 0;
  t ← top !! 0;
  w ← blobs_ l !! 0;
  top_data ← caffe_cpu_gemm CblasNoTrans CblasTrans (M_ l) (N_ l) (K_ l) d_one
               (data b) (data w) d_zero (data t);
  top_data ← (if bias_term_ l
              then bm ← bias_multiplier_ l;
                   bias ← blobs_ l !! 1;
                   caffe_cpu_gemm CblasNoTrans CblasNoTrans (M_ l) (N_ l) 1 d_one
                     bm (data bias) d_one top_data
              else Some top_data);
  Some (l, <[0 := set_data t top_data]> top, d_zero).

Definition set_blobs (l : InnerProductLayer D) (bs : list (Blob D)) : InnerProductLayer D :=
  mkLayer (layer_param_ l) (M_ l) (K_ l) (N_ l) (bias_term_ l) bs (bias_multiplier_ l).

(** InnerProductLayer::Backward_cpu.  Returns the layer and the bottom
    blobs; [top] is only read. *)
Definition Backward_cpu (l : InnerProductLayer D) (top : list (Blob D))
    (propagate_down : bool) (bottom : list (Blob D))
    : option (InnerProductLayer D * list (Blob D)) :=
  t ← top !! 0;
  b ← bottom !! 0;
  let top_diff := diff t in
  let bottom_data := data b in
  (* Gradient with respect to weight *)
  w ← blobs_ l !! 0;
  wdiff ← caffe_cpu_gemm CblasTrans CblasNoTrans (N_ l) (K_ l) (M_ l) d_one
            top_diff bottom_data d_zero (diff w);
  let blobs1 := <[0 := set_diff w wdiff]> (blobs_ l) in
  (* Gradient with respect to bias *)
  blobs2 ← (if bias_term_ l
            then bm ← bias_multiplier_ l;
                 bias ← blobs1 !! 1;
                 bdiff ← caffe_cpu_gemv CblasTrans (M_ l) (N_ l) d_one top_diff
                           bm d_zero (diff bias);
                 Some (<[1 := set_diff bias bdiff]> blobs1)
            else Some blobs1);
  (* Gradient with respect to bottom data *)
  bottom' ← (if propagate_down
             then w' ← blobs2 !! 0;
                  bdiff ← caffe_cpu_gemm CblasNoTrans CblasNoTrans (M_ l) (K_ l) (N_ l) d_one
                            top_diff (data w') d_zero (diff b);
                  Some (<[0 := set_diff b bdiff]> bottom)
             else Some bottom);
  Some (set_blobs l blobs2, bottom').

(** The loop shared by the four branches of the two overloads:
<<
    for (int i = 0; i < N; ++i) {
      Dtype nrm = norm2(M, weight, N);
      if (test nrm) scal(M, factor nrm, weight, N);
      weight += off;
    }
>>
    [rescale nrm] is [Some (factor nrm)] when the test holds.  [p] is the
    distance of the pointer [weight] from the buffer's base.  Besides the
    buffer the loop returns the groups it visited, in order. *)
Fixpoint column_loop
    (norm2 : nat -> list D -> nat -> nat -> option D)
    (scal : nat -> D -> list D -> nat -> nat -> option (list D))
    (rescale : D -> option D)
    (iters M N off : nat) (weight : list D) (p : nat)
    : option (list D * list group) :=
  match iters with
  | 0 => Some (weight, [])
  | S iters' =>
      nrm ← norm2 M weight p N;
      weight' ← match rescale nrm with
                | Some factor => scal M factor weight p N
                | None => Some weight
                end;
      '(weight'', visited) ← column_loop norm2 scal rescale iters' M N off weight' (p + off);
      Some (weight'', mkGroup p M N :: visited)
  end.

(** [if (nrm > mnorm) ... mnorm / (nrm + Dtype(1e-7))] *)
Definition clamp_rescale (mnorm : D) (nrm : D) : option D :=
  if d_gt nrm mnorm then Some (d_div mnorm (d_add nrm d_eps)) else None.

(** [if (nrm > max_norm || nrm < min_norm) ... target_norm / (nrm + Dtype(1e-7))] *)
Definition band_rescale (min_norm max_norm target_norm : D) (nrm : D) : option D :=
  if d_gt nrm max_norm || d_lt nrm min_norm
  then Some (d_div target_norm (d_add nrm d_eps))
  else None.

(** What both overloads do with the buffer a loop returns: it is the
    weight blob's data view, written in place. *)
Definition store_weight (l : InnerProductLayer D) (w : Blob D)
    (r : option (list D * list group)) : outcome (InnerProductLayer D * list group) :=
  match r with
  | Some (weight, visited) =>
      Returned (set_blobs l (<[0 := set_data w weight]> (blobs_ l)), visited)
  | None => Undefined
  end.

(** InnerProductLayer::normalize_weights(Dtype mnorm) *)
Definition normalize_weights (mode : Brew) (l : InnerProductLayer D) (mnorm : D)
    : outcome (InnerProductLayer D * list group) :=
  match blobs_ l !! 0 with
  | None => Undefined
  | Some w =>
      let M := height w in
      let N := width w in
      let off := offset w 0 0 0 1 in
      if (mode =? CPU)%Z then
        store_weight l w
          (column_loop caffe_cpu_norm2 caffe_scal (clamp_rescale mnorm) N M N off (data w) 0)
      else if (mode =? GPU)%Z then
        store_weight l w
          (column_loop caffe_gpu_norm2 caffe_gpu_scal (clamp_rescale mnorm) N M N off (data w) 0)
      else Fatal (l, [])                     (* LOG(FATAL) << "Unknown caffe mode." *)
  end.

(** InnerProductLayer::normalize_weights(Dtype min_norm, Dtype max_norm,
    Dtype target_norm) *)
Definition normalize_weights_3 (mode : Brew) (l : InnerProductLayer D)
    (min_norm max_norm target_norm : D)
    : outcome (InnerProductLayer D * list group) :=
  match blobs_ l !! 0 with
  | None => Undefined
  | Some w =>
      let M := height w in
      let N := width w in
      let off := offset w 0 0 0 1 in
      if (mode =? CPU)%Z then
        store_weight l w
          (column_loop caffe_cpu_norm2 caffe_scal
             (band_rescale min_norm max_norm target_norm) N M N off (data w) 0)
      else if (mode =? GPU)%Z then
        store_weight l w
          (column_loop caffe_gpu_norm2 caffe_gpu_scal
             (band_rescale min_norm max_norm target_norm) N M N off (data w) 0)
      else Fatal (l, [])                     (* LOG(FATAL) << "Unknown caffe mode." *)
  end.
End Layer.

(** ** Matrices as index functions (the vocabulary of the statements) *)

Section Matrices.
Context {D : Type} `{Dtype D}.

(** The row-major matrix with [cols] columns stored in [buf]. *)
Definition mat (cols : nat) (buf : list D) : nat -> nat -> D :=
  fun r c => at_ buf (r * cols + c).

Definition transpose (A : nat -> nat -> D) : nat -> nat -> D := fun r c => A c r.

(** Entry [(i,j)] of the product of an (. x K) with a (K x .) matrix. *)
Definition mat_mul (K : nat) (A B : nat -> nat -> D) : nat -> nat -> D :=
  fun i j => sum_upto K (fun k => d_mul (A i k) (B k j)).

(** Column [i] of the row-major [rows x cols] matrix in [buf], top to
    bottom: the elements at [i], [i + cols], [i + 2*cols], ... *)
Definition column (rows cols : nat) (buf : list D) (i : nat) : list D :=
  map (fun j => at_ buf (i + j * cols)) (seq 0 rows).

(** Euclidean norm of a vector. *)
Definition norm (v : list D) : D :=
  d_sqrt (fold_left (fun acc x => d_add acc (d_mul x x)) v d_zero).

(** What one loop iteration does to the column it visits. *)
Definition rescaled (rescale : D -> option D) (col : list D) : list D :=
  match rescale (norm col) with
  | Some factor => map (d_mul factor) col
  | None => col
  end.
End Matrices.


(** ** Well-formed layers and call arguments *)

Section Ready.
Context {D : Type} `{Dtype D}.

(** Both views of a blob hold [n] scalars. *)
Definition has_size (b : Blob D) (n : nat) : Prop :=
  length (data b) = n /\ length (diff b) = n.

(** The state [SetUp] leaves behind: the store holds an [N_ x K_] weight
    blob and, when the bias term is on, an [N_]-element bias blob, and the
    bias multiplier has [M_] elements.  Under it no index the operations use
    leaves its buffer. *)
Definition layer_ready (l : InnerProductLayer D) : Prop :=
  (exists w, blobs_ l !! 0 = Some w /\ height w = N_ l /\ width w = K_ l /\
             has_size w (N_ l * K_ l)) /\
  (bias_term_ l = true ->
   exists bias bm, blobs_ l !! 1 = Some bias /\ has_size bias (N_ l) /\
                   bias_multiplier_ l = Some bm /\ length bm = M_ l).

(** [bottom[0]] is an [M_ x K_] blob and [top[0]] an [M_ x N_] blob. *)
Definition io_ready (l : InnerProductLayer D) (bottom top : list (Blob D)) : Prop :=
  exists b t, bottom !! 0 = Some b /\ top !! 0 = Some t /\
              has_size b (M_ l * K_ l) /\ has_size t (M_ l * N_ l).

(** [SetUp] can run: there is a [bottom[0]] with a non-empty batch and a
    [top[0]]. *)
Definition setup_args (bottom top : list (Blob D)) : Prop :=
  exists b t, bottom !! 0 = Some b /\ top !! 0 = Some t /\ num b <> 0.

(** Views used by the statements; the empty buffer stands for a blob that
    is not there. *)
Definition data0 (bs : list (Blob D)) : list D :=
  match bs !! 0 with Some b => data b | None => [] end.
Definition diff0 (bs : list (Blob D)) : list D :=
  match bs !! 0 with Some b => diff b | None => [] end.
Definition data1 (bs : list (Blob D)) : list D :=
  match bs !! 1 with Some b => data b | None => [] end.
Definition diff1 (bs : list (Blob D)) : list D :=
  match bs !! 1 with Some b => diff b | None => [] end.
Definition multiplier (l : InnerProductLayer D) : list D :=
  match bias_multiplier_ l with Some bm => bm | None => [] end.

(** Everything of a blob except its [diff] view. *)
Definition same_but_diff (b b' : Blob D) : Prop :=
  num b' = num b /\ channels b' = channels b /\ height b' = height b /\
  width b' = width b /\ data b' = data b.

(** The layer with another configuration (same store and dimensions). *)
Definition with_param (l : InnerProductLayer D) (p : InnerProductParameter D)
    : InnerProductLayer D :=
  mkLayer p (M_ l) (K_ l) (N_ l) (bias_term_ l) (blobs_ l) (bias_multiplier_ l).

(** The walk of the weight buffer in the words of the specification: [N_]
    groups (one per output unit), group [i] starting at [i * off], each of
    [K_] elements spaced [N_] apart. *)
Definition groups_as_specified (l : InnerProductLayer D) (off : nat) : list group :=
  map (fun i => mkGroup (i * off) (K_ l) (N_ l)) (seq 0 (N_ l)).

(** The walk the code performs on a weight blob [w]: [width w] groups,
    group [i] starting at [i * off], each of [height w] elements spaced
    [width w] apart. *)
Definition groups_walked (w : Blob D) (off : nat) : list group :=
  map (fun i => mkGroup (i * off) (height w) (width w)) (seq 0 (width w)).
End Ready.

(** ** Concrete layers *)

(** A layer over the reals as [SetUp] leaves it for one example of two
    features and one output unit with a bias term ([M_ = 1], [K_ = 2],
    [N_ = 1]), with its bottom and top blobs. *)
Definition cfg_R : InnerProductParameter R :=
  mkParam 1 true (fun _ _ => 1%R) (fun _ _ => 0%R).
Definition fresh_R : InnerProductLayer R := mkLayer cfg_R 0 0 0 false [] None.
Definition layer_R : InnerProductLayer R :=
  mkLayer cfg_R 1 2 1 true
    [mkBlob 1 1 1 2 [1; 1]%R [0; 0]%R; mkBlob 1 1 1 1 [0%R] [0%R]]
    (Some [1%R]).
Definition bottom_R : list (Blob R) := [mkBlob 1 2 1 1 [3; 4]%R [0; 0]%R].
Definition top_R : list (Blob R) := [mkBlob 1 1 1 1 [0%R] [5%R]].

(** A 1 x 1 weight of value 1, and one of value 0, without bias. *)
Definition unit_R : InnerProductLayer R :=
  mkLayer (mkParam 1 false (fun _ _ => 1%R) (fun _ _ => 0%R)) 1 1 1 false
    [mkBlob 1 1 1 1 [1%R] [0%R]] None.
Definition zero_R : InnerProductLayer R :=
  mkLayer (mkParam 1 false (fun _ _ => 0%R) (fun _ _ => 0%R)) 1 1 1 false
    [mkBlob 1 1 1 1 [0%R] [0%R]] None.

(** [Dtype = double]: one output unit over two input features, weights 3
    and 4, before and after [SetUp] on a batch of one example. *)
Definition cfg_double : InnerProductParameter PrimFloat.float :=
  mkParam 1 false (fun _ i => match i with 0 => 3%float | _ => 4%float end)
    (fun _ _ => 0%float).
Definition fresh_double : InnerProductLayer PrimFloat.float :=
  mkLayer cfg_double 0 0 0 false [] None.
Definition bottom_double : list (Blob PrimFloat.float) :=
  [mkBlob 1 2 1 1 [1; 2]%float [0; 0]%float].
Definition top_double : list (Blob PrimFloat.float) := [mkBlob 0 0 0 0 [] []].
Definition narrow_double : InnerProductLayer PrimFloat.float :=
  mkLayer cfg_double 1 2 1 false [mkBlob 1 1 1 2 [3; 4]%float [0; 0]%float] None.

(** [Dtype = double]: a 1 x 1 weight of value 91e11. *)
Definition large_double : InnerProductLayer PrimFloat.float :=
  mkLayer cfg_double 1 1 1 false [mkBlob 1 1 1 1 [9100000000000%float] [0%float]] None.

(** ** Vocabulary of the further properties *)

(** The groups in [visited] are pairwise disjoint and together hold
    exactly the indices of a [rows x cols] plane: every index below
    [rows * cols] is element [j] of some group [i], no group reaches past the
    plane, and no index is reached twice. *)
Definition covers_plane_once (rows cols : nat) (visited : list group) : Prop :=
  (forall idx, idx < rows * cols ->
     exists i j g, visited !! i = Some g /\ j < g_count g /\
                   idx = g_start g + j * g_stride g) /\
  (forall i j g, visited !! i = Some g -> j < g_count g ->
     g_start g + j * g_stride g < rows * cols) /\
  (forall i i' j j' g g',
     visited !! i = Some g -> visited !! i' = Some g' ->
     j < g_count g -> j' < g_count g' ->
     g_start g + j * g_stride g = g_start g' + j' * g_stride g' ->
     i = i' /\ j = j').


(** A layer over the reals with one output unit over two input features,
    weights 2 and 3, bias 10, for a batch of one example; and one with
    weights 3 and 4 and no bias. *)
Definition biased_R : InnerProductLayer R :=
  mkLayer (mkParam 1 true (fun _ _ => 0%R) (fun _ _ => 0%R)) 1 2 1 true
    [mkBlob 1 1 1 2 [2; 3]%R [0; 0]%R; mkBlob 1 1 1 1 [10%R] [0%R]]
    (Some [1%R]).
Definition narrow_R : InnerProductLayer R :=
  mkLayer (mkParam 1 false (fun _ _ => 0%R) (fun _ _ => 0%R)) 1 2 1 false
    [mkBlob 1 1 1 2 [3; 4]%R [0; 0]%R] None.
(** ** Lemmas on the provider *)

Section BlasFacts.
Context {D : Type} `{Dtype D}.

Lemma at_lookup (x : list D) (i : nat) (v : D) : x !! i = Some v -> at_ x i = v.
Proof. intros Hl. unfold at_. by rewrite nth_lookup, Hl. Qed.

Lemma at_imap (f : nat -> D -> D) (x : list D) (i : nat) :
  i < length x -> at_ (imap f x) i = f i (at_ x i).
Proof.
  intros Hi. destruct (lookup_lt_is_Some_2 x i Hi) as [v Hv].
  rewrite (at_lookup x i v Hv). apply at_lookup.
  by rewrite list_lookup_imap, Hv.
Qed.

Lemma at_imap_ge (f : nat -> D -> D) (x : list D) (i : nat) :
  length x <= i -> at_ (imap f x) i = at_ x i.
Proof.
  intros Hi. unfold at_.
  rewrite !nth_overflow; [done | lia | by rewrite length_imap].
Qed.

Lemma at_insert_eq (x : list D) (i : nat) (v : D) :
  i < length x -> at_ (<[i := v]> x) i = v.
Proof. intros Hi. apply at_lookup. by apply list_lookup_insert_eq. Qed.

Lemma at_insert_ne (x : list D) (i j : nat) (v : D) :
  i <> j -> at_ (<[i := v]> x) j = at_ x j.
Proof. intros Hne. unfold at_. by rewrite !nth_lookup, list_lookup_insert_ne. Qed.

Lemma sum_upto_ext (n : nat) (f g : nat -> D) :
  (forall k, k < n -> f k = g k) -> sum_upto n f = sum_upto n g.
Proof.
  unfold sum_upto. generalize d_zero.
  induction n as [|n IH]; intros acc Hfg; [done|].
  rewrite !seq_S, !fold_left_app. simpl.
  rewrite IH by (intros; apply Hfg; lia). by rewrite Hfg by lia.
Qed.

Lemma sum_upto_map (n : nat) (f : nat -> D) (g : D -> D) :
  sum_upto n (fun k => g (f k)) =
  fold_left (fun acc x => d_add acc (g x)) (map f (seq 0 n)) d_zero.
Proof.
  unfold sum_upto. generalize d_zero (seq 0 n).
  intros acc s. revert acc. induction s as [|k s IH]; intros acc; simpl; [done|].
  apply IH.
Qed.

Lemma index_split (N i j : nat) : j < N -> (i * N + j) / N = i /\ (i * N + j) mod N = j.
Proof.
  intros Hj. split.
  - rewrite Nat.div_add_l by lia. rewrite Nat.div_small by lia. lia.
  - rewrite Nat.add_comm, Nat.Div0.mod_add. by apply Nat.mod_small.
Qed.

Lemma index_bound (M N i j : nat) : i < M -> j < N -> i * N + j < M * N.
Proof. nia. Qed.

(** What a successful GEMM leaves in C. *)
Lemma caffe_cpu_gemm_spec tA tB M N K alpha (A B : list D) beta C :
  M * K <= length A -> K * N <= length B -> M * N <= length C ->
  exists C', caffe_cpu_gemm tA tB M N K alpha A B beta C = Some C' /\
    length C' = length C /\
    (forall i j, i < M -> j < N ->
       at_ C' (i * N + j) =
       d_add (d_mul alpha (sum_upto K (fun k => d_mul (opA tA M K A i k) (opB tB N K B k j))))
             (d_mul beta (at_ C (i * N + j)))) /\
    (forall idx, M * N <= idx -> at_ C' idx = at_ C idx).
Proof.
  intros HA HB HC. unfold caffe_cpu_gemm.
  rewrite !(proj2 (Nat.leb_le _ _)) by done. simpl.
  eexists. split; [done|]. split; [by rewrite length_imap|]. split.
  - intros i j Hi Hj. pose proof (index_bound M N i j Hi Hj) as Hlt.
    rewrite at_imap by lia.
    rewrite (proj2 (Nat.ltb_lt _ _)) by done.
    unfold gemm_entry. by destruct (index_split N i j Hj) as [-> ->].
  - intros idx Hge. destruct (decide (idx < length C)) as [Hlt|Hlt].
    + rewrite at_imap by done. by rewrite (proj2 (Nat.ltb_ge _ _)).
    + apply at_imap_ge. lia.
Qed.

(** What a successful transposed GEMV leaves in y. *)
Lemma caffe_cpu_gemv_trans_spec M N alpha (A x : list D) beta y :
  M * N <= length A -> M <= length x -> N <= length y ->
  exists y', caffe_cpu_gemv CblasTrans M N alpha A x beta y = Some y' /\
    length y' = length y /\
    (forall j, j < N ->
       at_ y' j =
       d_add (d_mul alpha (sum_upto M (fun k => d_mul (at_ A (k * N + j)) (at_ x k))))
             (d_mul beta (at_ y j))) /\
    (forall idx, N <= idx -> at_ y' idx = at_ y idx).
Proof.
  intros HA Hx Hy. unfold caffe_cpu_gemv.
  rewrite !(proj2 (Nat.leb_le _ _)) by done. simpl.
  eexists. split; [done|]. split; [by rewrite length_imap|]. split.
  - intros j Hj. rewrite at_imap by lia.
    by rewrite (proj2 (Nat.ltb_lt _ _)).
  - intros idx Hge. destruct (decide (idx < length y)) as [Hlt|Hlt].
    + rewrite at_imap by done. by rewrite (proj2 (Nat.ltb_ge _ _)).
    + apply at_imap_ge. lia.
Qed.
End BlasFacts.

(** ** Strided groups: norm, scale and the column loop *)

Section Strided.
Context {D : Type} `{Dtype D}.

Lemma stride_inj (W i i' j j' : nat) :
  i < W -> i' < W -> i + j * W = i' + j' * W -> i = i' /\ j = j'.
Proof.
  intros Hi Hi' Heq.
  assert (i = i') as ->.
  { apply (f_equal (fun v => v mod W)) in Heq.
    rewrite !Nat.Div0.mod_add, !Nat.mod_small in Heq; done. }
  split; [done | nia].
Qed.

Lemma strided_ok_column (rows cols i : nat) (x : list D) :
  i < cols -> rows * cols <= length x -> strided_ok rows i cols x = true.
Proof.
  intros Hi Hlen. unfold strided_ok. destruct rows as [|r]; [done|].
  simpl. apply Nat.ltb_lt. rewrite Nat.sub_0_r. nia.
Qed.

Lemma scal_steps_S alpha p inc n x :
  scal_steps alpha p inc (S n) x =
  <[p + n * inc := d_mul alpha (at_ (scal_steps alpha p inc n x) (p + n * inc))]>
    (scal_steps alpha p inc n x).
Proof. unfold scal_steps. by rewrite seq_S, fold_left_app. Qed.

Lemma scal_steps_length alpha p inc n x :
  length (scal_steps alpha p inc n x) = length x.
Proof.
  induction n as [|n IH]; [done|].
  by rewrite scal_steps_S, length_insert.
Qed.

Lemma scal_steps_other alpha p inc n x idx :
  (forall j, j < n -> idx <> p + j * inc) ->
  at_ (scal_steps alpha p inc n x) idx = at_ x idx.
Proof.
  induction n as [|n IH]; intros Hne; [done|].
  rewrite scal_steps_S, at_insert_ne.
  - apply IH. intros j Hj. apply Hne. lia.
  - intros Heq. apply (Hne n); [lia | done].
Qed.

Lemma scal_steps_hit alpha p inc n x j :
  0 < inc -> j < n -> p + j * inc < length x ->
  at_ (scal_steps alpha p inc n x) (p + j * inc) = d_mul alpha (at_ x (p + j * inc)).
Proof.
  intros Hinc. induction n as [|n IH]; intros Hj Hlen; [lia|].
  rewrite scal_steps_S. destruct (decide (j = n)) as [->|Hjn].
  - rewrite at_insert_eq by (by rewrite scal_steps_length).
    f_equal. apply scal_steps_other. intros j' Hj'. nia.
  - rewrite at_insert_ne by nia. apply IH; [lia | done].
Qed.

Lemma column_ext rows cols (x y : list D) i :
  (forall j, j < rows -> at_ x (i + j * cols) = at_ y (i + j * cols)) ->
  column rows cols x i = column rows cols y i.
Proof.
  intros Hxy. unfold column. apply map_ext_in.
  intros j Hj%in_seq. apply Hxy. lia.
Qed.

(** The norm primitive on group [i] is the norm of column [i]. *)
Lemma caffe_cpu_norm2_column rows cols (x : list D) i :
  i < cols -> rows * cols <= length x ->
  caffe_cpu_norm2 rows x i cols = Some (norm (column rows cols x i)).
Proof.
  intros Hi Hlen. unfold caffe_cpu_norm2.
  rewrite strided_ok_column by done. f_equal. unfold norm, column. f_equal.
  apply (sum_upto_map rows (fun j => at_ x (i + j * cols)) (fun v => d_mul v v)).
Qed.

(** The scale primitive on group [i] multiplies column [i] and nothing
    else. *)
Lemma caffe_scal_column rows cols alpha (x : list D) i :
  i < cols -> rows * cols <= length x ->
  exists x', caffe_scal rows alpha x i cols = Some x' /\
    length x' = length x /\
    column rows cols x' i = map (d_mul alpha) (column rows cols x i) /\
    (forall i', i' < cols -> i' <> i -> column rows cols x' i' = column rows cols x i') /\
    (forall idx, rows * cols <= idx -> at_ x' idx = at_ x idx).
Proof.
  intros Hi Hlen. unfold caffe_scal. rewrite strided_ok_column by done.
  exists (scal_steps alpha i cols rows x).
  split; [done|]. split; [apply scal_steps_length|]. split; [|split].
  - unfold column. rewrite map_map. apply map_ext_in.
    intros j Hj%in_seq. apply scal_steps_hit; [lia | lia | nia].
  - intros i' Hi' Hne. apply column_ext. intros j Hj.
    apply scal_steps_other. intros j' Hj' Heq.
    by destruct (stride_inj cols i' i j j' Hi' Hi Heq).
  - intros idx Hidx. apply scal_steps_other. intros j Hj. nia.
Qed.

(** The groups the loop visits, whatever the primitives compute. *)
Lemma column_loop_visited norm2 scal (rescale : D -> option D) iters M N off :
  forall (x : list D) p x' visited,
    column_loop norm2 scal rescale iters M N off x p = Some (x', visited) ->
    visited = map (fun i => mkGroup (p + i * off) M N) (seq 0 iters).
Proof.
  induction iters as [|n IH]; intros x p x' visited Hrun; simpl in Hrun.
  - by inversion Hrun.
  - destruct (norm2 M x p N) as [nrm|]; [|done]. simpl in Hrun.
    destruct (match rescale nrm with Some f => scal M f x p N | None => Some x end)
      as [x1|]; [|done]. simpl in Hrun.
    destruct (column_loop norm2 scal rescale n M N off x1 (p + off))
      as [[x2 v]|] eqn:Hrec; [|done].
    simpl in Hrun. inversion Hrun; subst. apply IH in Hrec. subst v.
    simpl. f_equal; [f_equal; lia|].
    rewrite <- seq_shift, map_map. apply map_ext. intros i. f_equal. lia.
Qed.

(** With [off = 1] and [cols] columns the loop started at column [p] leaves
    the columns before [p] alone and rescales each later one by its own
    norm: the groups are disjoint, so no column sees another's update. *)
Lemma column_loop_columns (rescale : D -> option D) rows cols :
  forall n p (x : list D),
    p + n = cols -> rows * cols <= length x ->
    exists x' visited,
      column_loop caffe_cpu_norm2 caffe_scal rescale n rows cols 1 x p = Some (x', visited) /\
      length x' = length x /\
      (forall i, i < p -> column rows cols x' i = column rows cols x i) /\
      (forall i, p <= i < cols ->
         column rows cols x' i = rescaled rescale (column rows cols x i)) /\
      (forall idx, rows * cols <= idx -> at_ x' idx = at_ x idx).
Proof.
  induction n as [|n IH]; intros p x Hp Hlen.
  - exists x, []. repeat split; try done. intros i Hi. lia.
  - simpl. rewrite caffe_cpu_norm2_column by (done || lia). simpl.
    assert (exists x1, match rescale (norm (column rows cols x p)) with
                       | Some f => caffe_scal rows f x p cols
                       | None => Some x
                       end = Some x1 /\
              length x1 = length x /\
              column rows cols x1 p = rescaled rescale (column rows cols x p) /\
              (forall i', i' < cols -> i' <> p ->
                 column rows cols x1 i' = column rows cols x i') /\
              (forall idx, rows * cols <= idx -> at_ x1 idx = at_ x idx))
      as (x1 & -> & Hlen1 & Hsame & Hother & Hpast).
    { unfold rescaled. destruct (rescale _) as [f|].
      - apply caffe_scal_column; [lia | done].
      - exists x. repeat split; done. }
    simpl.
    destruct (IH (p + 1) x1) as (x2 & v & -> & Hlen2 & Hbefore & Hafter & Hpast2);
      [lia | lia |].
    simpl. eexists _, _. split; [done|]. split; [lia|]. split; [|split].
    + intros i Hi. rewrite Hbefore by lia. apply Hother; lia.
    + intros i Hi. destruct (decide (i = p)) as [->|Hne].
      * rewrite Hbefore by lia. done.
      * rewrite Hafter by lia. by rewrite Hother by lia.
    + intros idx Hidx. rewrite Hpast2 by done. by apply Hpast.
Qed.
End Strided.

(** ** Forward and Backward *)

Section ForwardBackward.
Context {D : Type} `{Dtype D} `{!DtypeLaws D}.

Lemma scaled_overwrite (s c : D) : d_add (d_mul d_one s) (d_mul d_zero c) = s.
Proof. by rewrite d_mul_1_l, d_mul_0_l, d_add_0_r. Qed.

(** GEMM with [alpha = 1] and [beta = 0] overwrites C with the product. *)
Lemma gemm_overwrite tA tB M N K (A B C : list D) :
  M * K <= length A -> K * N <= length B -> M * N <= length C ->
  exists C', caffe_cpu_gemm tA tB M N K d_one A B d_zero C = Some C' /\
    length C' = length C /\
    (forall i j, i < M -> j < N ->
       at_ C' (i * N + j) = sum_upto K (fun k => d_mul (opA tA M K A i k) (opB tB N K B k j))) /\
    (forall idx, M * N <= idx -> at_ C' idx = at_ C idx).
Proof.
  intros HA HB HC.
  destruct (caffe_cpu_gemm_spec tA tB M N K d_one A B d_zero C HA HB HC)
    as (C' & Hrun & Hlen & Hin & Hout).
  exists C'. split_and!; try done.
  intros i j Hi Hj. rewrite Hin by done. apply scaled_overwrite.
Qed.

(** GEMM with [alpha = 1] and [beta = 1] adds the product to C. *)
Lemma gemm_accumulate tA tB M N K (A B C : list D) :
  M * K <= length A -> K * N <= length B -> M * N <= length C ->
  exists C', caffe_cpu_gemm tA tB M N K d_one A B d_one C = Some C' /\
    length C' = length C /\
    (forall i j, i < M -> j < N ->
       at_ C' (i * N + j) =
       d_add (sum_upto K (fun k => d_mul (opA tA M K A i k) (opB tB N K B k j)))
             (at_ C (i * N + j))) /\
    (forall idx, M * N <= idx -> at_ C' idx = at_ C idx).
Proof.
  intros HA HB HC.
  destruct (caffe_cpu_gemm_spec tA tB M N K d_one A B d_one C HA HB HC)
    as (C' & Hrun & Hlen & Hin & Hout).
  exists C'. split_and!; try done.
  intros i j Hi Hj. rewrite Hin by done. by rewrite !d_mul_1_l.
Qed.

Lemma Backward_cpu_spec (l : InnerProductLayer D) (top : list (Blob D))
    (propagate_down : bool) (bottom : list (Blob D)) :
  layer_ready l -> io_ready l bottom top ->
  exists w b wdiff blobs' bottom',
    blobs_ l !! 0 = Some w /\ bottom !! 0 = Some b /\
    Backward_cpu l top propagate_down bottom = Some (set_blobs l blobs', bottom') /\
    length wdiff = N_ l * K_ l /\
    (forall i j, i < N_ l -> j < K_ l ->
       at_ wdiff (i * K_ l + j) =
       mat_mul (M_ l) (transpose (mat (N_ l) (diff0 top))) (mat (K_ l) (data0 bottom)) i j) /\
    (if bias_term_ l
     then exists bias bdiff,
            blobs_ l !! 1 = Some bias /\
            blobs' = <[1 := set_diff bias bdiff]> (<[0 := set_diff w wdiff]> (blobs_ l)) /\
            length bdiff = N_ l /\
            forall j, j < N_ l ->
              at_ bdiff j =
              mat_mul (M_ l) (transpose (mat (N_ l) (diff0 top))) (mat 1 (multiplier l)) j 0
     else blobs' = <[0 := set_diff w wdiff]> (blobs_ l)) /\
    (if propagate_down
     then exists xdiff,
            bottom' = <[0 := set_diff b xdiff]> bottom /\
            length xdiff = M_ l * K_ l /\
            forall i j, i < M_ l -> j < K_ l ->
              at_ xdiff (i * K_ l + j) =
              mat_mul (N_ l) (mat (N_ l) (diff0 top)) (mat (K_ l) (data0 (blobs_ l))) i j
     else bottom' = bottom).
Proof.
  intros [(w & Hw & Hh & Hwd & Hwdata & Hwdiff) Hbias] (b & t & Hb & Ht & [Hbd Hbdiff] & [_ Htd]).
  assert (0 < length (blobs_ l)) as Hstore by (by apply lookup_lt_Some in Hw).
  unfold Backward_cpu, data0, diff0. rewrite Hb, Ht, Hw. simpl.
  destruct (gemm_overwrite CblasTrans CblasNoTrans (N_ l) (K_ l) (M_ l)
              (diff t) (data b) (diff w)) as (wdiff & -> & Hlenw & Hinw & _); [lia..|].
  simpl.
  (* the input gradient, for either shape of the store after the bias step *)
  assert (forall blobs2 : list (Blob D),
            blobs2 !! 0 = Some (set_diff w wdiff) ->
            exists bottom',
              (if propagate_down
               then w' ← blobs2 !! 0;
                    bdiff ← caffe_cpu_gemm CblasNoTrans CblasNoTrans (M_ l) (K_ l) (N_ l) d_one
                              (diff t) (data w') d_zero (diff b);
                    Some (<[0 := set_diff b bdiff]> bottom)
               else Some bottom) = Some bottom' /\
              (if propagate_down
               then exists xdiff,
                      bottom' = <[0 := set_diff b xdiff]> bottom /\
                      length xdiff = M_ l * K_ l /\
                      forall i j, i < M_ l -> j < K_ l ->
                        at_ xdiff (i * K_ l + j) =
                        mat_mul (N_ l) (mat (N_ l) (diff t)) (mat (K_ l) (data w)) i j
               else bottom' = bottom)) as Hdown.
  { intros blobs2 H0. destruct propagate_down; [|by exists bottom].
    rewrite H0. simpl.
    destruct (gemm_overwrite CblasNoTrans CblasNoTrans (M_ l) (K_ l) (N_ l)
                (diff t) (data w) (diff b)) as (xdiff & -> & Hlenx & Hinx & _); [lia..|].
    simpl. eexists. split; [done|]. exists xdiff. split_and!; [done | lia |].
    intros i j Hi Hj. by rewrite Hinx. }
  destruct (bias_term_ l) eqn:Hbt.
  - destruct (Hbias eq_refl) as (bias & bm & Hbias1 & [_ Hbiasd] & Hbm & Hbmlen).
    unfold multiplier. rewrite Hbm. simpl.
    rewrite list_lookup_insert_ne, Hbias1 by done. simpl.
    destruct (caffe_cpu_gemv_trans_spec (M_ l) (N_ l) d_one (diff t) bm d_zero (diff bias))
      as (bdiff & -> & Hlenb & Hinb & _); [lia..|].
    simpl.
    destruct (Hdown (<[1 := set_diff bias bdiff]> (<[0 := set_diff w wdiff]> (blobs_ l))))
      as (bottom' & -> & Hbottom).
    { rewrite list_lookup_insert_ne by done. by apply list_lookup_insert_eq. }
    simpl. exists w, b, wdiff. eexists _, bottom'.
    split_and!; [done | done | done | lia | | | done].
    + intros i j Hi Hj. by rewrite Hinw.
    + exists bias, bdiff. split_and!; [done | done | lia |].
      intros j Hj. rewrite Hinb, scaled_overwrite by done.
      unfold mat_mul, transpose, mat. apply sum_upto_ext.
      intros k Hk. do 2 f_equal. lia.
  - simpl.
    destruct (Hdown (<[0 := set_diff w wdiff]> (blobs_ l))) as (bottom' & -> & Hbottom).
    { by apply list_lookup_insert_eq. }
    simpl. exists w, b, wdiff. eexists _, bottom'.
    split_and!; [done | done | done | lia | | done | done].
    intros i j Hi Hj. by rewrite Hinw.
Qed.
End ForwardBackward.

(** ** SetUp *)

Section SetUpFacts.
Context {D : Type} `{Dtype D}.

Lemma fold_insert_length (v : D) (ks : list nat) (buf : list D) :
  length (fold_left (fun buf k => <[k := v]> buf) ks buf) = length buf.
Proof.
  revert buf. induction ks as [|k ks IH]; intros buf; simpl; [done|].
  by rewrite IH, length_insert.
Qed.

Lemma fill_ones_lookup (M n i : nat) :
  n <= M ->
  fold_left (fun buf k => <[k := d_one]> buf) (seq 0 n) (replicate M d_zero) !! i =
  if decide (i < n) then Some d_one else replicate M d_zero !! i.
Proof.
  induction n as [|n IH]; intros Hn.
  - destruct (decide (i < 0)); [lia | done].
  - rewrite seq_S, fold_left_app. cbn [fold_left Nat.add].
    destruct (decide (i = n)) as [->|Hne].
    + rewrite list_lookup_insert_eq.
      * destruct (decide (n < S n)); [done | lia].
      * rewrite fold_insert_length, length_replicate. lia.
    + rewrite list_lookup_insert_ne by done. rewrite IH by lia.
      destruct (decide (i < n)), (decide (i < S n)); (done || lia).
Qed.

(** The loop over the fresh buffer leaves [M] ones. *)
Lemma fill_ones_replicate (M : nat) : fill_ones M = replicate M d_one.
Proof.
  apply list_eq. intros i. unfold fill_ones.
  rewrite fill_ones_lookup by done. destruct (decide (i < M)) as [Hi|Hi].
  - symmetry. by apply lookup_replicate_2.
  - rewrite !(proj2 (lookup_ge_None _ _)); [done | |]; rewrite length_replicate; lia.
Qed.

Lemma new_Blob_size (n c h w : nat) : has_size (new_Blob n c h w) (n * c * h * w).
Proof. split; simpl; by rewrite length_replicate. Qed.

Lemma Fill_new_Blob_size (f : Filler D) (h w : nat) :
  has_size (Fill f (new_Blob 1 1 h w)) (h * w).
Proof.
  split; simpl; rewrite ?length_map, ?length_seq, ?length_replicate;
    unfold count; simpl; lia.
Qed.

(** The result of [SetUp], written out. *)
Lemma SetUp_unfold (l : InnerProductLayer D) (bottom top : list (Blob D)) b t :
  bottom !! 0 = Some b -> top !! 0 = Some t -> num b <> 0 ->
  SetUp l bottom top =
  Some (mkLayer (layer_param_ l) (num b) (count b / num b) (num_output (layer_param_ l))
          (bias_term (layer_param_ l))
          (if 0 <? length (blobs_ l)
           then blobs_ l
           else
             let weight := Fill (weight_filler (layer_param_ l))
                             (new_Blob 1 1 (num_output (layer_param_ l)) (count b / num b)) in
             if bias_term (layer_param_ l)
             then [weight; Fill (bias_filler (layer_param_ l))
                             (new_Blob 1 1 1 (num_output (layer_param_ l)))]
             else [weight])
          (if bias_term (layer_param_ l) then Some (fill_ones (num b)) else bias_multiplier_ l),
        <[0 := Reshape t (num b) (num_output (layer_param_ l)) 1 1]> top).
Proof.
  intros Hb Ht Hnum. unfold SetUp. rewrite Hb, Ht. simpl.
  by rewrite (proj2 (Nat.eqb_neq _ _) Hnum).
Qed.

(** A layer set up from an empty store is ready for the other operations. *)
Lemma SetUp_layer_ready (l l' : InnerProductLayer D) (bottom top top' : list (Blob D)) :
  blobs_ l = [] -> SetUp l bottom top = Some (l', top') -> layer_ready l'.
Proof.
  intros Hempty Hrun. unfold SetUp in Hrun.
  destruct (bottom !! 0) as [b|]; [|done]. destruct (top !! 0) as [t|]; [|done].
  simpl in Hrun. destruct (num b =? 0); [done|].
  rewrite Hempty in Hrun. simpl in Hrun. inversion Hrun; subst; clear Hrun.
  split.
  - eexists. destruct (bias_term (layer_param_ l)); simpl;
      (split_and!; [done | done | done | apply Fill_new_Blob_size]).
  - simpl. intros ->. simpl. eexists _, _.
    split_and!; [done | | done |].
    + pose proof (Fill_new_Blob_size (bias_filler (layer_param_ l)) 1
                    (num_output (layer_param_ l))) as Hsize.
      by rewrite Nat.mul_1_l in Hsize.
    + by rewrite fill_ones_replicate, length_replicate.
Qed.

(** A well-formed bottom blob and the top blob [SetUp] reshapes fit the
    dimensions [SetUp] records. *)
Lemma SetUp_io_ready (l l' : InnerProductLayer D) (bottom top top' : list (Blob D)) b :
  bottom !! 0 = Some b -> has_size b (count b) ->
  SetUp l bottom top = Some (l', top') -> io_ready l' bottom top'.
Proof.
  intros Hb [Hdata Hdiff] Hrun. unfold SetUp in Hrun. rewrite Hb in Hrun.
  destruct (top !! 0) as [t|] eqn:Ht; [|done]. simpl in Hrun.
  destruct (num b =? 0) eqn:Hnum; [done|]. apply Nat.eqb_neq in Hnum.
  inversion Hrun; subst; clear Hrun.
  exists b, (Reshape t (num b) (num_output (layer_param_ l)) 1 1).
  assert (num b * (count b / num b) = count b) as Hcount.
  { unfold count.
    replace (num b * channels b * height b * width b)
      with (channels b * height b * width b * num b) by lia.
    rewrite Nat.div_mul by done. lia. }
  split_and!; [done | | |].
  - apply list_lookup_insert_eq. by apply lookup_lt_Some in Ht.
  - unfold has_size. simpl. rewrite Hcount. done.
  - pose proof (new_Blob_size (num b) (num_output (layer_param_ l)) 1 1) as Hsize.
    unfold Reshape. simpl. by rewrite !Nat.mul_1_r in Hsize.
Qed.
End SetUpFacts.

(** ** normalize_weights *)

Section NormalizeFacts.
Context {D : Type} `{Dtype D}.

Lemma offset_unit (w : Blob D) : offset w 0 0 0 1 = 1.
Proof. reflexivity. Qed.

(** One run of the loop over a weight blob whose first plane lies inside its
    data view: every column is rescaled by its own norm, in place, and
    nothing else of the buffer changes. *)
Lemma store_weight_columns (rescale : D -> option D) (l : InnerProductLayer D) (w : Blob D) :
  height w * width w <= length (data w) ->
  exists buf,
    store_weight l w
      (column_loop caffe_cpu_norm2 caffe_scal rescale (width w) (height w) (width w)
         (offset w 0 0 0 1) (data w) 0) =
    Returned (set_blobs l (<[0 := set_data w buf]> (blobs_ l)), groups_walked w 1) /\
    length buf = length (data w) /\
    (forall i, i < width w ->
       column (height w) (width w) buf i =
       rescaled rescale (column (height w) (width w) (data w) i)) /\
    (forall idx, height w * width w <= idx -> at_ buf idx = at_ (data w) idx).
Proof.
  intros Hsize. rewrite offset_unit.
  destruct (column_loop_columns rescale (height w) (width w) (width w) 0 (data w))
    as (buf & visited & Hrun & Hlen & _ & Hcols & Hpast); [done | done |].
  pose proof (column_loop_visited _ _ _ _ _ _ _ _ _ _ _ Hrun) as ->.
  exists buf. rewrite Hrun. simpl. split_and!; [done | done | | done].
  intros i Hi. apply Hcols. lia.
Qed.

Lemma mode_cases (mode : Brew) :
  (mode = CPU /\ (mode =? CPU)%Z = true) \/
  (mode = GPU /\ (mode =? CPU)%Z = false /\ (mode =? GPU)%Z = true) \/
  (mode <> CPU /\ mode <> GPU /\ (mode =? CPU)%Z = false /\ (mode =? GPU)%Z = false).
Proof.
  destruct (Z.eqb_spec mode CPU) as [->|Hc]; [by left|].
  destruct (Z.eqb_spec mode GPU) as [->|Hg]; [right; by left|].
  right; right. done.
Qed.

Lemma normalize_weights_columns (mode : Brew) (l : InnerProductLayer D) (mnorm : D) (w : Blob D) :
  mode = CPU \/ mode = GPU ->
  blobs_ l !! 0 = Some w -> height w * width w <= length (data w) ->
  exists buf,
    normalize_weights mode l mnorm =
    Returned (set_blobs l (<[0 := set_data w buf]> (blobs_ l)), groups_walked w 1) /\
    length buf = length (data w) /\
    (forall i, i < width w ->
       column (height w) (width w) buf i =
       rescaled (clamp_rescale mnorm) (column (height w) (width w) (data w) i)) /\
    (forall idx, height w * width w <= idx -> at_ buf idx = at_ (data w) idx).
Proof.
  intros Hmode Hw Hsize. unfold normalize_weights. rewrite Hw.
  unfold caffe_gpu_norm2, caffe_gpu_scal.
  destruct (mode_cases mode) as [[_ ->]|[(_ & -> & ->)|(Hc & Hg & _)]];
    [by apply store_weight_columns | by apply store_weight_columns |].
  by destruct Hmode.
Qed.

Lemma normalize_weights_3_columns (mode : Brew) (l : InnerProductLayer D)
    (min_norm max_norm target_norm : D) (w : Blob D) :
  mode = CPU \/ mode = GPU ->
  blobs_ l !! 0 = Some w -> height w * width w <= length (data w) ->
  exists buf,
    normalize_weights_3 mode l min_norm max_norm target_norm =
    Returned (set_blobs l (<[0 := set_data w buf]> (blobs_ l)), groups_walked w 1) /\
    length buf = length (data w) /\
    (forall i, i < width w ->
       column (height w) (width w) buf i =
       rescaled (band_rescale min_norm max_norm target_norm)
         (column (height w) (width w) (data w) i)) /\
    (forall idx, height w * width w <= idx -> at_ buf idx = at_ (data w) idx).
Proof.
  intros Hmode Hw Hsize. unfold normalize_weights_3. rewrite Hw.
  unfold caffe_gpu_norm2, caffe_gpu_scal.
  destruct (mode_cases mode) as [[_ ->]|[(_ & -> & ->)|(Hc & Hg & _)]];
    [by apply store_weight_columns | by apply store_weight_columns |].
  by destruct Hmode.
Qed.

Lemma normalize_weights_fatal (mode : Brew) (l : InnerProductLayer D) (mnorm : D) (w : Blob D) :
  blobs_ l !! 0 = Some w -> mode <> CPU -> mode <> GPU ->
  normalize_weights mode l mnorm = Fatal (l, []).
Proof.
  intros Hw Hc Hg. unfold normalize_weights. rewrite Hw.
  by rewrite (proj2 (Z.eqb_neq _ _) Hc), (proj2 (Z.eqb_neq _ _) Hg).
Qed.

Lemma normalize_weights_3_fatal (mode : Brew) (l : InnerProductLayer D)
    (min_norm max_norm target_norm : D) (w : Blob D) :
  blobs_ l !! 0 = Some w -> mode <> CPU -> mode <> GPU ->
  normalize_weights_3 mode l min_norm max_norm target_norm = Fatal (l, []).
Proof.
  intros Hw Hc Hg. unfold normalize_weights_3. rewrite Hw.
  by rewrite (proj2 (Z.eqb_neq _ _) Hc), (proj2 (Z.eqb_neq _ _) Hg).
Qed.

(** Whatever a normalisation call ends with, the store keeps its size. *)
Lemma store_weight_size (l l' : InnerProductLayer D) (w : Blob D) r (visited : list group) :
  store_weight l w r = Returned (l', visited) \/ store_weight l w r = Fatal (l', visited) ->
  length (blobs_ l') = length (blobs_ l).
Proof.
  unfold store_weight. destruct r as [[buf v]|]; intros [Hr|Hr]; try done.
  inversion Hr; subst. simpl. by rewrite length_insert.
Qed.
End NormalizeFacts.

(** ** What the operations leave alone *)

Section Frames.
Context {D : Type} `{Dtype D}.

(** [Forward_cpu] does not write to the layer. *)
Lemma Forward_cpu_layer (l l' : InnerProductLayer D) (bottom top top' : list (Blob D)) (loss : D) :
  Forward_cpu l bottom top = Some (l', top', loss) -> l' = l /\ loss = d_zero.
Proof.
  unfold Forward_cpu. intros Hrun.
  destruct (bottom !! 0) as [b|]; [|done]. destruct (top !! 0) as [t|]; [|done].
  destruct (blobs_ l !! 0) as [w|]; [|done]. simpl in Hrun.
  destruct (caffe_cpu_gemm _ _ _ _ _ _ _ _ _ _) as [out1|]; [|done]. simpl in Hrun.
  destruct (if bias_term_ l then _ else _) as [out2|]; [|done]. simpl in Hrun.
  by inversion Hrun.
Qed.

(** On a ready layer and fitting blobs [Forward_cpu] returns: no index
    leaves its buffer. *)
Lemma Forward_cpu_returns (l : InnerProductLayer D) (bottom top : list (Blob D)) :
  layer_ready l -> io_ready l bottom top ->
  exists top', Forward_cpu l bottom top = Some (l, top', d_zero).
Proof.
  intros [(w & Hw & Hh & Hwd & Hwdata & Hwdiff) Hbias] (b & t & Hb & Ht & [Hbd _] & [Htd _]).
  unfold Forward_cpu. rewrite Hb, Ht, Hw. simpl.
  destruct (caffe_cpu_gemm_spec CblasNoTrans CblasTrans (M_ l) (N_ l) (K_ l) d_one
              (data b) (data w) d_zero (data t)) as (out1 & -> & Hlen1 & _); [lia..|].
  simpl. destruct (bias_term_ l).
  - destruct (Hbias eq_refl) as (bias & bm & -> & [Hbiasd _] & -> & Hbmlen). simpl.
    destruct (caffe_cpu_gemm_spec CblasNoTrans CblasNoTrans (M_ l) (N_ l) 1 d_one
                bm (data bias) d_one out1) as (out2 & -> & _); [lia..|].
    simpl. eauto.
  - simpl. eauto.
Qed.

Lemma Backward_cpu_store_size (l l' : InnerProductLayer D) (top bottom bottom' : list (Blob D))
    (propagate_down : bool) :
  Backward_cpu l top propagate_down bottom = Some (l', bottom') ->
  length (blobs_ l') = length (blobs_ l).
Proof.
  unfold Backward_cpu. intros Hrun.
  destruct (top !! 0) as [t|]; [|done]. destruct (bottom !! 0) as [b|]; [|done].
  destruct (blobs_ l !! 0) as [w|]; [|done]. simpl in Hrun.
  destruct (caffe_cpu_gemm _ _ _ _ _ _ _ _ _ _) as [wdiff|]; [|done]. simpl in Hrun.
  destruct (if bias_term_ l then _ else _) as [blobs2|] eqn:Hbias; [|done]. simpl in Hrun.
  destruct (if propagate_down then _ else _) as [bottom2|]; [|done]. simpl in Hrun.
  inversion Hrun; subst. simpl.
  destruct (bias_term_ l).
  - destruct (bias_multiplier_ l) as [bm|]; [|done]. simpl in Hbias.
    destruct (_ !! 1) as [bias|]; [|done]. simpl in Hbias.
    destruct (caffe_cpu_gemv _ _ _ _ _ _ _ _) as [bdiff|]; [|done]. simpl in Hbias.
    inversion Hbias; subst. by rewrite !length_insert.
  - inversion Hbias; subst. by rewrite length_insert.
Qed.

Lemma normalize_weights_store_size (mode : Brew) (l l' : InnerProductLayer D) (mnorm : D)
    (visited : list group) :
  normalize_weights mode l mnorm = Returned (l', visited) \/
  normalize_weights mode l mnorm = Fatal (l', visited) ->
  length (blobs_ l') = length (blobs_ l).
Proof.
  unfold normalize_weights. destruct (blobs_ l !! 0) as [w|]; [|by intros [?|?]].
  destruct (mode =? CPU)%Z; [apply store_weight_size|].
  destruct (mode =? GPU)%Z; [apply store_weight_size|].
  intros [Hr|Hr]; [done|]. by inversion Hr.
Qed.

Lemma normalize_weights_3_store_size (mode : Brew) (l l' : InnerProductLayer D)
    (min_norm max_norm target_norm : D) (visited : list group) :
  normalize_weights_3 mode l min_norm max_norm target_norm = Returned (l', visited) \/
  normalize_weights_3 mode l min_norm max_norm target_norm = Fatal (l', visited) ->
  length (blobs_ l') = length (blobs_ l).
Proof.
  unfold normalize_weights_3. destruct (blobs_ l !! 0) as [w|]; [|by intros [?|?]].
  destruct (mode =? CPU)%Z; [apply store_weight_size|].
  destruct (mode =? GPU)%Z; [apply store_weight_size|].
  intros [Hr|Hr]; [done|]. by inversion Hr.
Qed.
End Frames.

(** ** Readiness is an invariant of the layer's life cycle

    [SetUp_layer_ready] establishes it; the operations that write to the
    layer keep it ([Forward_cpu] returns the layer it was given). *)

Section Invariant.
Context {D : Type} `{Dtype D} `{!DtypeLaws D}.

Lemma Backward_cpu_ready (l l' : InnerProductLayer D) (top bottom bottom' : list (Blob D))
    (propagate_down : bool) :
  layer_ready l -> io_ready l bottom top ->
  Backward_cpu l top propagate_down bottom = Some (l', bottom') ->
  layer_ready l' /\ io_ready l' bottom' top.
Proof.
  intros Hl Hio Hrun.
  destruct (Backward_cpu_spec l top propagate_down bottom Hl Hio)
    as (w & b & wdiff & blobs' & bottom2 & Hw & Hb & Hrun' & Hlenw & _ & Hbias & Hdown).
  rewrite Hrun in Hrun'. inversion Hrun'; subst l' bottom'; clear Hrun'.
  destruct Hl as [(w0 & Hw0 & Hh & Hwd & [Hwdata Hwdiff]) Hbias0].
  rewrite Hw in Hw0. inversion Hw0; subst w0; clear Hw0.
  destruct Hio as (b0 & t & Hb0 & Ht & [Hbd Hbdiff] & Htsize).
  rewrite Hb in Hb0. inversion Hb0; subst b0; clear Hb0.
  assert (0 < length (blobs_ l)) as Hstore by (by apply lookup_lt_Some in Hw).
  split.
  - split.
    + exists (set_diff w wdiff). simpl. destruct (bias_term_ l).
      * destruct Hbias as (bias & bdiff & _ & -> & _).
        rewrite list_lookup_insert_ne, list_lookup_insert_eq by done.
        by split_and!.
      * subst blobs'. rewrite list_lookup_insert_eq by done. by split_and!.
    + simpl. intros Hbt. rewrite Hbt in Hbias.
      destruct Hbias as (bias & bdiff & Hbias1 & -> & Hlenb & _).
      destruct (Hbias0 Hbt) as (bias0 & bm & Hbias1' & [Hbdata _] & Hbm & Hbmlen).
      rewrite Hbias1 in Hbias1'. inversion Hbias1'; subst bias0.
      exists (set_diff bias bdiff), bm.
      rewrite list_lookup_insert_eq
        by (rewrite length_insert; by apply lookup_lt_Some in Hbias1).
      by split_and!.
  - destruct propagate_down.
    + destruct Hdown as (xdiff & -> & Hlenx & _).
      exists (set_diff b xdiff), t. simpl.
      rewrite list_lookup_insert_eq by (by apply lookup_lt_Some in Hb).
      by split_and!.
    + subst bottom2. exists b, t. by split_and!.
Qed.

(** A freshly set-up layer can run [Forward_cpu] on the blobs it was set up
    with. *)
Lemma Forward_after_SetUp (l l' : InnerProductLayer D) (bottom top top' : list (Blob D)) b :
  blobs_ l = [] -> bottom !! 0 = Some b -> has_size b (count b) ->
  SetUp l bottom top = Some (l', top') ->
  exists top'', Forward_cpu l' bottom top' = Some (l', top'', d_zero).
Proof.
  intros Hempty Hb Hsize Hrun.
  apply Forward_cpu_returns.
  - by apply (SetUp_layer_ready l l' bottom top top').
  - by apply (SetUp_io_ready l l' bottom top top' b).
Qed.
End Invariant.

Section InvariantNormalize.
Context {D : Type} `{Dtype D}.

Lemma store_weight_ready (l l' : InnerProductLayer D) (w : Blob D) (rescale : D -> option D)
    (visited : list group) :
  layer_ready l -> blobs_ l !! 0 = Some w ->
  store_weight l w
    (column_loop caffe_cpu_norm2 caffe_scal rescale (width w) (height w) (width w)
       (offset w 0 0 0 1) (data w) 0) = Returned (l', visited) ->
  layer_ready l'.
Proof.
  intros [(w0 & Hw0 & Hh & Hwd & [Hwdata Hwdiff]) Hbias] Hw Hrun.
  rewrite Hw in Hw0. inversion Hw0; subst w0; clear Hw0.
  destruct (store_weight_columns rescale l w) as (buf & Hrun' & Hlen & _);
    [rewrite Hh, Hwd; lia|].
  rewrite Hrun in Hrun'. inversion Hrun'; subst l' visited; clear Hrun'.
  assert (0 < length (blobs_ l)) as Hstore by (by apply lookup_lt_Some in Hw).
  split.
  - exists (set_data w buf). simpl. rewrite list_lookup_insert_eq by done.
    unfold has_size. simpl. split_and!; (done || lia).
  - simpl. intros Hbt. destruct (Hbias Hbt) as (bias & bm & Hbias1 & Hsize & Hbm & Hbmlen).
    exists bias, bm. rewrite list_lookup_insert_ne by done. by split_and!.
Qed.

Lemma normalize_weights_ready (mode : Brew) (l l' : InnerProductLayer D) (mnorm : D)
    (visited : list group) :
  layer_ready l -> normalize_weights mode l mnorm = Returned (l', visited) -> layer_ready l'.
Proof.
  intros Hl. pose proof Hl as [(w & Hw & _) _].
  unfold normalize_weights. rewrite Hw. unfold caffe_gpu_norm2, caffe_gpu_scal.
  destruct (mode =? CPU)%Z; [by apply store_weight_ready|].
  destruct (mode =? GPU)%Z; [by apply store_weight_ready | done].
Qed.

Lemma normalize_weights_3_ready (mode : Brew) (l l' : InnerProductLayer D)
    (min_norm max_norm target_norm : D) (visited : list group) :
  layer_ready l ->
  normalize_weights_3 mode l min_norm max_norm target_norm = Returned (l', visited) ->
  layer_ready l'.
Proof.
  intros Hl. pose proof Hl as [(w & Hw & _) _].
  unfold normalize_weights_3. rewrite Hw. unfold caffe_gpu_norm2, caffe_gpu_scal.
  destruct (mode =? CPU)%Z; [by apply store_weight_ready|].
  destruct (mode =? GPU)%Z; [by apply store_weight_ready | done].
Qed.
End InvariantNormalize.

(** ** Running the operations one after another (any scalar type) *)

Section LifeCycle.
Context {D : Type} `{Dtype D}.

(** [Forward_cpu] on a ready layer returns, with the output written over
    the data view of [top[0]]. *)
Lemma Forward_cpu_shape (l : InnerProductLayer D) (bottom top : list (Blob D)) :
  layer_ready l -> io_ready l bottom top ->
  exists t out,
    top !! 0 = Some t /\
    Forward_cpu l bottom top = Some (l, <[0 := set_data t out]> top, d_zero) /\
    length out = M_ l * N_ l.
Proof.
  intros [(w & Hw & Hh & Hwd & Hwdata & Hwdiff) Hbias] (b & t & Hb & Ht & [Hbd _] & [Htd _]).
  unfold Forward_cpu. rewrite Hb, Ht, Hw. simpl.
  destruct (caffe_cpu_gemm_spec CblasNoTrans CblasTrans (M_ l) (N_ l) (K_ l) d_one
              (data b) (data w) d_zero (data t)) as (out1 & -> & Hlen1 & _); [lia..|].
  simpl. destruct (bias_term_ l).
  - destruct (Hbias eq_refl) as (bias & bm & -> & [Hbiasd _] & -> & Hbmlen). simpl.
    destruct (caffe_cpu_gemm_spec CblasNoTrans CblasNoTrans (M_ l) (N_ l) 1 d_one
                bm (data bias) d_one out1) as (out2 & -> & Hlen2 & _); [lia..|].
    simpl. exists t, out2. split_and!; [done | done | lia].
  - simpl. exists t, out1. split_and!; [done | done | lia].
Qed.

(** The blobs [Forward_cpu] returns still fit the layer. *)
Lemma Forward_cpu_io_ready (l : InnerProductLayer D) (bottom top : list (Blob D)) :
  layer_ready l -> io_ready l bottom top ->
  exists top', Forward_cpu l bottom top = Some (l, top', d_zero) /\ io_ready l bottom top'.
Proof.
  intros Hl Hio.
  destruct (Forward_cpu_shape l bottom top Hl Hio) as (t & out & Ht & Hrun & Hlen).
  eexists. split; [exact Hrun|].
  destruct Hio as (b & t0 & Hb & Ht0 & Hbsize & [Htd Htdiff]).
  rewrite Ht in Ht0. inversion Ht0; subst t0.
  exists b, (set_data t out). split_and!; [done | | done | by split].
  apply list_lookup_insert_eq. by apply lookup_lt_Some in Ht.
Qed.

(** [Backward_cpu] on a ready layer returns, and what it returns is ready
    again. *)
Lemma Backward_cpu_keeps_ready (l : InnerProductLayer D) (top : list (Blob D))
    (propagate_down : bool) (bottom : list (Blob D)) :
  layer_ready l -> io_ready l bottom top ->
  exists l' bottom',
    Backward_cpu l top propagate_down bottom = Some (l', bottom') /\
    layer_ready l' /\ io_ready l' bottom' top.
Proof.
  intros [(w & Hw & Hh & Hwd & [Hwdata Hwdiff]) Hbias]
         (b & t & Hb & Ht & [Hbd Hbdiff] & [Htdata Htd]).
  assert (0 < length (blobs_ l)) as Hstore by (by apply lookup_lt_Some in Hw).
  assert (0 < length bottom) as Hbot by (by apply lookup_lt_Some in Hb).
  unfold Backward_cpu. rewrite Hb, Ht, Hw. simpl.
  destruct (caffe_cpu_gemm_spec CblasTrans CblasNoTrans (N_ l) (K_ l) (M_ l) d_one
              (diff t) (data b) d_zero (diff w)) as (wdiff & -> & Hlenw & _); [lia..|].
  simpl.
  assert (exists blobs2,
            (if bias_term_ l
             then bm ← bias_multiplier_ l;
                  bias ← <[0 := set_diff w wdiff]> (blobs_ l) !! 1;
                  bdiff ← caffe_cpu_gemv CblasTrans (M_ l) (N_ l) d_one (diff t)
                            bm d_zero (diff bias);
                  Some (<[1 := set_diff bias bdiff]> (<[0 := set_diff w wdiff]> (blobs_ l)))
             else Some (<[0 := set_diff w wdiff]> (blobs_ l))) = Some blobs2 /\
            blobs2 !! 0 = Some (set_diff w wdiff) /\
            layer_ready (set_blobs l blobs2)) as (blobs2 & -> & Hw2 & Hready).
  { destruct (bias_term_ l) eqn:Hbt.
    - destruct (Hbias eq_refl) as (bias & bm & Hbias1 & [Hbiasdata Hbiasd] & Hbm & Hbmlen).
      assert (1 < length (blobs_ l)) as Hstore1 by (by apply lookup_lt_Some in Hbias1).
      rewrite Hbm. simpl. rewrite list_lookup_insert_ne, Hbias1 by done. simpl.
      destruct (caffe_cpu_gemv_trans_spec (M_ l) (N_ l) d_one (diff t) bm d_zero (diff bias))
        as (bdiff & -> & Hlenb & _); [lia..|].
      simpl. eexists. split; [done|].
      assert (<[1 := set_diff bias bdiff]> (<[0 := set_diff w wdiff]> (blobs_ l)) !! 0 =
              Some (set_diff w wdiff)) as H0.
      { rewrite list_lookup_insert_ne by done. by apply list_lookup_insert_eq. }
      split; [done|]. split.
      + exists (set_diff w wdiff). simpl. unfold has_size. simpl.
        split_and!; (done || lia).
      + simpl. intros _. exists (set_diff bias bdiff), bm. unfold has_size. simpl.
        rewrite list_lookup_insert_eq by (by rewrite length_insert).
        split_and!; (done || lia).
    - eexists. split; [done|].
      assert (<[0 := set_diff w wdiff]> (blobs_ l) !! 0 = Some (set_diff w wdiff)) as H0
        by (by apply list_lookup_insert_eq).
      split; [done|]. split.
      + exists (set_diff w wdiff). simpl. unfold has_size. simpl.
        split_and!; (done || lia).
      + simpl. intros Hbt'. congruence. }
  simpl. destruct propagate_down.
  - rewrite Hw2. simpl.
    destruct (caffe_cpu_gemm_spec CblasNoTrans CblasNoTrans (M_ l) (K_ l) (N_ l) d_one
                (diff t) (data w) d_zero (diff b)) as (xdiff & -> & Hlenx & _); [lia..|].
    simpl. eexists _, _. split; [done|]. split; [done|].
    exists (set_diff b xdiff), t. unfold has_size. simpl.
    rewrite list_lookup_insert_eq by done. split_and!; (done || lia).
  - simpl. eexists _, _. split; [done|]. split; [done|].
    exists b, t. unfold has_size. simpl. split_and!; done.
Qed.
End LifeCycle.

(** ** What one operation leaves for the next *)

Section Compose.
Context {D : Type} `{Dtype D}.

Lemma insert_set_diff_data (bs : list (Blob D)) (i k : nat) (b : Blob D) (d : list D) :
  bs !! i = Some b -> data <$> (<[i := set_diff b d]> bs) !! k = data <$> bs !! k.
Proof.
  intros Hb. destruct (decide (i = k)) as [->|Hne].
  - rewrite list_lookup_insert_eq by (by apply lookup_lt_Some in Hb). by rewrite Hb.
  - by rewrite list_lookup_insert_ne.
Qed.

(** [Backward_cpu] keeps the dimensions, the bias multiplier and every data
    view, of the store and of the bottom blobs. *)
Lemma Backward_cpu_data (l l' : InnerProductLayer D) (top bottom bottom' : list (Blob D))
    (propagate_down : bool) :
  Backward_cpu l top propagate_down bottom = Some (l', bottom') ->
  M_ l' = M_ l /\ K_ l' = K_ l /\ N_ l' = N_ l /\ bias_term_ l' = bias_term_ l /\
  bias_multiplier_ l' = bias_multiplier_ l /\
  (forall k, data <$> blobs_ l' !! k = data <$> blobs_ l !! k) /\
  (forall k, data <$> bottom' !! k = data <$> bottom !! k).
Proof.
  unfold Backward_cpu. intros Hrun.
  destruct (top !! 0) as [t|]; [|done]. destruct (bottom !! 0) as [b|] eqn:Hb; [|done].
  destruct (blobs_ l !! 0) as [w|] eqn:Hw; [|done]. simpl in Hrun.
  destruct (caffe_cpu_gemm _ _ _ _ _ _ _ _ _ _) as [wdiff|]; [|done]. simpl in Hrun.
  destruct (if bias_term_ l then _ else _) as [blobs2|] eqn:Hbias; [|done]. simpl in Hrun.
  destruct (if propagate_down then _ else _) as [bottom2|] eqn:Hdown; [|done].
  simpl in Hrun. inversion Hrun; subst l' bottom2; clear Hrun. simpl.
  split_and!; try done.
  - intros k. destruct (bias_term_ l).
    + destruct (bias_multiplier_ l) as [bm|]; [|done]. simpl in Hbias.
      destruct (_ !! 1) as [bias|] eqn:Hbias1; [|done]. simpl in Hbias.
      destruct (caffe_cpu_gemv _ _ _ _ _ _ _ _) as [bdiff|]; [|done]. simpl in Hbias.
      inversion Hbias; subst blobs2.
      rewrite (insert_set_diff_data _ 1 k bias bdiff Hbias1).
      by apply insert_set_diff_data.
    + inversion Hbias; subst blobs2. by apply insert_set_diff_data.
  - intros k. destruct propagate_down.
    + destruct (blobs2 !! 0) as [w'|]; [|done]. simpl in Hdown.
      destruct (caffe_cpu_gemm _ _ _ _ _ _ _ _ _ _) as [xdiff|]; [|done]. simpl in Hdown.
      inversion Hdown; subst bottom'. by apply insert_set_diff_data.
    + by inversion Hdown.
Qed.

(** [Forward_cpu] reads the dimensions, the bias multiplier and the data
    views of [bottom[0]], [blobs_[0]] and [blobs_[1]], and nothing else of
    the layer and the bottom blobs. *)
Lemma Forward_cpu_reads (l l' : InnerProductLayer D) (bottom bottom' top top1 : list (Blob D))
    (loss : D) :
  M_ l' = M_ l -> K_ l' = K_ l -> N_ l' = N_ l -> bias_term_ l' = bias_term_ l ->
  bias_multiplier_ l' = bias_multiplier_ l ->
  (forall k, data <$> blobs_ l' !! k = data <$> blobs_ l !! k) ->
  data <$> bottom' !! 0 = data <$> bottom !! 0 ->
  Forward_cpu l bottom top = Some (l, top1, loss) ->
  Forward_cpu l' bottom' top = Some (l', top1, loss).
Proof.
  intros HM HK HN Hbt Hbm Hstore Hbottom. unfold Forward_cpu.
  rewrite HM, HK, HN, Hbt, Hbm.
  destruct (bottom !! 0) as [b|]; [|done].
  destruct (bottom' !! 0) as [b'|]; [|done]. injection Hbottom as Hbd.
  destruct (top !! 0) as [t|]; [|done].
  pose proof (Hstore 0) as H0. pose proof (Hstore 1) as H1.
  destruct (blobs_ l !! 0) as [w|]; [|done].
  destruct (blobs_ l' !! 0) as [w'|]; [|done]. injection H0 as Hwd.
  simpl. rewrite Hbd, Hwd.
  destruct (caffe_cpu_gemm _ _ _ _ _ _ _ _ _ _) as [out1|]; [|done]. simpl.
  destruct (bias_term_ l).
  - destruct (bias_multiplier_ l) as [bm|]; [|done]. simpl.
    destruct (blobs_ l !! 1) as [bias|]; [|done].
    destruct (blobs_ l' !! 1) as [bias'|]; [|done]. injection H1 as Hbiasd.
    simpl. rewrite Hbiasd.
    destruct (caffe_cpu_gemm _ _ _ _ _ _ _ _ _ _) as [out2|]; [|done]. simpl.
    intros Hrun. by inversion Hrun.
  - simpl. intros Hrun. by inversion Hrun.
Qed.

(** [SetUp] records each example flattened: [K_] is channels x height x
    width of [bottom[0]]. *)
Lemma count_div_num (b : Blob D) :
  num b <> 0 -> count b / num b = channels b * height b * width b.
Proof.
  intros Hnum. unfold count.
  replace (num b * channels b * height b * width b)
    with (channels b * height b * width b * num b) by lia.
  by apply Nat.div_mul.
Qed.
End Compose.

(** ** Buffers from their columns, and the loop without size assumptions *)

Section Columns.
Context {D : Type} `{Dtype D}.

Lemma column_nth (rows cols : nat) (x : list D) (i j : nat) :
  j < rows -> nth j (column rows cols x i) d_zero = at_ x (i + j * cols).
Proof.
  intros Hj. unfold column. rewrite nth_lookup, list_lookup_fmap, lookup_seq_lt by done.
  reflexivity.
Qed.

(** Two buffers with the same columns and the same entries past the
    [rows x cols] plane are the same buffer. *)
Lemma columns_ext (rows cols : nat) (x y : list D) :
  length x = length y ->
  (forall i, i < cols -> column rows cols x i = column rows cols y i) ->
  (forall idx, rows * cols <= idx -> at_ x idx = at_ y idx) ->
  x = y.
Proof.
  intros Hlen Hcols Hpast. apply (nth_ext x y d_zero d_zero Hlen).
  intros idx _. destruct (decide (idx < rows * cols)) as [Hin|Hout].
  - assert (cols <> 0) as Hc by nia.
    pose proof (Nat.div_mod_eq idx cols) as Hsplit.
    pose proof (Nat.mod_upper_bound idx cols Hc) as Hi.
    assert (idx / cols < rows) as Hj by (apply Nat.Div0.div_lt_upper_bound; lia).
    replace idx with (idx mod cols + idx / cols * cols) by lia.
    change (at_ x (idx mod cols + idx / cols * cols) = at_ y (idx mod cols + idx / cols * cols)).
    rewrite <- !(column_nth rows cols _ _ _ Hj). by rewrite Hcols.
  - apply Hpast. lia.
Qed.

Lemma caffe_scal_length (n : nat) (alpha : D) (x x' : list D) (p inc : nat) :
  caffe_scal n alpha x p inc = Some x' -> length x' = length x.
Proof.
  unfold caffe_scal. destruct (strided_ok n p inc x); [|done].
  intros Hx. inversion Hx. apply scal_steps_length.
Qed.

Lemma caffe_scal_untouched (n : nat) (alpha : D) (x x' : list D) (p inc idx : nat) :
  caffe_scal n alpha x p inc = Some x' ->
  (forall j, j < n -> idx <> p + j * inc) -> at_ x' idx = at_ x idx.
Proof.
  unfold caffe_scal. destruct (strided_ok n p inc x); [|done].
  intros Hx. inversion Hx. apply scal_steps_other.
Qed.

(** Whenever the loop returns, the buffer has kept its length and every
    index outside the visited groups its value. *)
Lemma column_loop_frame (norm2 : nat -> list D -> nat -> nat -> option D)
    (rescale : D -> option D) (M N off : nat) :
  forall iters (x : list D) p x' visited,
    column_loop norm2 caffe_scal rescale iters M N off x p = Some (x', visited) ->
    length x' = length x /\
    forall idx, (forall i j, i < iters -> j < M -> idx <> p + i * off + j * N) ->
                at_ x' idx = at_ x idx.
Proof.
  induction iters as [|n IH]; intros x p x' visited Hrun; simpl in Hrun.
  - inversion Hrun. done.
  - destruct (norm2 M x p N) as [nrm|]; [|done]. simpl in Hrun.
    destruct (match rescale nrm with Some f => caffe_scal M f x p N | None => Some x end)
      as [x1|] eqn:Hstep; [|done]. simpl in Hrun.
    destruct (column_loop norm2 caffe_scal rescale n M N off x1 (p + off))
      as [[x2 v]|] eqn:Hrec; [|done].
    simpl in Hrun. inversion Hrun; subst x2 visited; clear Hrun.
    destruct (IH _ _ _ _ Hrec) as [Hlen Hkeep].
    assert (length x1 = length x /\
            forall idx, (forall j, j < M -> idx <> p + j * N) -> at_ x1 idx = at_ x idx)
      as [Hlen1 Hkeep1].
    { destruct (rescale nrm) as [f|].
      - split; [by apply caffe_scal_length in Hstep|].
        intros idx Hidx. by apply (caffe_scal_untouched M f x x1 p N).
      - by inversion Hstep. }
    split; [lia|]. intros idx Hidx. rewrite Hkeep.
    + apply Hkeep1. intros j Hj. specialize (Hidx 0 j ltac:(lia) Hj). lia.
    + intros i j Hi Hj. specialize (Hidx (S i) j ltac:(lia) Hj). lia.
Qed.

(** The loop only consults [rescale] on norms the primitive returned. *)
Lemma column_loop_ext (norm2 : nat -> list D -> nat -> nat -> option D)
    (scal : nat -> D -> list D -> nat -> nat -> option (list D))
    (r1 r2 : D -> option D) (M N off : nat) :
  (forall n x p inc v, norm2 n x p inc = Some v -> r1 v = r2 v) ->
  forall iters (x : list D) p,
    column_loop norm2 scal r1 iters M N off x p =
    column_loop norm2 scal r2 iters M N off x p.
Proof.
  intros Hr. induction iters as [|n IH]; intros x p; simpl; [done|].
  destruct (norm2 M x p N) as [nrm|] eqn:Hn; [|done]. simpl.
  rewrite (Hr _ _ _ _ _ Hn).
  destruct (match r2 nrm with Some f => scal M f x p N | None => Some x end); [|done].
  simpl. by rewrite IH.
Qed.

Lemma set_data_id (w : Blob D) : set_data w (data w) = w.
Proof. by destruct w. Qed.

Lemma set_blobs_id (l : InnerProductLayer D) : set_blobs l (blobs_ l) = l.
Proof. by destruct l. Qed.

(** When no column is to be rescaled the loop hands the layer back as it
    was. *)
Lemma store_weight_identity (rescale : D -> option D) (l : InnerProductLayer D) (w : Blob D) :
  blobs_ l !! 0 = Some w -> height w * width w <= length (data w) ->
  (forall i, i < width w -> rescale (norm (column (height w) (width w) (data w) i)) = None) ->
  store_weight l w
    (column_loop caffe_cpu_norm2 caffe_scal rescale (width w) (height w) (width w)
       (offset w 0 0 0 1) (data w) 0) = Returned (l, groups_walked w 1).
Proof.
  intros Hw Hsize Hnone.
  destruct (store_weight_columns rescale l w Hsize) as (buf & -> & Hlen & Hcols & Hpast).
  assert (buf = data w) as ->.
  { apply (columns_ext (height w) (width w)); [done | | done].
    intros i Hi. rewrite (Hcols i Hi). unfold rescaled. by rewrite (Hnone i Hi). }
  by rewrite set_data_id, (list_insert_id _ _ _ Hw), set_blobs_id.
Qed.
End Columns.

(** ** Norms in exact arithmetic ([Dtype = R]) *)

Section RealNorms.
Local Open Scope R_scope.

Lemma sumsq_ge (v : list R) (acc : R) :
  acc <= fold_left (fun a x => a + x * x) v acc.
Proof.
  revert acc. induction v as [|x v IH]; intros acc; simpl; [lra|].
  specialize (IH (acc + x * x)). nra.
Qed.

Lemma sumsq_scale (a : R) (v : list R) (acc : R) :
  fold_left (fun s x => s + x * x) (map (Rmult a) v) (a * a * acc) =
  a * a * fold_left (fun s x => s + x * x) v acc.
Proof.
  revert acc. induction v as [|x v IH]; intros acc; simpl; [done|].
  rewrite <- IH. f_equal. ring.
Qed.

Lemma norm_R_unfold (v : list R) :
  norm v = sqrt (fold_left (fun s x => s + x * x) v 0).
Proof. reflexivity. Qed.

Lemma norm_R_nonneg (v : list R) : 0 <= norm v.
Proof. rewrite norm_R_unfold. apply sqrt_pos. Qed.

(** Scaling a vector scales its norm by the factor's absolute value. *)
Lemma norm_R_scale (a : R) (v : list R) : norm (map (Rmult a) v) = Rabs a * norm v.
Proof.
  rewrite !norm_R_unfold.
  replace 0 with (a * a * 0) at 1 by ring.
  rewrite sumsq_scale, sqrt_mult; [| nra | apply sumsq_ge].
  f_equal. replace (a * a) with (Rsqr a) by (unfold Rsqr; ring). apply sqrt_Rsqr_abs.
Qed.

Lemma clamp_rescale_R (mnorm nrm : R) :
  clamp_rescale mnorm nrm =
  if Rgt_dec nrm mnorm then Some (mnorm / (nrm + 1 / 10 ^ 7)) else None.
Proof. unfold clamp_rescale. simpl. by destruct (Rgt_dec nrm mnorm). Qed.

Lemma band_rescale_R (min_norm max_norm target_norm nrm : R) :
  band_rescale min_norm max_norm target_norm nrm =
  if Rle_dec min_norm nrm
  then if Rle_dec nrm max_norm then None else Some (target_norm / (nrm + 1 / 10 ^ 7))
  else Some (target_norm / (nrm + 1 / 10 ^ 7)).
Proof.
  unfold band_rescale. simpl.
  destruct (Rgt_dec nrm max_norm), (Rlt_dec nrm min_norm),
    (Rle_dec min_norm nrm), (Rle_dec nrm max_norm); simpl; (done || lra).
Qed.

(** A column whose norm exceeds a non-negative [mnorm] comes out strictly
    below [mnorm]. *)
Lemma scaled_norm_le (m n : R) : 0 <= m -> 0 <= n -> Rabs (m / (n + 1 / 10 ^ 7)) * n <= m.
Proof.
  intros Hm Hn. assert (0 < n + 1 / 10 ^ 7) as Hpos by lra.
  rewrite Rabs_right.
  - apply (Rmult_le_reg_r (n + 1 / 10 ^ 7)); [done|].
    replace (m / (n + 1 / 10 ^ 7) * n * (n + 1 / 10 ^ 7)) with (m * n) by (field; lra).
    nra.
  - apply Rle_ge. apply Rmult_le_pos; [done|]. left. by apply Rinv_0_lt_compat.
Qed.

Lemma rescaled_clamp_bound (mnorm : R) (c : list R) :
  0 <= mnorm -> norm (rescaled (clamp_rescale mnorm) c) <= mnorm.
Proof.
  intros Hm. unfold rescaled. rewrite clamp_rescale_R.
  destruct (Rgt_dec (norm c) mnorm) as [Hgt|Hle]; [|lra].
  rewrite norm_R_scale. apply scaled_norm_le; [done | apply norm_R_nonneg].
Qed.

Lemma scaled_norm_eq (t n : R) :
  0 <= n -> Rabs (t / (n + 1 / 10 ^ 7)) * n = Rabs t * n / (n + 1 / 10 ^ 7).
Proof.
  intros Hn. assert (0 < n + 1 / 10 ^ 7) as Hpos by lra.
  unfold Rdiv at 1. rewrite Rabs_mult, (Rabs_right (/ _)).
  - field. lra.
  - apply Rle_ge. left. by apply Rinv_0_lt_compat.
Qed.

Lemma norm_R_single (x : R) : 0 <= x -> norm [x] = x.
Proof.
  intros Hx. rewrite norm_R_unfold. simpl.
  replace (0 + x * x) with (Rsqr x) by (unfold Rsqr; ring). by apply sqrt_Rsqr.
Qed.

Lemma norm_R_3_4 : norm [3; 4] = 5.
Proof.
  rewrite norm_R_unfold. simpl.
  replace (0 + 3 * 3 + 4 * 4) with (Rsqr 5) by (unfold Rsqr; ring).
  apply sqrt_Rsqr. lra.
Qed.

(** The two groups the loop walks on [narrow_R] are [3] and [4]. *)
Lemma narrow_R_groups (i : nat) :
  (i < 2)%nat ->
  norm (column 1 2 [3; 4] i) = 3 \/ norm (column 1 2 [3; 4] i) = 4.
Proof.
  intros Hi. destruct i as [|[|i]]; [left | right | lia].
  - change (column 1 2 [3; 4] 0) with [3]. apply norm_R_single. lra.
  - change (column 1 2 [3; 4] 1) with [4]. apply norm_R_single. lra.
Qed.
End RealNorms.

(** ** Calling an operation twice *)

Section Repeat.
Context {D : Type} `{Dtype D} `{!DtypeLaws D}.

(** A row-major [rows x cols] buffer is determined by its entries. *)
Lemma matrix_ext (rows cols : nat) (x y : list D) :
  length x = rows * cols -> length y = rows * cols ->
  (forall i j, i < rows -> j < cols -> at_ x (i * cols + j) = at_ y (i * cols + j)) ->
  x = y.
Proof.
  intros Hx Hy Hentries. apply (nth_ext x y d_zero d_zero); [lia|].
  intros idx Hidx. rewrite Hx in Hidx.
  assert (cols <> 0) as Hc by nia.
  pose proof (Nat.div_mod_eq idx cols) as Hsplit.
  pose proof (Nat.mod_upper_bound idx cols Hc) as Hj.
  assert (idx / cols < rows) as Hi by (apply Nat.Div0.div_lt_upper_bound; lia).
  replace idx with (idx / cols * cols + idx mod cols) by lia.
  by apply Hentries.
Qed.

Lemma vector_ext (n : nat) (x y : list D) :
  length x = n -> length y = n -> (forall j, j < n -> at_ x j = at_ y j) -> x = y.
Proof.
  intros Hx Hy Hentries. apply (nth_ext x y d_zero d_zero); [lia|].
  intros idx Hidx. apply Hentries. lia.
Qed.

(** The buffer [Forward_cpu] writes is determined by the layer and the
    bottom blobs: what [top[0]] held before does not enter it. *)
Lemma Forward_cpu_overwrites (l : InnerProductLayer D) (bottom top top' : list (Blob D)) :
  layer_ready l -> io_ready l bottom top -> io_ready l bottom top' ->
  exists t t' out,
    top !! 0 = Some t /\ top' !! 0 = Some t' /\
    Forward_cpu l bottom top = Some (l, <[0 := set_data t out]> top, d_zero) /\
    Forward_cpu l bottom top' = Some (l, <[0 := set_data t' out]> top', d_zero).
Proof.
  intros [(w & Hw & Hh & Hwd & Hwdata & Hwdiff) Hbias]
         (b & t & Hb & Ht & [Hbd _] & [Htd _]) (b' & t' & Hb' & Ht' & _ & [Htd' _]).
  unfold Forward_cpu. rewrite Hb, Ht, Ht', Hw. simpl.
  destruct (gemm_overwrite CblasNoTrans CblasTrans (M_ l) (N_ l) (K_ l)
              (data b) (data w) (data t)) as (out1 & -> & Hlen1 & Hin1 & _); [lia..|].
  destruct (gemm_overwrite CblasNoTrans CblasTrans (M_ l) (N_ l) (K_ l)
              (data b) (data w) (data t')) as (out1' & -> & Hlen1' & Hin1' & _); [lia..|].
  assert (out1' = out1) as ->.
  { apply (matrix_ext (M_ l) (N_ l)); [lia | lia |].
    intros i j Hi Hj. by rewrite Hin1, Hin1'. }
  simpl. destruct (bias_term_ l).
  - destruct (Hbias eq_refl) as (bias & bm & -> & [Hbiasd _] & -> & Hbmlen). simpl.
    destruct (gemm_accumulate CblasNoTrans CblasNoTrans (M_ l) (N_ l) 1 bm (data bias) out1)
      as (out2 & -> & _); [lia..|].
    simpl. by exists t, t', out2.
  - simpl. by exists t, t', out1.
Qed.

(** The entries [Forward_cpu] writes, for a layer with the bias term on. *)
Lemma Forward_cpu_bias_entries (l : InnerProductLayer D) (bottom top : list (Blob D)) :
  layer_ready l -> io_ready l bottom top -> bias_term_ l = true ->
  exists t out,
    top !! 0 = Some t /\
    Forward_cpu l bottom top = Some (l, <[0 := set_data t out]> top, d_zero) /\
    forall i j, i < M_ l -> j < N_ l ->
      at_ out (i * N_ l + j) =
      d_add (d_add d_zero (d_mul (at_ (multiplier l) (i * 1 + 0))
                                 (at_ (data1 (blobs_ l)) (0 * N_ l + j))))
            (mat_mul (K_ l) (mat (K_ l) (data0 bottom))
               (transpose (mat (K_ l) (data0 (blobs_ l)))) i j).
Proof.
  intros [(w & Hw & Hh & Hwd & Hwdata & Hwdiff) Hbias] (b & t & Hb & Ht & [Hbd _] & [Htd _])
         Hbt.
  destruct (Hbias Hbt) as (bias & bm & Hbias1 & [Hbiasd _] & Hbm & Hbmlen).
  unfold Forward_cpu, data0, data1, multiplier. rewrite Hb, Ht, Hw, Hbt, Hbm, Hbias1. simpl.
  destruct (gemm_overwrite CblasNoTrans CblasTrans (M_ l) (N_ l) (K_ l)
              (data b) (data w) (data t)) as (out1 & -> & Hlen1 & Hin1 & _); [lia..|].
  simpl.
  destruct (gemm_accumulate CblasNoTrans CblasNoTrans (M_ l) (N_ l) 1 bm (data bias) out1)
    as (out2 & -> & Hlen2 & Hin2 & _); [lia..|].
  simpl. exists t, out2. split_and!; [done | done |].
  intros i j Hi Hj. by rewrite Hin2, Hin1.
Qed.
End Repeat.

(** ** Reading a returned normalisation backwards *)

Section NormalizeInv.
Context {D : Type} `{Dtype D}.

Lemma store_weight_inv (l l' : InnerProductLayer D) (w : Blob D)
    (r : option (list D * list group)) (visited : list group) :
  store_weight l w r = Returned (l', visited) ->
  exists buf, r = Some (buf, visited) /\
              l' = set_blobs l (<[0 := set_data w buf]> (blobs_ l)).
Proof.
  unfold store_weight. destruct r as [[buf v]|]; [|done].
  intros Hr. inversion Hr; subst. by exists buf.
Qed.

(** A call that returned has run the loop over the weight blob's data. *)
Lemma normalize_weights_inv (mode : Brew) (l l' : InnerProductLayer D) (mnorm : D)
    (visited : list group) :
  normalize_weights mode l mnorm = Returned (l', visited) ->
  exists w buf,
    blobs_ l !! 0 = Some w /\
    column_loop caffe_cpu_norm2 caffe_scal (clamp_rescale mnorm)
      (width w) (height w) (width w) 1 (data w) 0 = Some (buf, visited) /\
    l' = set_blobs l (<[0 := set_data w buf]> (blobs_ l)).
Proof.
  unfold normalize_weights. destruct (blobs_ l !! 0) as [w|]; [|done].
  unfold caffe_gpu_norm2, caffe_gpu_scal. rewrite offset_unit.
  destruct (mode =? CPU)%Z; [|destruct (mode =? GPU)%Z; [|done]];
    intros (buf & Hloop & ->)%store_weight_inv; by exists w, buf.
Qed.

Lemma normalize_weights_3_inv (mode : Brew) (l l' : InnerProductLayer D)
    (min_norm max_norm target_norm : D) (visited : list group) :
  normalize_weights_3 mode l min_norm max_norm target_norm = Returned (l', visited) ->
  exists w buf,
    blobs_ l !! 0 = Some w /\
    column_loop caffe_cpu_norm2 caffe_scal (band_rescale min_norm max_norm target_norm)
      (width w) (height w) (width w) 1 (data w) 0 = Some (buf, visited) /\
    l' = set_blobs l (<[0 := set_data w buf]> (blobs_ l)).
Proof.
  unfold normalize_weights_3. destruct (blobs_ l !! 0) as [w|]; [|done].
  unfold caffe_gpu_norm2, caffe_gpu_scal. rewrite offset_unit.
  destruct (mode =? CPU)%Z; [|destruct (mode =? GPU)%Z; [|done]];
    intros (buf & Hloop & ->)%store_weight_inv; by exists w, buf.
Qed.

(** The groups of a returned loop over a [rows x cols] plane, started at
    the base with [off = 1], cover the plane once. *)
Lemma column_loop_covers (norm2 : nat -> list D -> nat -> nat -> option D)
    (scal : nat -> D -> list D -> nat -> nat -> option (list D))
    (rescale : D -> option D) (rows cols : nat) (x x' : list D) (visited : list group) :
  column_loop norm2 scal rescale cols rows cols 1 x 0 = Some (x', visited) ->
  covers_plane_once rows cols visited.
Proof.
  intros Hrun. apply column_loop_visited in Hrun. subst visited.
  assert (forall i g,
            map (fun i => mkGroup (0 + i * 1) rows cols) (seq 0 cols) !! i = Some g ->
            i < cols /\ g = mkGroup i rows cols) as Hlook.
  { intros i g Hg. change (map ?f ?s) with (f <$> s) in Hg.
    rewrite list_lookup_fmap in Hg.
    destruct (seq 0 cols !! i) as [k|] eqn:Hk; [|done].
    apply lookup_seq in Hk as [-> Hi]. simpl in Hg. inversion Hg.
    split; [done|]. f_equal. lia. }
  split_and!.
  - intros idx Hidx. assert (cols <> 0) as Hc by nia.
    pose proof (Nat.div_mod_eq idx cols) as Hsplit.
    pose proof (Nat.mod_upper_bound idx cols Hc) as Hi.
    assert (idx / cols < rows) as Hj by (apply Nat.Div0.div_lt_upper_bound; lia).
    exists (idx mod cols), (idx / cols), (mkGroup (idx mod cols) rows cols).
    split_and!; [| done | simpl; lia].
    change (map ?f ?s) with (f <$> s).
    rewrite list_lookup_fmap, lookup_seq_lt by done. simpl. do 2 f_equal. lia.
  - intros i j g Hg Hj. destruct (Hlook i g Hg) as [Hi ->]. simpl in *. nia.
  - intros i i' j j' g g' Hg Hg' Hj Hj' Heq.
    destruct (Hlook i g Hg) as [Hi ->]. destruct (Hlook i' g' Hg') as [Hi' ->].
    simpl in *. by apply (stride_inj cols).
Qed.
End NormalizeInv.

(** ** Reading a view back after a write *)

Section Views.
Context {D : Type} `{Dtype D}.

Lemma data0_insert (bs : list (Blob D)) (b : Blob D) (d : list D) :
  bs !! 0 = Some b -> data0 (<[0 := set_data b d]> bs) = d.
Proof.
  intros Hb. unfold data0.
  by rewrite list_lookup_insert_eq by (by apply lookup_lt_Some in Hb).
Qed.

Lemma diff0_insert (bs : list (Blob D)) (b : Blob D) (d : list D) :
  bs !! 0 = Some b -> diff0 (<[0 := set_diff b d]> bs) = d.
Proof.
  intros Hb. unfold diff0.
  by rewrite list_lookup_insert_eq by (by apply lookup_lt_Some in Hb).
Qed.
End Views.

(** ** The model at work on doubles *)

Example SetUp_narrow_double :
  SetUp fresh_double bottom_double top_double =
  Some (narrow_double, [mkBlob 1 1 1 1 [0%float] [0%float]]).
Proof. vm_compute. reflexivity. Qed.

Example Forward_narrow_double :
  Forward_cpu narrow_double bottom_double [mkBlob 1 1 1 1 [0%float] [0%float]] =
  Some (narrow_double, [mkBlob 1 1 1 1 [11%float] [0%float]], 0%float).
Proof. vm_compute. reflexivity. Qed.

Example Backward_narrow_double :
  Backward_cpu narrow_double [mkBlob 1 1 1 1 [11%float] [2%float]] true bottom_double =
  Some (set_blobs narrow_double [mkBlob 1 1 1 2 [3; 4]%float [2; 4]%float],
        [mkBlob 1 2 1 1 [1; 2]%float [6; 8]%float]).
Proof. vm_compute. reflexivity. Qed.

Example normalize_narrow_double :
  normalize_weights CPU narrow_double 3.5%float =
  Returned (set_blobs narrow_double [mkBlob 1 1 1 2 [3%float; PrimFloat.mul (PrimFloat.div 3.5 (PrimFloat.add 4 d_eps)) 4] [0; 0]%float],
            [mkGroup 0 1 2; mkGroup 1 1 2]).
Proof. vm_compute. reflexivity. Qed.

Example normalize_unknown_mode_double :
  normalize_weights 2%Z narrow_double 3.5%float = Fatal (narrow_double, []).
Proof. vm_compute. reflexivity. Qed.

(** [SetUp] on the fresh layer over the reals gives [layer_R]. *)
Example SetUp_layer_R :
  SetUp fresh_R bottom_R top_R = Some (layer_R, [mkBlob 1 1 1 1 [0%R] [0%R]]).
Proof. reflexivity. Qed.

(** ** The loop, weight by weight *)

Section Pointwise.
Context {D : Type} `{Dtype D}.

Lemma rescaled_nth (rescale : D -> option D) (c : list D) (j : nat) :
  j < length c ->
  nth j (rescaled rescale c) d_zero =
  match rescale (norm c) with
  | Some factor => d_mul factor (nth j c d_zero)
  | None => nth j c d_zero
  end.
Proof.
  intros Hj. unfold rescaled. destruct (rescale (norm c)) as [f|]; [|done].
  destruct (lookup_lt_is_Some_2 c j Hj) as [x Hx].
  rewrite !nth_lookup. change (map (d_mul f) c) with (d_mul f <$> c).
  by rewrite list_lookup_fmap, Hx.
Qed.

(** Every weight of the plane ends as its own value, multiplied by the
    factor of the one group it lies in when that group is rescaled; the
    factor is computed from the values the group held before the call. *)
Lemma store_weight_pointwise (rescale : D -> option D) (l : InnerProductLayer D) (w : Blob D) :
  blobs_ l !! 0 = Some w -> height w * width w <= length (data w) ->
  exists l' visited,
    store_weight l w
      (column_loop caffe_cpu_norm2 caffe_scal rescale (width w) (height w) (width w)
         (offset w 0 0 0 1) (data w) 0) = Returned (l', visited) /\
    covers_plane_once (height w) (width w) visited /\
    forall idx, idx < height w * width w ->
      at_ (data0 (blobs_ l')) idx =
      match rescale (norm (column (height w) (width w) (data w) (idx mod width w))) with
      | Some factor => d_mul factor (at_ (data w) idx)
      | None => at_ (data w) idx
      end.
Proof.
  intros Hw Hsize.
  destruct (column_loop_columns rescale (height w) (width w) (width w) 0 (data w))
    as (buf & visited & Hrun & Hlen & _ & Hcols & _); [done | done |].
  rewrite offset_unit, Hrun. simpl. eexists _, _. split; [reflexivity|].
  split; [by apply (column_loop_covers _ _ _ _ _ _ _ _ Hrun)|].
  intros idx Hidx. simpl. rewrite (data0_insert (blobs_ l) w buf Hw).
  assert (width w <> 0) as Hc by nia.
  pose proof (Nat.div_mod_eq idx (width w)) as Hsplit.
  pose proof (Nat.mod_upper_bound idx (width w) Hc) as Hi.
  assert (idx / width w < height w) as Hj by (apply Nat.Div0.div_lt_upper_bound; lia).
  assert (idx = idx mod width w + idx / width w * width w) as Hidx' by lia.
  set (i := idx mod width w) in *. set (j := idx / width w) in *.
  rewrite Hidx'. clearbody i j.
  rewrite <- !(column_nth (height w) (width w) _ _ _ Hj).
  rewrite Hcols by lia. apply rescaled_nth.
  unfold column. by rewrite length_map, length_seq.
Qed.
End Pointwise.

(** * The claims *)

#[export] Instance DtypeLaws_R : DtypeLaws R.
Proof. split; intros; simpl; ring. Qed.

(** Readiness of a concrete layer or argument list, by evaluation. *)
Ltac ready :=
  unfold layer_ready, io_ready, setup_args, has_size; simpl;
  repeat first [ reflexivity | discriminate | lia | intros _ | split | eexists ].

(** ** Forward *)

(** C1: for a layer set up with dimensions M, K, N, Forward_cpu returns
    normally with the scalar zero and the layer as given, and the data view
    read back from the returned top[0] holds M * N scalars.  For every
    scalar type, binary64 included, the one at row i and column j is what
    the two GEMM calls leave: one times entry (i,j) of input x weight^T
    (the (M x K) bottom data times the transpose of the (N x K) weight)
    plus zero times the previous output and, when the bias term is on, one
    times entry (i,j) of bias_multiplier (M x 1) x bias (1 x N) plus one
    times that existing value.  Where 1 * x = x, 0 * x = 0 and x + 0 = x
    (exact arithmetic) this is exactly entry (i,j) of input x weight^T,
    with the bias entry added to it when the bias term is on.  Nothing but
    that data view is written: the returned top blobs are the given ones
    with the data view of top[0] replaced. *)
Theorem Forward_cpu_output {D : Type} `{Dtype D}
    (l : InnerProductLayer D) (bottom top : list (Blob D)) :
  layer_ready l -> io_ready l bottom top ->
  exists top',
    Forward_cpu l bottom top = Some (l, top', d_zero) /\
    length (data0 top') = M_ l * N_ l /\
    (forall i j, i < M_ l -> j < N_ l ->
       at_ (data0 top') (i * N_ l + j) =
       let product :=
         d_add (d_mul d_one
                  (mat_mul (K_ l) (mat (K_ l) (data0 bottom))
                     (transpose (mat (K_ l) (data0 (blobs_ l)))) i j))
               (d_mul d_zero (at_ (data0 top) (i * N_ l + j))) in
       if bias_term_ l
       then d_add (d_mul d_one
                     (mat_mul 1 (mat 1 (multiplier l)) (mat (N_ l) (data1 (blobs_ l))) i j))
                  (d_mul d_one product)
       else product) /\
    (DtypeLaws D ->
     forall i j, i < M_ l -> j < N_ l ->
       at_ (data0 top') (i * N_ l + j) =
       let product :=
         mat_mul (K_ l) (mat (K_ l) (data0 bottom))
           (transpose (mat (K_ l) (data0 (blobs_ l)))) i j in
       if bias_term_ l
       then d_add (mat_mul 1 (mat 1 (multiplier l)) (mat (N_ l) (data1 (blobs_ l))) i j) product
       else product) /\
    exists t, top !! 0 = Some t /\ top' = <[0 := set_data t (data0 top')]> top.
Proof.
  intros [(w & Hw & Hh & Hwd & Hwdata & Hwdiff) Hbias] (b & t & Hb & Ht & [Hbd _] & [Htd _]).
  assert (exists out,
            Forward_cpu l bottom top = Some (l, <[0 := set_data t out]> top, d_zero) /\
            length out = M_ l * N_ l /\
            forall i j, i < M_ l -> j < N_ l ->
              at_ out (i * N_ l + j) =
              let product :=
                d_add (d_mul d_one
                         (mat_mul (K_ l) (mat (K_ l) (data b))
                            (transpose (mat (K_ l) (data w))) i j))
                      (d_mul d_zero (at_ (data t) (i * N_ l + j))) in
              if bias_term_ l
              then d_add (d_mul d_one
                            (mat_mul 1 (mat 1 (multiplier l))
                               (mat (N_ l) (data1 (blobs_ l))) i j))
                         (d_mul d_one product)
              else product) as (out & Hrun & Hlen & Hout).
  { unfold Forward_cpu. rewrite Hb, Ht, Hw. simpl.
    destruct (caffe_cpu_gemm_spec CblasNoTrans CblasTrans (M_ l) (N_ l) (K_ l) d_one
                (data b) (data w) d_zero (data t)) as (out1 & -> & Hlen1 & Hin1 & _); [lia..|].
    simpl. destruct (bias_term_ l) eqn:Hbt.
    - destruct (Hbias eq_refl) as (bias & bm & Hbias1 & [Hbiasd _] & Hbm & Hbmlen).
      unfold multiplier, data1. rewrite Hbm, Hbias1. simpl.
      destruct (caffe_cpu_gemm_spec CblasNoTrans CblasNoTrans (M_ l) (N_ l) 1 d_one
                  bm (data bias) d_one out1) as (out2 & -> & Hlen2 & Hin2 & _); [lia..|].
      simpl. exists out2. split_and!; [done | lia |].
      intros i j Hi Hj. rewrite Hin2, Hin1 by done. done.
    - simpl. exists out1. split_and!; [done | lia |].
      intros i j Hi Hj. by rewrite Hin1. }
  assert (forall i j, i < M_ l -> j < N_ l ->
            at_ out (i * N_ l + j) =
            let product :=
              d_add (d_mul d_one
                       (mat_mul (K_ l) (mat (K_ l) (data0 bottom))
                          (transpose (mat (K_ l) (data0 (blobs_ l)))) i j))
                    (d_mul d_zero (at_ (data0 top) (i * N_ l + j))) in
            if bias_term_ l
            then d_add (d_mul d_one
                          (mat_mul 1 (mat 1 (multiplier l))
                             (mat (N_ l) (data1 (blobs_ l))) i j))
                       (d_mul d_one product)
            else product) as Hraw.
  { intros i j Hi Hj. rewrite (Hout i j Hi Hj). unfold data0. by rewrite Hb, Hw, Ht. }
  exists (<[0 := set_data t out]> top).
  rewrite (data0_insert top t out Ht). split; [exact Hrun|].
  split; [exact Hlen|]. split; [exact Hraw|]. split; [|by exists t].
  intros Hlaws i j Hi Hj. rewrite (Hraw i j Hi Hj). cbv zeta.
  destruct (bias_term_ l); by rewrite !d_mul_1_l, d_mul_0_l, d_add_0_r.
Qed.

Lemma Forward_cpu_output_witness :
  (layer_ready biased_R /\ io_ready biased_R bottom_R top_R /\
   exists top',
     Forward_cpu biased_R bottom_R top_R = Some (biased_R, top', 0%R) /\
     at_ (data0 top') 0 = 28%R /\
     top' = [mkBlob 1 1 1 1 (data0 top') [5%R]]) /\
  (layer_ready narrow_double /\
   io_ready narrow_double bottom_double [mkBlob 1 1 1 1 [0%float] [0%float]] /\
   exists top',
     Forward_cpu narrow_double bottom_double [mkBlob 1 1 1 1 [0%float] [0%float]] =
       Some (narrow_double, top', 0%float) /\
     at_ (data0 top') 0 = 11%float).
Proof.
  split.
  - assert (layer_ready biased_R) as Hl by ready.
    assert (io_ready biased_R bottom_R top_R) as Hio by ready.
    split; [exact Hl|]. split; [exact Hio|].
    destruct (Forward_cpu_output biased_R bottom_R top_R Hl Hio)
      as (top' & Hrun & _ & _ & Hout & t & Ht & Htop).
    exists top'. split; [exact Hrun|]. split.
    + change (at_ (data0 top') 0) with (at_ (data0 top') (0 * N_ biased_R + 0)).
      rewrite (Hout DtypeLaws_R 0 0 ltac:(simpl; lia) ltac:(simpl; lia)).
      change (0 + 1 * 10 + (0 + 3 * 2 + 4 * 3) = 28)%R. lra.
    + injection Ht as <-. exact Htop.
  - assert (layer_ready narrow_double) as Hl by ready.
    assert (io_ready narrow_double bottom_double [mkBlob 1 1 1 1 [0%float] [0%float]])
      as Hio by ready.
    split; [exact Hl|]. split; [exact Hio|].
    destruct (Forward_cpu_output narrow_double bottom_double _ Hl Hio)
      as (top' & Hrun & _ & Hraw & _).
    exists top'. split; [exact Hrun|].
    change (at_ (data0 top') 0) with (at_ (data0 top') (0 * N_ narrow_double + 0)).
    rewrite (Hraw 0 0 ltac:(simpl; lia) ltac:(simpl; lia)).
    vm_compute. reflexivity.
Defined.

(** ** Backward *)

(** C2: on every Backward_cpu call, for either value of propagate_down, the
    diff view of the weight blob ends up holding exactly top_gradient^T x
    input, an (N x M)(M x K) product, and, when the bias term is on, the diff
    view of the bias blob holds top_gradient^T x bias_multiplier, an
    (N x M)(M x 1) product.  Neither value depends on what the diff views
    held before: they are overwritten. *)
Theorem Backward_cpu_parameter_gradients {D : Type} `{Dtype D} `{!DtypeLaws D}
    (l : InnerProductLayer D) (top : list (Blob D)) (propagate_down : bool)
    (bottom : list (Blob D)) :
  layer_ready l -> io_ready l bottom top ->
  exists l' bottom',
    Backward_cpu l top propagate_down bottom = Some (l', bottom') /\
    length (diff0 (blobs_ l')) = N_ l * K_ l /\
    (forall i j, i < N_ l -> j < K_ l ->
       at_ (diff0 (blobs_ l')) (i * K_ l + j) =
       mat_mul (M_ l) (transpose (mat (N_ l) (diff0 top))) (mat (K_ l) (data0 bottom)) i j) /\
    (bias_term_ l = true ->
     length (diff1 (blobs_ l')) = N_ l /\
     forall j, j < N_ l ->
       at_ (diff1 (blobs_ l')) j =
       mat_mul (M_ l) (transpose (mat (N_ l) (diff0 top))) (mat 1 (multiplier l)) j 0).
Proof.
  intros Hl Hio.
  destruct (Backward_cpu_spec l top propagate_down bottom Hl Hio)
    as (w & b & wdiff & blobs' & bottom' & Hw & Hb & Hrun & Hlenw & Hweight & Hbias & _).
  assert (0 < length (blobs_ l)) as Hstore by (by apply lookup_lt_Some in Hw).
  exists (set_blobs l blobs'), bottom'. split; [done|]. simpl.
  destruct (bias_term_ l).
  - destruct Hbias as (bias & bdiff & Hbias1 & -> & Hlenb & Hbdiff).
    assert (1 < length (blobs_ l)) as Hstore1 by (by apply lookup_lt_Some in Hbias1).
    unfold diff0, diff1.
    rewrite list_lookup_insert_ne, list_lookup_insert_eq by done.
    rewrite list_lookup_insert_eq by (by rewrite length_insert).
    simpl. split_and!; done.
  - subst blobs'. unfold diff0. rewrite list_lookup_insert_eq by done.
    simpl. split_and!; done.
Qed.

Lemma Backward_cpu_parameter_gradients_witness :
  layer_ready layer_R /\ io_ready layer_R bottom_R top_R /\
  exists l' bottom',
    Backward_cpu layer_R top_R false bottom_R = Some (l', bottom') /\
    at_ (diff0 (blobs_ l')) 1 = (0 + 5 * 4)%R /\
    at_ (diff1 (blobs_ l')) 0 = (0 + 5 * 1)%R.
Proof.
  assert (layer_ready layer_R) as Hl by ready.
  assert (io_ready layer_R bottom_R top_R) as Hio by ready.
  split; [exact Hl|]. split; [exact Hio|].
  destruct (Backward_cpu_parameter_gradients layer_R top_R false bottom_R Hl Hio)
    as (l' & bottom' & Hrun & _ & Hweight & Hbias).
  exists l', bottom'. split; [exact Hrun|]. split.
  - apply (Hweight 0 1); simpl; lia.
  - apply (proj2 (Hbias eq_refl) 0). simpl; lia.
Defined.

(** C6: Backward_cpu writes the diff view of bottom[0] exactly when
    propagate_down is true.  Then the diff view of the returned bottom[0]
    holds M * K scalars, the one at row i and column j being entry (i,j) of
    top_gradient x weight, an (M x N)(N x K) product, and nothing else of the
    bottom blobs has changed; when propagate_down is false the bottom blobs
    come back as they were.  Apart from that the call changes only diff views
    of the store: of blob 0 (weight), and of blob 1 (bias) when the bias term
    is on.  Dimensions, configuration, bias multiplier, every data view,
    every shape and every other blob are as before. *)
Theorem Backward_cpu_input_gradient_and_frame {D : Type} `{Dtype D} `{!DtypeLaws D}
    (l : InnerProductLayer D) (top : list (Blob D)) (propagate_down : bool)
    (bottom : list (Blob D)) :
  layer_ready l -> io_ready l bottom top ->
  exists blobs' bottom' b,
    bottom !! 0 = Some b /\
    Backward_cpu l top propagate_down bottom = Some (set_blobs l blobs', bottom') /\
    (propagate_down = false -> bottom' = bottom) /\
    (propagate_down = true ->
     length (diff0 bottom') = M_ l * K_ l /\
     (forall i j, i < M_ l -> j < K_ l ->
        at_ (diff0 bottom') (i * K_ l + j) =
        mat_mul (N_ l) (mat (N_ l) (diff0 top)) (mat (K_ l) (data0 (blobs_ l))) i j) /\
     bottom' = <[0 := set_diff b (diff0 bottom')]> bottom) /\
    length blobs' = length (blobs_ l) /\
    (forall k p, blobs_ l !! k = Some p ->
       exists p', blobs' !! k = Some p' /\ same_but_diff p p' /\
                  (2 <= k -> p' = p) /\ (k = 1 -> bias_term_ l = false -> p' = p)).
Proof.
  intros Hl Hio.
  destruct (Backward_cpu_spec l top propagate_down bottom Hl Hio)
    as (w & b & wdiff & blobs' & bottom' & Hw & Hb & Hrun & Hlenw & Hweight & Hbias & Hdown).
  assert (0 < length (blobs_ l)) as Hstore by (by apply lookup_lt_Some in Hw).
  exists blobs', bottom', b. split_and!; [done | done | | | |].
  - intros ->. done.
  - intros ->. destruct Hdown as (xdiff & -> & Hlenx & Hxdiff).
    rewrite (diff0_insert bottom b xdiff Hb). by split_and!.
  - destruct (bias_term_ l).
    + destruct Hbias as (bias & bdiff & _ & -> & _). by rewrite !length_insert.
    + subst blobs'. by rewrite length_insert.
  - intros k p Hk. destruct (bias_term_ l).
    + destruct Hbias as (bias & bdiff & Hbias1 & -> & _).
      assert (1 < length (blobs_ l)) as Hstore1 by (by apply lookup_lt_Some in Hbias1).
      destruct k as [|[|k]].
      * rewrite list_lookup_insert_ne, list_lookup_insert_eq by done.
        eexists. split; [done|]. rewrite Hw in Hk. inversion Hk; subst p.
        split_and!; [done | lia | done].
      * rewrite list_lookup_insert_eq by (by rewrite length_insert).
        eexists. split; [done|]. rewrite Hbias1 in Hk. inversion Hk; subst p.
        split_and!; [done | lia | done].
      * rewrite !list_lookup_insert_ne by done.
        exists p. split_and!; done.
    + subst blobs'. destruct k as [|k].
      * rewrite list_lookup_insert_eq by done.
        eexists. split; [done|]. rewrite Hw in Hk. inversion Hk; subst p.
        split_and!; [done | lia | done].
      * rewrite list_lookup_insert_ne by done.
        exists p. split_and!; done.
Qed.

Lemma Backward_cpu_input_gradient_and_frame_witness :
  layer_ready biased_R /\ io_ready biased_R bottom_R top_R /\
  (exists l', Backward_cpu biased_R top_R false bottom_R = Some (l', bottom_R)) /\
  (exists l' bottom',
     Backward_cpu biased_R top_R true bottom_R = Some (l', bottom') /\
     at_ (diff0 bottom') 0 = 10%R /\ at_ (diff0 bottom') 1 = 15%R /\
     bottom' = [mkBlob 1 2 1 1 [3; 4]%R (diff0 bottom')]).
Proof.
  assert (layer_ready biased_R) as Hl by ready.
  assert (io_ready biased_R bottom_R top_R) as Hio by ready.
  split; [exact Hl|]. split; [exact Hio|]. split.
  - destruct (Backward_cpu_input_gradient_and_frame biased_R top_R false bottom_R Hl Hio)
      as (blobs' & bottom' & b & _ & Hrun & Hoff & _).
    rewrite (Hoff eq_refl) in Hrun. eexists. exact Hrun.
  - destruct (Backward_cpu_input_gradient_and_frame biased_R top_R true bottom_R Hl Hio)
      as (blobs' & bottom' & b & Hb & Hrun & _ & Hon & _).
    destruct (Hon eq_refl) as (_ & Hx & Hbottom).
    exists (set_blobs biased_R blobs'), bottom'. split; [exact Hrun|]. split_and!.
    + change (at_ (diff0 bottom') 0) with (at_ (diff0 bottom') (0 * K_ biased_R + 0)).
      rewrite (Hx 0 0 ltac:(simpl; lia) ltac:(simpl; lia)).
      change (0 + 5 * 2 = 10)%R. lra.
    + change (at_ (diff0 bottom') 1) with (at_ (diff0 bottom') (0 * K_ biased_R + 1)).
      rewrite (Hx 0 1 ltac:(simpl; lia) ltac:(simpl; lia)).
      change (0 + 5 * 3 = 15)%R. lra.
    + injection Hb as <-. exact Hbottom.
Defined.

(** ** SetUp *)

(** C7: SetUp on a layer whose store is empty returns with a store of
    exactly one blob, the weight of shape (1, 1, N, K), when bias_term is
    false, and of exactly two blobs, that weight and a bias of shape
    (1, 1, 1, N), when bias_term is true; in the second case the bias
    multiplier has M entries, each equal to one (in the first it is not
    touched).  Forward_cpu, Backward_cpu
    and both normalize_weights overloads end, however they end, with a store
    of the size they started with. *)
Theorem SetUp_store_size {D : Type} `{Dtype D} :
  (forall (l : InnerProductLayer D) (bottom top : list (Blob D)),
     blobs_ l = [] -> setup_args bottom top ->
     exists l' top' b w,
       bottom !! 0 = Some b /\
       SetUp l bottom top = Some (l', top') /\
       M_ l' = num b /\ K_ l' = count b / num b /\ N_ l' = num_output (layer_param_ l) /\
       bias_term_ l' = bias_term (layer_param_ l) /\
       num w = 1 /\ channels w = 1 /\ height w = N_ l' /\ width w = K_ l' /\
       has_size w (N_ l' * K_ l') /\
       if bias_term (layer_param_ l)
       then exists bias,
              blobs_ l' = [w; bias] /\
              num bias = 1 /\ channels bias = 1 /\ height bias = 1 /\ width bias = N_ l' /\
              has_size bias (N_ l') /\
              bias_multiplier_ l' = Some (replicate (M_ l') d_one)
       else blobs_ l' = [w] /\ bias_multiplier_ l' = bias_multiplier_ l) /\
  (forall (l l' : InnerProductLayer D) (bottom top top' : list (Blob D)) (loss : D),
     Forward_cpu l bottom top = Some (l', top', loss) ->
     length (blobs_ l') = length (blobs_ l)) /\
  (forall (l l' : InnerProductLayer D) (top bottom bottom' : list (Blob D)) (propagate_down : bool),
     Backward_cpu l top propagate_down bottom = Some (l', bottom') ->
     length (blobs_ l') = length (blobs_ l)) /\
  (forall (mode : Brew) (l l' : InnerProductLayer D) (mnorm : D) (visited : list group),
     normalize_weights mode l mnorm = Returned (l', visited) \/
     normalize_weights mode l mnorm = Fatal (l', visited) ->
     length (blobs_ l') = length (blobs_ l)) /\
  (forall (mode : Brew) (l l' : InnerProductLayer D) (min_norm max_norm target_norm : D)
          (visited : list group),
     normalize_weights_3 mode l min_norm max_norm target_norm = Returned (l', visited) \/
     normalize_weights_3 mode l min_norm max_norm target_norm = Fatal (l', visited) ->
     length (blobs_ l') = length (blobs_ l)).
Proof.
  split_and!.
  - intros l bottom top Hempty (b & t & Hb & Ht & Hnum).
    rewrite (SetUp_unfold l bottom top b t Hb Ht Hnum), Hempty. simpl.
    eexists _, _, b,
      (Fill (weight_filler (layer_param_ l))
         (new_Blob 1 1 (num_output (layer_param_ l)) (count b / num b))).
    split; [done|]. split; [reflexivity|]. simpl.
    split_and!; [done | done | done | done | done | done | done | done | | ].
    + apply Fill_new_Blob_size.
    + destruct (bias_term (layer_param_ l)); [|done].
      eexists. split_and!; [reflexivity | done | done | done | done | |].
      * pose proof (Fill_new_Blob_size (bias_filler (layer_param_ l)) 1
                      (num_output (layer_param_ l))) as Hsize.
        by rewrite Nat.mul_1_l in Hsize.
      * by rewrite fill_ones_replicate.
  - intros l l' bottom top top' loss Hrun.
    by destruct (Forward_cpu_layer l l' bottom top top' loss Hrun) as [-> _].
  - intros l l' top bottom bottom' pd. apply Backward_cpu_store_size.
  - intros mode l l' mnorm visited. apply normalize_weights_store_size.
  - intros mode l l' mn mx tg visited. apply normalize_weights_3_store_size.
Qed.

Lemma SetUp_store_size_witness :
  blobs_ fresh_R = [] /\ setup_args bottom_R top_R /\
  exists l' top',
    SetUp fresh_R bottom_R top_R = Some (l', top') /\
    length (blobs_ l') = 2 /\ bias_multiplier_ l' = Some [1%R].
Proof.
  assert (setup_args bottom_R top_R) as Hargs by ready.
  split; [reflexivity|]. split; [exact Hargs|].
  destruct (proj1 SetUp_store_size fresh_R bottom_R top_R eq_refl Hargs)
    as (l' & top' & b & w & Hb & Hrun & HM & _ & _ & _ & _ & _ & _ & _ & _ & Hstore).
  simpl in Hstore. destruct Hstore as (bias & Hblobs & _ & _ & _ & _ & _ & Hbm).
  exists l', top'. split; [exact Hrun|]. split.
  - rewrite Hblobs. reflexivity.
  - rewrite Hbm, HM. injection Hb as <-. reflexivity.
Defined.

(** C8: SetUp on a layer whose store is not empty returns with the store it
    was given: the same blobs with the same contents, none allocated.  The
    fillers are not consulted: with any other weight and bias fillers in the
    configuration the call produces the same layer and top blobs. *)
Theorem SetUp_keeps_populated_store {D : Type} `{Dtype D}
    (l : InnerProductLayer D) (bottom top : list (Blob D)) :
  blobs_ l <> [] -> setup_args bottom top ->
  exists l' top',
    SetUp l bottom top = Some (l', top') /\
    blobs_ l' = blobs_ l /\
    forall p, num_output p = num_output (layer_param_ l) ->
              bias_term p = bias_term (layer_param_ l) ->
              SetUp (with_param l p) bottom top = Some (with_param l' p, top').
Proof.
  intros Hstore (b & t & Hb & Ht & Hnum).
  assert ((0 <? length (blobs_ l)) = true) as Hpos.
  { apply Nat.ltb_lt. destruct (blobs_ l); [done | simpl; lia]. }
  rewrite (SetUp_unfold l bottom top b t Hb Ht Hnum), Hpos.
  eexists _, _. split; [reflexivity|]. split; [done|].
  intros p HN Hbias.
  rewrite (SetUp_unfold (with_param l p) bottom top b t Hb Ht Hnum). simpl.
  by rewrite Hpos, HN, Hbias.
Qed.

Lemma SetUp_keeps_populated_store_witness :
  blobs_ layer_R <> [] /\ setup_args bottom_R top_R /\
  exists l' top', SetUp layer_R bottom_R top_R = Some (l', top') /\ blobs_ l' = blobs_ layer_R.
Proof.
  assert (blobs_ layer_R <> []) as Hstore by (simpl; discriminate).
  assert (setup_args bottom_R top_R) as Hargs by ready.
  split; [exact Hstore|]. split; [exact Hargs|].
  destruct (SetUp_keeps_populated_store layer_R bottom_R top_R Hstore Hargs)
    as (l' & top' & Hrun & Hblobs & _).
  exists l', top'. split; [exact Hrun | exact Hblobs].
Defined.

(** C10: when bias_term is true, every SetUp call, whether it fills an empty
    store or skips a populated one, and whatever bias multiplier the layer
    held before, returns with a bias multiplier of M entries (M the batch
    size of bottom[0]), all equal to one. *)
Theorem SetUp_bias_multiplier {D : Type} `{Dtype D}
    (l : InnerProductLayer D) (bottom top : list (Blob D)) :
  bias_term (layer_param_ l) = true -> setup_args bottom top ->
  exists l' top' b,
    bottom !! 0 = Some b /\
    SetUp l bottom top = Some (l', top') /\
    M_ l' = num b /\
    bias_multiplier_ l' = Some (replicate (num b) d_one) /\
    (blobs_ l <> [] -> blobs_ l' = blobs_ l).
Proof.
  intros Hbias (b & t & Hb & Ht & Hnum).
  rewrite (SetUp_unfold l bottom top b t Hb Ht Hnum), Hbias.
  eexists _, _, b. split_and!; [done | reflexivity | done | simpl; by rewrite fill_ones_replicate |].
  simpl. intros Hstore. destruct (blobs_ l); [done | done].
Qed.

Lemma SetUp_bias_multiplier_witness :
  bias_term (layer_param_ layer_R) = true /\ setup_args bottom_R top_R /\
  blobs_ layer_R <> [] /\
  exists l' top',
    SetUp layer_R bottom_R top_R = Some (l', top') /\ bias_multiplier_ l' = Some [1%R].
Proof.
  assert (setup_args bottom_R top_R) as Hargs by ready.
  split; [reflexivity|]. split; [exact Hargs|]. split; [simpl; discriminate|].
  destruct (SetUp_bias_multiplier layer_R bottom_R top_R eq_refl Hargs)
    as (l' & top' & b & Hb & Hrun & _ & Hbm & _).
  exists l', top'. split; [exact Hrun|].
  rewrite Hbm. injection Hb as <-. reflexivity.
Defined.

(** ** normalize_weights *)

(** C9: with a weight blob in the store, each normalize_weights overload
    ends in LOG(FATAL) if and only if the mode is neither CPU nor GPU, and
    then the layer at the abort is the layer the call was given (no weight
    was written, nothing is returned); under CPU and under GPU the call
    returns. *)
Theorem normalize_weights_mode_dispatch {D : Type} `{Dtype D}
    (mode : Brew) (l : InnerProductLayer D) (w : Blob D) :
  blobs_ l !! 0 = Some w -> height w * width w <= length (data w) ->
  (forall mnorm,
     ((exists s, normalize_weights mode l mnorm = Fatal s) <-> mode <> CPU /\ mode <> GPU) /\
     (mode <> CPU /\ mode <> GPU -> normalize_weights mode l mnorm = Fatal (l, [])) /\
     (mode = CPU \/ mode = GPU -> exists r, normalize_weights mode l mnorm = Returned r)) /\
  (forall min_norm max_norm target_norm,
     ((exists s, normalize_weights_3 mode l min_norm max_norm target_norm = Fatal s) <->
      mode <> CPU /\ mode <> GPU) /\
     (mode <> CPU /\ mode <> GPU ->
      normalize_weights_3 mode l min_norm max_norm target_norm = Fatal (l, [])) /\
     (mode = CPU \/ mode = GPU ->
      exists r, normalize_weights_3 mode l min_norm max_norm target_norm = Returned r)).
Proof.
  intros Hw Hsize. split.
  - intros mnorm. split_and!.
    + split.
      * intros [s Hs]. destruct (mode_cases mode) as [[Hm _]|[[Hm _]|(Hc & Hg & _)]]; [| |done].
        -- destruct (normalize_weights_columns mode l mnorm w (or_introl Hm) Hw Hsize)
             as (buf & Hrun & _). congruence.
        -- destruct (normalize_weights_columns mode l mnorm w (or_intror Hm) Hw Hsize)
             as (buf & Hrun & _). congruence.
      * intros [Hc Hg]. eexists. by apply (normalize_weights_fatal mode l mnorm w).
    + intros [Hc Hg]. by apply (normalize_weights_fatal mode l mnorm w).
    + intros Hm. destruct (normalize_weights_columns mode l mnorm w Hm Hw Hsize)
        as (buf & Hrun & _). eauto.
  - intros mn mx tg. split_and!.
    + split.
      * intros [s Hs]. destruct (mode_cases mode) as [[Hm _]|[[Hm _]|(Hc & Hg & _)]]; [| |done].
        -- destruct (normalize_weights_3_columns mode l mn mx tg w (or_introl Hm) Hw Hsize)
             as (buf & Hrun & _). congruence.
        -- destruct (normalize_weights_3_columns mode l mn mx tg w (or_intror Hm) Hw Hsize)
             as (buf & Hrun & _). congruence.
      * intros [Hc Hg]. eexists. by apply (normalize_weights_3_fatal mode l mn mx tg w).
    + intros [Hc Hg]. by apply (normalize_weights_3_fatal mode l mn mx tg w).
    + intros Hm. destruct (normalize_weights_3_columns mode l mn mx tg w Hm Hw Hsize)
        as (buf & Hrun & _). eauto.
Qed.

Lemma normalize_weights_mode_dispatch_witness :
  blobs_ layer_R !! 0 = Some (mkBlob 1 1 1 2 [1; 1]%R [0; 0]%R) /\
  1 * 2 <= length [1; 1]%R /\
  normalize_weights 2%Z layer_R 1%R = Fatal (layer_R, []) /\
  (exists r, normalize_weights GPU layer_R 1%R = Returned r).
Proof.
  assert (1 * 2 <= length [1; 1]%R) as Hsize by (simpl; lia).
  split; [reflexivity|]. split; [exact Hsize|].
  pose proof (normalize_weights_mode_dispatch 2%Z layer_R _ eq_refl Hsize) as [Hbad _].
  pose proof (normalize_weights_mode_dispatch GPU layer_R _ eq_refl Hsize) as [Hgood _].
  split.
  - apply (Hbad 1%R). split; discriminate.
  - apply (Hgood 1%R). right. reflexivity.
Defined.

(** C5, as the specification words it, fails: on the layer with one output
    unit and two input features ([N_ = 1], [K_ = 2]) the loop visits two
    groups of one element each, spaced two apart, not one group of two
    elements spaced one apart. *)
Lemma groups_as_specified_counterexample :
  layer_ready narrow_double /\
  SetUp fresh_double bottom_double top_double =
    Some (narrow_double, [mkBlob 1 1 1 1 [0%float] [0%float]]) /\
  exists l',
    normalize_weights CPU narrow_double 5%float =
      Returned (l', [mkGroup 0 1 2; mkGroup 1 1 2]) /\
    groups_as_specified narrow_double 1 = [mkGroup 0 2 1] /\
    [mkGroup 0 1 2; mkGroup 1 1 2] <> groups_as_specified narrow_double 1.
Proof.
  split; [ready|]. split; [vm_compute; reflexivity|].
  eexists. split; [vm_compute; reflexivity|]. split; [reflexivity|].
  vm_compute. discriminate.
Qed.

(** C5 (amended): both overloads walk the flat weight buffer in exactly K
    groups (K the input feature count, the width of the weight blob); the
    stride [off] between group starts is 1, so group i begins at
    base + i * off = base + i; each group's norm and rescale operate on the N
    elements (N the number of output units, the height of the weight blob)
    at base + i, base + i + K, ..., spaced K apart.  On the buffer: after the
    call, for every i < K, those N elements of the weight data are the N
    elements that stood there before, all multiplied by the one factor the
    test yields on their own Euclidean norm, or untouched when the test
    fails; the buffer keeps its N * K scalars. *)
Theorem normalize_weights_walk {D : Type} `{Dtype D}
    (mode : Brew) (l : InnerProductLayer D) :
  mode = CPU \/ mode = GPU -> layer_ready l ->
  (forall w, blobs_ l !! 0 = Some w -> offset w 0 0 0 1 = 1) /\
  (forall mnorm, exists l',
     normalize_weights mode l mnorm =
     Returned (l', map (fun i => mkGroup (i * 1) (N_ l) (K_ l)) (seq 0 (K_ l))) /\
     length (data0 (blobs_ l')) = N_ l * K_ l /\
     forall i, i < K_ l ->
       column (N_ l) (K_ l) (data0 (blobs_ l')) i =
       rescaled (clamp_rescale mnorm) (column (N_ l) (K_ l) (data0 (blobs_ l)) i)) /\
  (forall min_norm max_norm target_norm, exists l',
     normalize_weights_3 mode l min_norm max_norm target_norm =
     Returned (l', map (fun i => mkGroup (i * 1) (N_ l) (K_ l)) (seq 0 (K_ l))) /\
     length (data0 (blobs_ l')) = N_ l * K_ l /\
     forall i, i < K_ l ->
       column (N_ l) (K_ l) (data0 (blobs_ l')) i =
       rescaled (band_rescale min_norm max_norm target_norm)
         (column (N_ l) (K_ l) (data0 (blobs_ l)) i)).
Proof.
  intros Hmode [(w & Hw & Hh & Hwd & [Hsize _]) _].
  assert (height w * width w <= length (data w)) as Hfit by (rewrite Hh, Hwd; lia).
  assert (data0 (blobs_ l) = data w) as Hold by (unfold data0; by rewrite Hw).
  split_and!.
  - intros w' _. apply offset_unit.
  - intros mnorm.
    destruct (normalize_weights_columns mode l mnorm w Hmode Hw Hfit)
      as (buf & Hrun & Hlen & Hcols & _).
    eexists. rewrite Hrun. unfold groups_walked. rewrite Hh, Hwd.
    split; [reflexivity|]. simpl. rewrite (data0_insert (blobs_ l) w buf Hw), Hold.
    split; [lia|]. intros i Hi. rewrite <- Hh, <- Hwd. apply Hcols. by rewrite Hwd.
  - intros mn mx tg.
    destruct (normalize_weights_3_columns mode l mn mx tg w Hmode Hw Hfit)
      as (buf & Hrun & Hlen & Hcols & _).
    eexists. rewrite Hrun. unfold groups_walked. rewrite Hh, Hwd.
    split; [reflexivity|]. simpl. rewrite (data0_insert (blobs_ l) w buf Hw), Hold.
    split; [lia|]. intros i Hi. rewrite <- Hh, <- Hwd. apply Hcols. by rewrite Hwd.
Qed.

Lemma normalize_weights_walk_witness :
  layer_ready narrow_double /\
  exists l',
    normalize_weights CPU narrow_double 3.5%float =
      Returned (l', [mkGroup 0 1 2; mkGroup 1 1 2]) /\
    column 1 2 (data0 (blobs_ l')) 0 = [3%float] /\
    column 1 2 (data0 (blobs_ l')) 1 =
      [PrimFloat.mul (PrimFloat.div 3.5 (PrimFloat.add 4 d_eps)) 4].
Proof.
  assert (layer_ready narrow_double) as Hl by ready.
  split; [exact Hl|].
  destruct (normalize_weights_walk CPU narrow_double (or_introl eq_refl) Hl) as (_ & Hwalk & _).
  destruct (Hwalk 3.5%float) as (l' & Hrun & _ & Hcols).
  exists l'. split; [exact Hrun|]. split.
  - change (column (N_ narrow_double) (K_ narrow_double) (data0 (blobs_ l')) 0 = [3%float]).
    rewrite (Hcols 0 ltac:(simpl; lia)). vm_compute. reflexivity.
  - change (column (N_ narrow_double) (K_ narrow_double) (data0 (blobs_ l')) 1 =
            [PrimFloat.mul (PrimFloat.div 3.5 (PrimFloat.add 4 d_eps)) 4]).
    rewrite (Hcols 1 ltac:(simpl; lia)). vm_compute. reflexivity.
Defined.

(** ** Norm bounds, in exact arithmetic *)

Section NormBounds.
Local Open Scope R_scope.

(** C3, as the specification words it, fails in three ways.  For a
    negative bound: with max_norm = -1 the 1 x 1 weight [1] has norm 1 > -1,
    is multiplied by -1 / (1 + 1e-7), and ends with a norm that is not at
    most -1 + 1e-7.  By rounding: in binary64, with max_norm = 1e11 the
    1 x 1 weight [91e11] is scaled to a value whose norm is above
    1e11 + 1e-7.  And for the columns the specification means, one per
    output unit over its K weights: on the layer with one output unit and
    weights [3, 4] the call with max_norm = 4 returns the layer as it was
    (the groups walked are [3] and [4]), while the unit's weight vector has
    norm 5, above 4 + 1e-7. *)
Lemma clamp_bound_counterexample :
  (exists l' visited,
     normalize_weights CPU unit_R (-1) = Returned (l', visited) /\
     data0 (blobs_ l') = [-1 / (1 + 1 / 10 ^ 7) * 1] /\
     ~ norm (column 1 1 (data0 (blobs_ l')) 0) <= -1 + 1 / 10 ^ 7) /\
  (exists l' visited,
     normalize_weights CPU large_double 100000000000%float = Returned (l', visited) /\
     PrimFloat.leb (norm (column 1 1 (data0 (blobs_ l')) 0))
                   (PrimFloat.add 100000000000%float d_eps) = false) /\
  (normalize_weights CPU narrow_R 4 = Returned (narrow_R, [mkGroup 0 1 2; mkGroup 1 1 2]) /\
   N_ narrow_R = 1%nat /\ K_ narrow_R = 2%nat /\
   data0 (blobs_ narrow_R) = [3; 4] /\
   norm (data0 (blobs_ narrow_R)) = 5 /\
   ~ norm (data0 (blobs_ narrow_R)) <= 4 + 1 / 10 ^ 7).
Proof.
  split; [|split; [eexists _, _; split; vm_compute; reflexivity|]].
  2: { change (data0 (blobs_ narrow_R)) with [3; 4]. rewrite norm_R_3_4.
       split_and!; [| reflexivity | reflexivity | reflexivity | reflexivity | lra].
       apply (store_weight_identity (clamp_rescale 4) narrow_R
                (mkBlob 1 1 1 2 [3; 4] [0; 0]) eq_refl); [simpl; lia|].
       intros i Hi. rewrite clamp_rescale_R. cbn [height width data] in *.
       destruct (narrow_R_groups i Hi) as [Hn|Hn]; rewrite Hn;
         destruct (Rgt_dec _ _); (done || lra). }
  destruct (normalize_weights_columns CPU unit_R (-1) (mkBlob 1 1 1 1 [1] [0])
              (or_introl eq_refl) eq_refl) as (buf & Hrun & Hlen & Hcol & _);
    [simpl; lia|].
  specialize (Hcol 0%nat ltac:(simpl; lia)). simpl in Hcol, Hlen.
  assert (norm [1] = 1) as Hnorm.
  { rewrite norm_R_unfold. simpl. replace (0 + 1 * 1) with 1 by ring. apply sqrt_1. }
  unfold rescaled in Hcol. change (column 1 1 [1] 0) with [1] in Hcol.
  rewrite clamp_rescale_R, Hnorm in Hcol.
  destruct (Rgt_dec 1 (-1)) as [_|Hno]; [|lra].
  destruct buf as [|x [|y buf]]; try discriminate.
  change (column 1 1 [x] 0) with [x] in Hcol. injection Hcol as ->.
  eexists _, _. split; [exact Hrun|]. split; [reflexivity|].
  change (data0 _) with [-1 / (1 + 1 / 10 ^ 7) * 1].
  change (column 1 1 [-1 / (1 + 1 / 10 ^ 7) * 1] 0) with [-1 / (1 + 1 / 10 ^ 7) * 1].
  pose proof (norm_R_nonneg [-1 / (1 + 1 / 10 ^ 7) * 1]). lra.
Qed.

(** C3 (amended): normalize_weights(max_norm) under CPU or GPU mode works
    on the strided groups its loop walks, not on per-output-unit weight
    vectors: group i, for i below the weight blob's width (K, the input
    feature count), holds the height (N, the number of output units) weights
    at offsets i, i + K, i + 2K, ...  After the call any such group whose
    norm exceeded max_norm has been multiplied in place by
    max_norm / (norm + 1e-7), any group whose norm was within the bound is
    unchanged, and, provided max_norm >= 0 and the arithmetic is exact
    (scalars are real numbers in this statement), every group has norm at
    most max_norm + 1e-7. *)
Theorem normalize_weights_clamp (mode : Brew) (l : InnerProductLayer R) (mnorm : R)
    (w : Blob R) :
  mode = CPU \/ mode = GPU ->
  blobs_ l !! 0%nat = Some w -> (height w * width w <= length (data w))%nat ->
  exists l',
    normalize_weights mode l mnorm = Returned (l', groups_walked w 1) /\
    forall i, (i < width w)%nat ->
      let c := column (height w) (width w) (data w) i in
      let c' := column (height w) (width w) (data0 (blobs_ l')) i in
      (norm c > mnorm -> c' = map (Rmult (mnorm / (norm c + 1 / 10 ^ 7))) c) /\
      (norm c <= mnorm -> c' = c) /\
      (0 <= mnorm -> norm c' <= mnorm + 1 / 10 ^ 7).
Proof.
  intros Hmode Hw Hsize.
  destruct (normalize_weights_columns mode l mnorm w Hmode Hw Hsize)
    as (buf & Hrun & _ & Hcol & _).
  exists (set_blobs l (<[0%nat := set_data w buf]> (blobs_ l))). split; [exact Hrun|].
  assert (data0 (blobs_ (set_blobs l (<[0%nat := set_data w buf]> (blobs_ l)))) = buf) as ->
    by apply (data0_insert (blobs_ l) w buf Hw).
  intros i Hi. cbv zeta. rewrite (Hcol i Hi).
  split_and!.
  - intros Hgt. unfold rescaled. rewrite clamp_rescale_R.
    by destruct (Rgt_dec _ _).
  - intros Hle. unfold rescaled. rewrite clamp_rescale_R.
    destruct (Rgt_dec _ _); [lra | done].
  - intros Hpos. pose proof (rescaled_clamp_bound mnorm
      (column (height w) (width w) (data w) i) Hpos). lra.
Qed.

Lemma normalize_weights_clamp_witness :
  blobs_ narrow_R !! 0%nat = Some (mkBlob 1 1 1 2 [3; 4] [0; 0]) /\
  (1 * 2 <= length [3; 4])%nat /\
  exists l',
    normalize_weights GPU narrow_R (7 / 2) =
      Returned (l', [mkGroup 0 1 2; mkGroup 1 1 2]) /\
    column 1 2 (data0 (blobs_ l')) 0 = [3] /\
    column 1 2 (data0 (blobs_ l')) 1 = [7 / 2 / (4 + 1 / 10 ^ 7) * 4] /\
    norm (column 1 2 (data0 (blobs_ l')) 1) <= 7 / 2 + 1 / 10 ^ 7.
Proof.
  assert (1 * 2 <= length [3; 4])%nat as Hsize by (simpl; lia).
  split; [reflexivity|]. split; [exact Hsize|].
  destruct (normalize_weights_clamp GPU narrow_R (7 / 2) _ (or_intror eq_refl) eq_refl Hsize)
    as (l' & Hrun & Hcols).
  assert (norm (column 1 2 [3; 4] 0) = 3) as H0
    by (change (column 1 2 [3; 4] 0) with [3]; apply norm_R_single; lra).
  assert (norm (column 1 2 [3; 4] 1) = 4) as H1
    by (change (column 1 2 [3; 4] 1) with [4]; apply norm_R_single; lra).
  exists l'. split; [exact Hrun|]. cbn [height width data] in Hcols. split_and!.
  - destruct (Hcols 0%nat ltac:(lia)) as (_ & Hin & _).
    rewrite Hin by lra. reflexivity.
  - destruct (Hcols 1%nat ltac:(lia)) as (Hout & _ & _).
    rewrite Hout by lra. rewrite H1. reflexivity.
  - destruct (Hcols 1%nat ltac:(lia)) as (_ & _ & Hbound). apply Hbound. lra.
Defined.

(** C4, as the specification words it, fails in two ways.  On an all-zero
    column: with the band [1, 2] and target 3/2 the 1 x 1 weight [0] has
    norm 0 < 1, is multiplied by (3/2) / (0 + 1e-7), stays [0], and so ends
    with norm 0, which is not within 1e-7 of 3/2.  And for the columns the
    specification means, one per output unit over its K weights: on the
    layer with one output unit and weights [3, 4] the call with band
    [1, 9/2] returns the layer as it was (the groups walked, [3] and [4],
    are in the band), although the unit's weight vector has norm 5, outside
    the band. *)
Lemma band_target_counterexample :
  (exists l' visited,
     normalize_weights_3 CPU zero_R 1 2 (3 / 2) = Returned (l', visited) /\
     data0 (blobs_ l') = [3 / 2 / (0 + 1 / 10 ^ 7) * 0] /\
     norm (column 1 1 (data0 (blobs_ l')) 0) = 0 /\
     ~ Rabs (norm (column 1 1 (data0 (blobs_ l')) 0) - 3 / 2) <= 1 / 10 ^ 7) /\
  (normalize_weights_3 CPU narrow_R 1 (9 / 2) 2 =
     Returned (narrow_R, [mkGroup 0 1 2; mkGroup 1 1 2]) /\
   N_ narrow_R = 1%nat /\ K_ narrow_R = 2%nat /\
   data0 (blobs_ narrow_R) = [3; 4] /\
   norm (data0 (blobs_ narrow_R)) = 5 /\
   ~ (1 <= norm (data0 (blobs_ narrow_R)) <= 9 / 2)).
Proof.
  split.
  2: { change (data0 (blobs_ narrow_R)) with [3; 4]. rewrite norm_R_3_4.
       split_and!; [| reflexivity | reflexivity | reflexivity | reflexivity | lra].
       apply (store_weight_identity (band_rescale 1 (9 / 2) 2) narrow_R
                (mkBlob 1 1 1 2 [3; 4] [0; 0]) eq_refl); [simpl; lia|].
       intros i Hi. rewrite band_rescale_R. cbn [height width data] in *.
       destruct (narrow_R_groups i Hi) as [Hn|Hn]; rewrite Hn;
         destruct (Rle_dec _ _); try lra; destruct (Rle_dec _ _); (done || lra). }
  destruct (normalize_weights_3_columns CPU zero_R 1 2 (3 / 2) (mkBlob 1 1 1 1 [0] [0])
              (or_introl eq_refl) eq_refl) as (buf & Hrun & Hlen & Hcol & _);
    [simpl; lia|].
  specialize (Hcol 0%nat ltac:(simpl; lia)). simpl in Hcol, Hlen.
  assert (norm [0] = 0) as Hnorm.
  { rewrite norm_R_unfold. simpl. replace (0 + 0 * 0) with 0 by ring. apply sqrt_0. }
  unfold rescaled in Hcol. change (column 1 1 [0] 0) with [0] in Hcol.
  rewrite band_rescale_R, Hnorm in Hcol.
  destruct (Rle_dec 1 0) as [Hno|_]; [lra|].
  destruct buf as [|x [|y buf]]; try discriminate.
  change (column 1 1 [x] 0) with [x] in Hcol. injection Hcol as ->.
  eexists _, _. split; [exact Hrun|]. split; [reflexivity|].
  change (data0 _) with [3 / 2 / (0 + 1 / 10 ^ 7) * 0].
  change (column 1 1 [3 / 2 / (0 + 1 / 10 ^ 7) * 0] 0) with [3 / 2 / (0 + 1 / 10 ^ 7) * 0].
  assert (norm [3 / 2 / (0 + 1 / 10 ^ 7) * 0] = 0) as ->.
  { replace (3 / 2 / (0 + 1 / 10 ^ 7) * 0) with 0 by (field; lra). exact Hnorm. }
  split; [reflexivity|].
  replace (0 - 3 / 2) with (- (3 / 2)) by ring.
  rewrite Rabs_Ropp, Rabs_right by lra. lra.
Qed.

(** C4 (amended): normalize_weights(min_norm, max_norm, target_norm) under
    CPU or GPU mode works on the strided groups its loop walks, not on
    per-output-unit weight vectors: group i, for i below the weight blob's
    width (K, the input feature count), holds the height (N, the number of
    output units) weights at offsets i, i + K, i + 2K, ...  It rescales
    exactly the groups whose norm lies outside the closed interval
    [min_norm, max_norm], multiplying each in place by
    target_norm / (norm + 1e-7), so that its new norm is
    |target_norm| * norm / (norm + 1e-7) in exact arithmetic (scalars are
    real numbers in this statement); every group whose norm was inside the
    closed interval is unchanged. *)
Theorem normalize_weights_3_band (mode : Brew) (l : InnerProductLayer R)
    (min_norm max_norm target_norm : R) (w : Blob R) :
  mode = CPU \/ mode = GPU ->
  blobs_ l !! 0%nat = Some w -> (height w * width w <= length (data w))%nat ->
  exists l',
    normalize_weights_3 mode l min_norm max_norm target_norm =
      Returned (l', groups_walked w 1) /\
    forall i, (i < width w)%nat ->
      let c := column (height w) (width w) (data w) i in
      let c' := column (height w) (width w) (data0 (blobs_ l')) i in
      (~ (min_norm <= norm c <= max_norm) ->
       c' = map (Rmult (target_norm / (norm c + 1 / 10 ^ 7))) c /\
       norm c' = Rabs target_norm * norm c / (norm c + 1 / 10 ^ 7)) /\
      (min_norm <= norm c <= max_norm -> c' = c).
Proof.
  intros Hmode Hw Hsize.
  destruct (normalize_weights_3_columns mode l min_norm max_norm target_norm w Hmode Hw Hsize)
    as (buf & Hrun & _ & Hcol & _).
  exists (set_blobs l (<[0%nat := set_data w buf]> (blobs_ l))). split; [exact Hrun|].
  assert (data0 (blobs_ (set_blobs l (<[0%nat := set_data w buf]> (blobs_ l)))) = buf) as ->
    by apply (data0_insert (blobs_ l) w buf Hw).
  intros i Hi. cbv zeta. rewrite (Hcol i Hi).
  unfold rescaled. rewrite band_rescale_R. split.
  - intros Hout.
    assert (map (Rmult (target_norm / (norm (column (height w) (width w) (data w) i) + 1 / 10 ^ 7)))
              (column (height w) (width w) (data w) i) =
            match (if Rle_dec min_norm (norm (column (height w) (width w) (data w) i))
                   then if Rle_dec (norm (column (height w) (width w) (data w) i)) max_norm
                        then None
                        else Some (target_norm /
                                   (norm (column (height w) (width w) (data w) i) + 1 / 10 ^ 7))
                   else Some (target_norm /
                              (norm (column (height w) (width w) (data w) i) + 1 / 10 ^ 7)))
            with
            | Some factor => map (d_mul factor) (column (height w) (width w) (data w) i)
            | None => column (height w) (width w) (data w) i
            end) as <-.
    { destruct (Rle_dec _ _); [destruct (Rle_dec _ _); [lra | done] | done]. }
    split; [done|]. rewrite norm_R_scale. apply scaled_norm_eq, norm_R_nonneg.
  - intros Hin. destruct (Rle_dec _ _); [destruct (Rle_dec _ _); [done | lra] | lra].
Qed.

Lemma normalize_weights_3_band_witness :
  blobs_ narrow_R !! 0%nat = Some (mkBlob 1 1 1 2 [3; 4] [0; 0]) /\
  (1 * 2 <= length [3; 4])%nat /\
  exists l',
    normalize_weights_3 CPU narrow_R 1 (7 / 2) 2 =
      Returned (l', [mkGroup 0 1 2; mkGroup 1 1 2]) /\
    column 1 2 (data0 (blobs_ l')) 0 = [3] /\
    column 1 2 (data0 (blobs_ l')) 1 = [2 / (4 + 1 / 10 ^ 7) * 4] /\
    norm (column 1 2 (data0 (blobs_ l')) 1) = Rabs 2 * 4 / (4 + 1 / 10 ^ 7).
Proof.
  assert (1 * 2 <= length [3; 4])%nat as Hsize by (simpl; lia).
  split; [reflexivity|]. split; [exact Hsize|].
  destruct (normalize_weights_3_band CPU narrow_R 1 (7 / 2) 2 _
              (or_introl eq_refl) eq_refl Hsize) as (l' & Hrun & Hcols).
  assert (norm (column 1 2 [3; 4] 0) = 3) as H0
    by (change (column 1 2 [3; 4] 0) with [3]; apply norm_R_single; lra).
  assert (norm (column 1 2 [3; 4] 1) = 4) as H1
    by (change (column 1 2 [3; 4] 1) with [4]; apply norm_R_single; lra).
  exists l'. split; [exact Hrun|]. cbn [height width data] in Hcols.
  destruct (Hcols 0%nat ltac:(lia)) as [_ Hin].
  destruct (Hcols 1%nat ltac:(lia)) as [Hout _].
  destruct Hout as [Hscaled Hnorm]; [lra|].
  split_and!.
  - rewrite Hin by lra. reflexivity.
  - rewrite Hscaled, H1. reflexivity.
  - rewrite Hnorm, H1. reflexivity.
Defined.
End NormBounds.

(** * Further properties *)

(** ** The life cycle of a layer *)

(** X1: a layer set up from an empty store on a well-formed bottom blob can
    run Forward_cpu and then Backward_cpu (with either propagate_down) on
    those blobs: all three calls return, no index leaves its buffer, and the
    layer and blobs that come back are again fit for the next Forward or
    Backward.  This holds for every scalar type, binary64 included. *)
Theorem SetUp_Forward_Backward_run {D : Type} `{Dtype D}
    (l : InnerProductLayer D) (bottom top : list (Blob D)) (b t : Blob D)
    (propagate_down : bool) :
  blobs_ l = [] -> bottom !! 0 = Some b -> has_size b (count b) -> num b <> 0 ->
  top !! 0 = Some t ->
  exists l1 top1 top2 l2 bottom2,
    SetUp l bottom top = Some (l1, top1) /\
    Forward_cpu l1 bottom top1 = Some (l1, top2, d_zero) /\
    Backward_cpu l1 top2 propagate_down bottom = Some (l2, bottom2) /\
    layer_ready l2 /\ io_ready l2 bottom2 top2.
Proof.
  intros Hempty Hb Hsize Hnum Ht.
  pose proof (SetUp_unfold l bottom top b t Hb Ht Hnum) as Hset.
  pose proof (SetUp_layer_ready _ _ _ _ _ Hempty Hset) as Hl1.
  pose proof (SetUp_io_ready _ _ _ _ _ b Hb Hsize Hset) as Hio1.
  destruct (Forward_cpu_io_ready _ _ _ Hl1 Hio1) as (top2 & Hfwd & Hio2).
  destruct (Backward_cpu_keeps_ready _ top2 propagate_down _ Hl1 Hio2)
    as (l2 & bottom2 & Hbwd & Hl2 & Hio3).
  eexists _, _, top2, l2, bottom2. split; [exact Hset|]. by split_and!.
Qed.

Lemma SetUp_Forward_Backward_run_witness :
  blobs_ fresh_double = [] /\
  has_size (mkBlob 1 2 1 1 [1; 2]%float [0; 0]%float) 2 /\
  exists l1 top1 top2 l2 bottom2,
    SetUp fresh_double bottom_double top_double = Some (l1, top1) /\
    Forward_cpu l1 bottom_double top1 = Some (l1, top2, 0%float) /\
    Backward_cpu l1 top2 true bottom_double = Some (l2, bottom2).
Proof.
  assert (has_size (mkBlob 1 2 1 1 [1; 2]%float [0; 0]%float) 2) as Hsize by ready.
  split; [reflexivity|]. split; [exact Hsize|].
  destruct (SetUp_Forward_Backward_run fresh_double bottom_double top_double
              (mkBlob 1 2 1 1 [1; 2]%float [0; 0]%float) (mkBlob 0 0 0 0 [] []) true
              eq_refl eq_refl Hsize ltac:(simpl; lia) eq_refl)
    as (l1 & top1 & top2 & l2 & bottom2 & Hset & Hfwd & Hbwd & _).
  exists l1, top1, top2, l2, bottom2. split; [exact Hset|]. split; [exact Hfwd | exact Hbwd].
Defined.

(** X2: SetUp is idempotent: calling it again with the same bottom blobs on
    the layer and top blobs it returned gives back exactly that layer and
    those top blobs.  The second call finds the store populated, recomputes
    the same dimensions and refills the same bias multiplier. *)
Theorem SetUp_idempotent {D : Type} `{Dtype D}
    (l l1 : InnerProductLayer D) (bottom top top1 : list (Blob D)) :
  SetUp l bottom top = Some (l1, top1) -> SetUp l1 bottom top1 = Some (l1, top1).
Proof.
  intros Hrun. unfold SetUp in *.
  destruct (bottom !! 0) as [b|]; [|done].
  destruct (top !! 0) as [t|] eqn:Ht; [|done]. simpl in *.
  destruct (num b =? 0); [done|].
  inversion Hrun; subst l1 top1; clear Hrun. simpl.
  rewrite list_lookup_insert_eq by (by apply lookup_lt_Some in Ht). simpl.
  rewrite list_insert_insert_eq.
  assert ((0 <? length
             (if 0 <? length (blobs_ l)
              then blobs_ l
              else if bias_term (layer_param_ l)
                   then [Fill (weight_filler (layer_param_ l))
                           (new_Blob 1 1 (num_output (layer_param_ l)) (count b / num b));
                         Fill (bias_filler (layer_param_ l))
                           (new_Blob 1 1 1 (num_output (layer_param_ l)))]
                   else [Fill (weight_filler (layer_param_ l))
                           (new_Blob 1 1 (num_output (layer_param_ l)) (count b / num b))]))
          = true) as ->.
  { destruct (0 <? length (blobs_ l)) eqn:Hpos; [done|].
    by destruct (bias_term (layer_param_ l)). }
  by destruct (bias_term (layer_param_ l)).
Qed.

Lemma SetUp_idempotent_witness :
  exists l1 top1,
    SetUp fresh_double bottom_double top_double = Some (l1, top1) /\
    SetUp l1 bottom_double top1 = Some (l1, top1).
Proof.
  eexists _, _. split; [exact SetUp_narrow_double|].
  exact (SetUp_idempotent _ _ _ _ _ SetUp_narrow_double).
Defined.

(** X3: Backward_cpu does not disturb Forward_cpu: on the layer and bottom
    blobs a Backward call returns, Forward computes the same top blobs and
    the same scalar as on the layer and bottom blobs before the call.
    Backward writes diff views only and Forward reads data views only. *)
Theorem Backward_cpu_then_Forward_cpu {D : Type} `{Dtype D}
    (l l' : InnerProductLayer D) (top bottom bottom' top0 top1 : list (Blob D))
    (propagate_down : bool) (loss : D) :
  Backward_cpu l top propagate_down bottom = Some (l', bottom') ->
  Forward_cpu l bottom top0 = Some (l, top1, loss) ->
  Forward_cpu l' bottom' top0 = Some (l', top1, loss).
Proof.
  intros Hbwd Hfwd.
  destruct (Backward_cpu_data _ _ _ _ _ _ Hbwd) as (HM & HK & HN & Hbt & Hbm & Hstore & Hbot).
  by apply (Forward_cpu_reads l l' bottom bottom' top0 top1 loss).
Qed.

Lemma Backward_cpu_then_Forward_cpu_witness :
  exists l' bottom',
    Backward_cpu narrow_double [mkBlob 1 1 1 1 [11%float] [2%float]] true bottom_double =
      Some (l', bottom') /\
    Forward_cpu l' bottom' [mkBlob 1 1 1 1 [0%float] [0%float]] =
      Some (l', [mkBlob 1 1 1 1 [11%float] [0%float]], 0%float).
Proof.
  eexists _, _. split; [exact Backward_narrow_double|].
  exact (Backward_cpu_then_Forward_cpu _ _ _ _ _ _ _ _ _
           Backward_narrow_double Forward_narrow_double).
Defined.

(** X4: SetUp flattens each example: whichever path it takes, M_ is the
    batch size of bottom[0], N_ is num_output and K_ is channels x height x
    width of bottom[0], so that M_ * K_ is exactly the number of scalars in
    bottom[0] (the integer division count / num loses nothing). *)
Theorem SetUp_dimensions {D : Type} `{Dtype D}
    (l l' : InnerProductLayer D) (bottom top top' : list (Blob D)) (b : Blob D) :
  bottom !! 0 = Some b -> SetUp l bottom top = Some (l', top') ->
  M_ l' = num b /\ N_ l' = num_output (layer_param_ l) /\
  K_ l' = channels b * height b * width b /\
  M_ l' * K_ l' = count b.
Proof.
  intros Hb Hrun. unfold SetUp in Hrun. rewrite Hb in Hrun.
  destruct (top !! 0) as [t|]; [|done]. simpl in Hrun.
  destruct (num b =? 0) eqn:Hnum; [done|]. apply Nat.eqb_neq in Hnum.
  inversion Hrun; subst l'; clear Hrun. simpl.
  rewrite (count_div_num b Hnum). split_and!; [done | done | done |].
  unfold count. lia.
Qed.

Lemma SetUp_dimensions_witness :
  exists l' top',
    SetUp fresh_double bottom_double top_double = Some (l', top') /\
    M_ l' = 1 /\ N_ l' = 1 /\ K_ l' = 2 * 1 * 1 /\ M_ l' * K_ l' = 2.
Proof.
  eexists _, _. split; [exact SetUp_narrow_double|].
  exact (SetUp_dimensions fresh_double _ bottom_double top_double _
           (mkBlob 1 2 1 1 [1; 2]%float [0; 0]%float) eq_refl SetUp_narrow_double).
Defined.

(** ** Calling Forward or Backward again *)

(** X5: Forward_cpu overwrites its output.  For a ready layer, the data
    read back from the returned top[0] is the same whatever top[0] held
    before the call, and calling Forward again on the top blobs it returned
    gives back exactly those top blobs: nothing accumulates from call to
    call, although the bias product is added with scale factor one. *)
Theorem Forward_cpu_repeatable {D : Type} `{Dtype D} `{!DtypeLaws D}
    (l l' : InnerProductLayer D) (bottom top top1 : list (Blob D)) (loss : D) :
  layer_ready l -> io_ready l bottom top ->
  Forward_cpu l bottom top = Some (l', top1, loss) ->
  Forward_cpu l bottom top1 = Some (l, top1, loss) /\
  forall top', io_ready l bottom top' ->
    exists top1',
      Forward_cpu l bottom top' = Some (l, top1', d_zero) /\
      data0 top1' = data0 top1.
Proof.
  intros Hl Hio Hrun.
  assert (forall top', io_ready l bottom top' ->
            exists t t' out,
              top !! 0 = Some t /\ top' !! 0 = Some t' /\
              top1 = <[0 := set_data t out]> top /\ loss = d_zero /\
              Forward_cpu l bottom top' = Some (l, <[0 := set_data t' out]> top', d_zero))
    as Hany.
  { intros top' Hio'.
    destruct (Forward_cpu_overwrites l bottom top top' Hl Hio Hio')
      as (t & t' & out & Ht & Ht' & Hrun0 & Hrun').
    rewrite Hrun in Hrun0. inversion Hrun0; subst.
    by exists t, t', out. }
  split.
  - destruct (Forward_cpu_io_ready l bottom top Hl Hio) as (top2 & Hrun2 & Hio2).
    rewrite Hrun in Hrun2. inversion Hrun2; subst l' top2 loss; clear Hrun2.
    destruct (Hany top1 Hio2) as (t & t' & out & Ht & Ht' & Htop1 & _ & Hagain).
    rewrite Hagain. subst top1.
    rewrite list_lookup_insert_eq in Ht' by (by apply lookup_lt_Some in Ht).
    inversion Ht'; subst t'. by rewrite list_insert_insert_eq.
  - intros top' Hio'.
    destruct (Hany top' Hio') as (t & t' & out & Ht & Ht' & Htop1 & _ & Hrun').
    eexists. split; [exact Hrun'|]. subst top1.
    by rewrite (data0_insert top' t' out Ht'), (data0_insert top t out Ht).
Qed.

Lemma Forward_cpu_repeatable_witness :
  layer_ready biased_R /\ io_ready biased_R bottom_R top_R /\
  io_ready biased_R bottom_R [mkBlob 1 1 1 1 [99%R] [7%R]] /\
  exists top1 top1',
    Forward_cpu biased_R bottom_R top_R = Some (biased_R, top1, 0%R) /\
    Forward_cpu biased_R bottom_R top1 = Some (biased_R, top1, 0%R) /\
    Forward_cpu biased_R bottom_R [mkBlob 1 1 1 1 [99%R] [7%R]] =
      Some (biased_R, top1', 0%R) /\
    data0 top1' = data0 top1.
Proof.
  assert (layer_ready biased_R) as Hl by ready.
  assert (io_ready biased_R bottom_R top_R) as Hio by ready.
  assert (io_ready biased_R bottom_R [mkBlob 1 1 1 1 [99%R] [7%R]]) as Hio' by ready.
  split; [exact Hl|]. split; [exact Hio|]. split; [exact Hio'|].
  assert (exists top1, Forward_cpu biased_R bottom_R top_R = Some (biased_R, top1, 0%R))
    as [top1 Hrun] by (eexists; reflexivity).
  destruct (Forward_cpu_repeatable biased_R biased_R bottom_R top_R top1 0%R Hl Hio Hrun)
    as [Hagain Hany].
  destruct (Hany _ Hio') as (top1' & Hrun' & Hsame).
  exists top1, top1'. split; [exact Hrun|]. split; [exact Hagain|].
  split; [exact Hrun'|]. exact Hsame.
Defined.

(** X6: Backward_cpu overwrites its gradients.  For a ready layer, calling
    Backward again with the same top blobs on the layer and bottom blobs it
    returned gives back exactly that layer and those bottom blobs: the
    weight, bias and input gradients of the first call are not added to. *)
Theorem Backward_cpu_repeatable {D : Type} `{Dtype D} `{!DtypeLaws D}
    (l l' : InnerProductLayer D) (top bottom bottom' : list (Blob D))
    (propagate_down : bool) :
  layer_ready l -> io_ready l bottom top ->
  Backward_cpu l top propagate_down bottom = Some (l', bottom') ->
  Backward_cpu l' top propagate_down bottom' = Some (l', bottom').
Proof.
  intros Hl Hio Hrun.
  destruct (Backward_cpu_ready l l' top bottom bottom' propagate_down Hl Hio Hrun)
    as [Hl' Hio'].
  destruct (Backward_cpu_spec l top propagate_down bottom Hl Hio)
    as (w & b & wdiff & blobs' & bottom1 & Hw & Hb & Hrun1 & Hlenw & Hweight & Hbias & Hdown).
  rewrite Hrun in Hrun1. inversion Hrun1; subst l' bottom1; clear Hrun1.
  destruct (Backward_cpu_spec _ top propagate_down bottom' Hl' Hio')
    as (w2 & b2 & wdiff2 & blobs2 & bottom2 & Hw2 & Hb2 & Hrun2 & Hlenw2 & Hweight2 &
        Hbias2 & Hdown2).
  simpl in Hw2, Hrun2, Hlenw2, Hweight2, Hbias2, Hdown2.
  assert (0 < length (blobs_ l)) as Hstore by (by apply lookup_lt_Some in Hw).
  assert (0 < length bottom) as Hbot by (by apply lookup_lt_Some in Hb).
  assert (blobs' !! 0 = Some (set_diff w wdiff)) as Hfirst.
  { destruct (bias_term_ l).
    - destruct Hbias as (bias & bdiff & _ & -> & _).
      rewrite list_lookup_insert_ne by done. by apply list_lookup_insert_eq.
    - subst blobs'. by apply list_lookup_insert_eq. }
  rewrite Hfirst in Hw2. inversion Hw2; subst w2; clear Hw2.
  assert (data0 bottom' = data0 bottom) as Hsame_bottom.
  { unfold data0. rewrite Hb. destruct propagate_down.
    - destruct Hdown as (xdiff & -> & _). by rewrite list_lookup_insert_eq.
    - subst bottom'. by rewrite Hb. }
  assert (data0 blobs' = data0 (blobs_ l)) as Hsame_weight.
  { unfold data0. by rewrite Hfirst, Hw. }
  assert (wdiff2 = wdiff) as ->.
  { apply (matrix_ext (N_ l) (K_ l)); [done | done |].
    intros i j Hi Hj. rewrite Hweight2, Hweight by done. by rewrite Hsame_bottom. }
  rewrite Hrun2. f_equal. f_equal.
  - (* the store *)
    change (set_blobs l blobs2 = set_blobs l blobs'). f_equal.
    destruct (bias_term_ l).
    + destruct Hbias as (bias & bdiff & Hbias1 & Hblobs' & Hlenb & Hbdiff).
      destruct Hbias2 as (bias2 & bdiff2 & Hbias1' & -> & Hlenb2 & Hbdiff2).
      assert (1 < length (blobs_ l)) as Hstore1 by (by apply lookup_lt_Some in Hbias1).
      assert (blobs' !! 1 = Some (set_diff bias bdiff)) as Hsecond.
      { subst blobs'. apply list_lookup_insert_eq. by rewrite length_insert. }
      rewrite Hsecond in Hbias1'. inversion Hbias1'; subst bias2; clear Hbias1'.
      assert (bdiff2 = bdiff) as ->.
      { apply (vector_ext (N_ l)); [done | done |].
        intros j Hj. by rewrite Hbdiff2, Hbdiff. }
      change (set_diff (set_diff w wdiff) wdiff) with (set_diff w wdiff).
      change (set_diff (set_diff bias bdiff) bdiff) with (set_diff bias bdiff).
      by rewrite (list_insert_id _ _ _ Hfirst), (list_insert_id _ _ _ Hsecond).
    + subst blobs2.
      change (set_diff (set_diff w wdiff) wdiff) with (set_diff w wdiff).
      by rewrite (list_insert_id _ _ _ Hfirst).
  - (* the bottom blobs *)
    destruct propagate_down; [|done].
    destruct Hdown as (xdiff & Hbottom' & Hlenx & Hxdiff).
    destruct Hdown2 as (xdiff2 & -> & Hlenx2 & Hxdiff2).
    assert (bottom' !! 0 = Some (set_diff b xdiff)) as Hb'.
    { subst bottom'. by apply list_lookup_insert_eq. }
    rewrite Hb' in Hb2. inversion Hb2; subst b2; clear Hb2.
    assert (xdiff2 = xdiff) as ->.
    { apply (matrix_ext (M_ l) (K_ l)); [done | done |].
      intros i j Hi Hj. rewrite Hxdiff2, Hxdiff by done. by rewrite Hsame_weight. }
    change (set_diff (set_diff b xdiff) xdiff) with (set_diff b xdiff).
    by rewrite (list_insert_id _ _ _ Hb').
Qed.

Lemma Backward_cpu_repeatable_witness :
  layer_ready layer_R /\ io_ready layer_R bottom_R top_R /\
  exists l' bottom',
    Backward_cpu layer_R top_R true bottom_R = Some (l', bottom') /\
    Backward_cpu l' top_R true bottom' = Some (l', bottom').
Proof.
  assert (layer_ready layer_R) as Hl by ready.
  assert (io_ready layer_R bottom_R top_R) as Hio by ready.
  split; [exact Hl|]. split; [exact Hio|].
  eexists _, _. split; [reflexivity|].
  exact (Backward_cpu_repeatable layer_R _ top_R bottom_R _ true Hl Hio eq_refl).
Defined.

(** ** What normalize_weights touches *)

(** X7: whenever either normalize_weights overload returns, the layer it
    leaves differs from the one it was given only in the data view of
    blobs_[0], and there only inside the first height x width plane: the
    buffer keeps its length, every entry past that plane keeps its value,
    and the gradients, the bias blob, the dimensions and the bias multiplier
    are the ones given. *)
Theorem normalize_weights_frame {D : Type} `{Dtype D}
    (mode : Brew) (l l' : InnerProductLayer D) (visited : list group) :
  (forall mnorm, normalize_weights mode l mnorm = Returned (l', visited) ->
     exists w buf,
       blobs_ l !! 0 = Some w /\
       l' = set_blobs l (<[0 := set_data w buf]> (blobs_ l)) /\
       length buf = length (data w) /\
       forall idx, height w * width w <= idx -> at_ buf idx = at_ (data w) idx) /\
  (forall min_norm max_norm target_norm,
     normalize_weights_3 mode l min_norm max_norm target_norm = Returned (l', visited) ->
     exists w buf,
       blobs_ l !! 0 = Some w /\
       l' = set_blobs l (<[0 := set_data w buf]> (blobs_ l)) /\
       length buf = length (data w) /\
       forall idx, height w * width w <= idx -> at_ buf idx = at_ (data w) idx).
Proof.
  assert (forall (rescale : D -> option D) (w : Blob D) buf,
            column_loop caffe_cpu_norm2 caffe_scal rescale
              (width w) (height w) (width w) 1 (data w) 0 = Some (buf, visited) ->
            length buf = length (data w) /\
            forall idx, height w * width w <= idx -> at_ buf idx = at_ (data w) idx)
    as Hloop.
  { intros rescale w buf Hrun.
    destruct (column_loop_frame _ _ _ _ _ _ _ _ _ _ Hrun) as [Hlen Hkeep].
    split; [done|]. intros idx Hidx. apply Hkeep. intros i j Hi Hj. nia. }
  split.
  - intros mnorm (w & buf & Hw & Hrun & ->)%normalize_weights_inv.
    exists w, buf. destruct (Hloop _ _ _ Hrun). by split_and!.
  - intros mn mx tg (w & buf & Hw & Hrun & ->)%normalize_weights_3_inv.
    exists w, buf. destruct (Hloop _ _ _ Hrun). by split_and!.
Qed.

Lemma normalize_weights_frame_witness :
  exists l' visited w buf,
    normalize_weights CPU narrow_double 3.5%float = Returned (l', visited) /\
    blobs_ narrow_double !! 0 = Some w /\
    l' = set_blobs narrow_double (<[0 := set_data w buf]> (blobs_ narrow_double)) /\
    length buf = 2.
Proof.
  eexists _, _.
  destruct (proj1 (normalize_weights_frame CPU narrow_double _ _) 3.5%float
              normalize_narrow_double) as (w & buf & Hw & Hl' & Hlen & _).
  exists w, buf. split; [exact normalize_narrow_double|].
  split; [exact Hw|]. split; [exact Hl'|].
  rewrite Hlen. injection Hw as <-. reflexivity.
Defined.

(** X8: every weight of the plane is read, and possibly rescaled, in
    exactly one group.  Under CPU or GPU mode, for a weight blob whose
    buffer holds its first height x width plane, either overload returns;
    the groups it has visited are pairwise disjoint and together hold
    exactly the indices of that plane; and the weight read back from the
    returned layer at index idx of the plane is the weight the layer held
    there, multiplied by the factor of the one group idx mod width it lies
    in when the norm of that group, taken over the values held before the
    call, is out of bounds, and the very same weight otherwise. *)
Theorem normalize_weights_covers_plane {D : Type} `{Dtype D}
    (mode : Brew) (l : InnerProductLayer D) (w : Blob D) :
  mode = CPU \/ mode = GPU ->
  blobs_ l !! 0 = Some w -> height w * width w <= length (data w) ->
  (forall mnorm,
     exists l' visited,
       normalize_weights mode l mnorm = Returned (l', visited) /\
       covers_plane_once (height w) (width w) visited /\
       forall idx, idx < height w * width w ->
         at_ (data0 (blobs_ l')) idx =
         match clamp_rescale mnorm
                 (norm (column (height w) (width w) (data w) (idx mod width w))) with
         | Some factor => d_mul factor (at_ (data w) idx)
         | None => at_ (data w) idx
         end) /\
  (forall min_norm max_norm target_norm,
     exists l' visited,
       normalize_weights_3 mode l min_norm max_norm target_norm = Returned (l', visited) /\
       covers_plane_once (height w) (width w) visited /\
       forall idx, idx < height w * width w ->
         at_ (data0 (blobs_ l')) idx =
         match band_rescale min_norm max_norm target_norm
                 (norm (column (height w) (width w) (data w) (idx mod width w))) with
         | Some factor => d_mul factor (at_ (data w) idx)
         | None => at_ (data w) idx
         end).
Proof.
  intros Hmode Hw Hsize. split.
  - intros mnorm. unfold normalize_weights. rewrite Hw.
    unfold caffe_gpu_norm2, caffe_gpu_scal.
    destruct (mode_cases mode) as [[_ ->]|[(_ & -> & ->)|(Hc & Hg & _)]];
      [by apply store_weight_pointwise | by apply store_weight_pointwise |].
    by destruct Hmode.
  - intros mn mx tg. unfold normalize_weights_3. rewrite Hw.
    unfold caffe_gpu_norm2, caffe_gpu_scal.
    destruct (mode_cases mode) as [[_ ->]|[(_ & -> & ->)|(Hc & Hg & _)]];
      [by apply store_weight_pointwise | by apply store_weight_pointwise |].
    by destruct Hmode.
Qed.

Lemma normalize_weights_covers_plane_witness :
  blobs_ narrow_double !! 0 = Some (mkBlob 1 1 1 2 [3; 4]%float [0; 0]%float) /\
  1 * 2 <= length [3; 4]%float /\
  exists l' visited,
    normalize_weights CPU narrow_double 3.5%float = Returned (l', visited) /\
    covers_plane_once 1 2 visited /\
    at_ (data0 (blobs_ l')) 0 = 3%float /\
    at_ (data0 (blobs_ l')) 1 =
      PrimFloat.mul (PrimFloat.div 3.5 (PrimFloat.add 4 d_eps)) 4.
Proof.
  assert (1 * 2 <= length [3; 4]%float) as Hsize by (simpl; lia).
  split; [reflexivity|]. split; [exact Hsize|].
  destruct (proj1 (normalize_weights_covers_plane CPU narrow_double _
                     (or_introl eq_refl) eq_refl Hsize) 3.5%float)
    as (l' & visited & Hrun & Hcover & Hweights).
  exists l', visited. split; [exact Hrun|]. split; [exact Hcover|].
  split.
  - rewrite (Hweights 0) by (simpl; lia). vm_compute. reflexivity.
  - rewrite (Hweights 1) by (simpl; lia). vm_compute. reflexivity.
Defined.

(** X9: when no column is out of bounds the call is the identity.  Under
    CPU or GPU mode, if no column norm is above mnorm, normalize_weights
    returns the very layer it was given; if no column norm is above max_norm
    or below min_norm, so does the three-argument overload. *)
Theorem normalize_weights_in_bounds {D : Type} `{Dtype D}
    (mode : Brew) (l : InnerProductLayer D) (w : Blob D) :
  mode = CPU \/ mode = GPU ->
  blobs_ l !! 0 = Some w -> height w * width w <= length (data w) ->
  (forall mnorm,
     (forall i, i < width w ->
        d_gt (norm (column (height w) (width w) (data w) i)) mnorm = false) ->
     normalize_weights mode l mnorm = Returned (l, groups_walked w 1)) /\
  (forall min_norm max_norm target_norm,
     (forall i, i < width w ->
        d_gt (norm (column (height w) (width w) (data w) i)) max_norm = false /\
        d_lt (norm (column (height w) (width w) (data w) i)) min_norm = false) ->
     normalize_weights_3 mode l min_norm max_norm target_norm =
     Returned (l, groups_walked w 1)).
Proof.
  intros Hmode Hw Hsize. split.
  - intros mnorm Hin. unfold normalize_weights. rewrite Hw.
    unfold caffe_gpu_norm2, caffe_gpu_scal.
    assert (forall i, i < width w ->
              clamp_rescale mnorm (norm (column (height w) (width w) (data w) i)) = None)
      as Hnone.
    { intros i Hi. unfold clamp_rescale. by rewrite (Hin i Hi). }
    destruct (mode_cases mode) as [[_ ->]|[(_ & -> & ->)|(Hc & Hg & _)]];
      [by apply store_weight_identity | by apply store_weight_identity |].
    by destruct Hmode.
  - intros mn mx tg Hin. unfold normalize_weights_3. rewrite Hw.
    unfold caffe_gpu_norm2, caffe_gpu_scal.
    assert (forall i, i < width w ->
              band_rescale mn mx tg (norm (column (height w) (width w) (data w) i)) = None)
      as Hnone.
    { intros i Hi. unfold band_rescale. destruct (Hin i Hi) as [-> ->]. done. }
    destruct (mode_cases mode) as [[_ ->]|[(_ & -> & ->)|(Hc & Hg & _)]];
      [by apply store_weight_identity | by apply store_weight_identity |].
    by destruct Hmode.
Qed.

Lemma normalize_weights_in_bounds_witness :
  blobs_ narrow_double !! 0 = Some (mkBlob 1 1 1 2 [3; 4]%float [0; 0]%float) /\
  1 * 2 <= length [3; 4]%float /\
  normalize_weights GPU narrow_double 4%float =
    Returned (narrow_double, [mkGroup 0 1 2; mkGroup 1 1 2]).
Proof.
  assert (1 * 2 <= length [3; 4]%float) as Hsize by (simpl; lia).
  split; [reflexivity|]. split; [exact Hsize|].
  apply (proj1 (normalize_weights_in_bounds GPU narrow_double _
                  (or_intror eq_refl) eq_refl Hsize) 4%float).
  intros i Hi. destruct i as [|[|i]]; [vm_compute; reflexivity | vm_compute; reflexivity |].
  simpl in Hi. lia.
Defined.

(** ** In exact arithmetic *)

Section ExactArithmetic.
Local Open Scope R_scope.

(** X10: in exact arithmetic the max-norm clamp is idempotent: for
    max_norm >= 0, calling normalize_weights(max_norm) again on the layer it
    returned changes nothing.  After the first call no column norm exceeds
    max_norm. *)
Theorem normalize_weights_idempotent (mode : Brew) (l l' : InnerProductLayer R)
    (mnorm : R) (w : Blob R) (visited : list group) :
  mode = CPU \/ mode = GPU ->
  blobs_ l !! 0%nat = Some w -> (height w * width w <= length (data w))%nat ->
  0 <= mnorm ->
  normalize_weights mode l mnorm = Returned (l', visited) ->
  normalize_weights mode l' mnorm = Returned (l', visited).
Proof.
  intros Hmode Hw Hsize Hpos Hrun.
  destruct (normalize_weights_columns mode l mnorm w Hmode Hw Hsize)
    as (buf & Hrun' & Hlen & Hcols & _).
  rewrite Hrun in Hrun'. inversion Hrun'; subst l' visited; clear Hrun'.
  assert (blobs_ (set_blobs l (<[0%nat := set_data w buf]> (blobs_ l))) !! 0%nat =
          Some (set_data w buf)) as Hw'.
  { simpl. apply list_lookup_insert_eq. by apply lookup_lt_Some in Hw. }
  unfold normalize_weights. rewrite Hw'. unfold caffe_gpu_norm2, caffe_gpu_scal.
  assert (store_weight (set_blobs l (<[0%nat := set_data w buf]> (blobs_ l))) (set_data w buf)
            (column_loop caffe_cpu_norm2 caffe_scal (clamp_rescale mnorm)
               (width (set_data w buf)) (height (set_data w buf)) (width (set_data w buf))
               (offset (set_data w buf) 0 0 0 1) (data (set_data w buf)) 0) =
          Returned (set_blobs l (<[0%nat := set_data w buf]> (blobs_ l)), groups_walked w 1))
    as Hagain.
  { apply (store_weight_identity (clamp_rescale mnorm) _ (set_data w buf) Hw').
    - simpl. lia.
    - intros i Hi. simpl in Hi. simpl height. simpl width. simpl data.
      rewrite (Hcols i Hi), clamp_rescale_R.
      pose proof (rescaled_clamp_bound mnorm (column (height w) (width w) (data w) i) Hpos).
      destruct (Rgt_dec _ _); [lra | done]. }
  destruct (mode_cases mode) as [[_ ->]|[(_ & -> & ->)|(Hc & Hg & _)]];
    [exact Hagain | exact Hagain |].
  by destruct Hmode.
Qed.

Lemma normalize_weights_idempotent_witness :
  blobs_ layer_R !! 0%nat = Some (mkBlob 1 1 1 2 [1; 1] [0; 0]) /\
  (1 * 2 <= length [1; 1])%nat /\ 0 <= 1 / 2 /\
  exists l' visited,
    normalize_weights CPU layer_R (1 / 2) = Returned (l', visited) /\
    normalize_weights CPU l' (1 / 2) = Returned (l', visited).
Proof.
  assert (1 * 2 <= length [1; 1])%nat as Hsize by (simpl; lia).
  assert (0 <= 1 / 2) as Hpos by lra.
  split; [reflexivity|]. split; [exact Hsize|]. split; [exact Hpos|].
  destruct (normalize_weights_columns CPU layer_R (1 / 2) _ (or_introl eq_refl) eq_refl Hsize)
    as (buf & Hrun & _).
  eexists _, _. split; [exact Hrun|].
  exact (normalize_weights_idempotent CPU layer_R _ (1 / 2) _ _
           (or_introl eq_refl) eq_refl Hsize Hpos Hrun).
Defined.

(** X11: in exact arithmetic the one-argument overload is the band overload
    with the band [0, max_norm] and target max_norm: in every mode and on
    every layer, normalize_weights(0, m, m) ends exactly as
    normalize_weights(m) does.  A norm is never below zero, so the lower
    test never fires. *)
Theorem normalize_weights_is_band (mode : Brew) (l : InnerProductLayer R) (m : R) :
  normalize_weights_3 mode l 0 m m = normalize_weights mode l m.
Proof.
  unfold normalize_weights_3, normalize_weights.
  destruct (blobs_ l !! 0%nat) as [w|]; [|done].
  unfold caffe_gpu_norm2, caffe_gpu_scal.
  rewrite (column_loop_ext caffe_cpu_norm2 caffe_scal (band_rescale 0 m m) (clamp_rescale m));
    [done|].
  intros n x p inc v Hv. unfold caffe_cpu_norm2 in Hv.
  destruct (strided_ok n p inc x); [|done].
  assert (0 <= v) as Hnn by (inversion Hv; apply sqrt_pos).
  rewrite band_rescale_R, clamp_rescale_R.
  destruct (Rle_dec 0 v) as [_|Hneg]; [|lra].
  destruct (Rle_dec v m), (Rgt_dec v m); (done || lra).
Qed.




End ExactArithmetic.

(** ** The bias multiplier at work *)

Section BiasMultiplier.
Local Open Scope R_scope.

Lemma at_ones (M i : nat) : (i < M)%nat -> at_ (replicate M 1) i = 1.
Proof. intros Hi. apply at_lookup. by apply lookup_replicate_2. Qed.

(** X13: with the all-ones bias multiplier that SetUp leaves, Forward_cpu
    adds the bias vector to every example of the batch: in exact arithmetic
    the data read back from the returned top[0] at row i, column j is
    bias[j] plus entry (i,j) of input x weight^T, for every row i. *)
Theorem Forward_cpu_bias_broadcast (l : InnerProductLayer R) (bottom top : list (Blob R)) :
  layer_ready l -> io_ready l bottom top ->
  bias_term_ l = true -> multiplier l = replicate (M_ l) 1 ->
  exists top',
    Forward_cpu l bottom top = Some (l, top', 0) /\
    forall i j, (i < M_ l)%nat -> (j < N_ l)%nat ->
      at_ (data0 top') (i * N_ l + j) =
      at_ (data1 (blobs_ l)) j +
      mat_mul (K_ l) (mat (K_ l) (data0 bottom)) (transpose (mat (K_ l) (data0 (blobs_ l)))) i j.
Proof.
  intros Hl Hio Hbt Hones.
  destruct (Forward_cpu_bias_entries l bottom top Hl Hio Hbt) as (t & out & Ht & Hrun & Hout).
  eexists. split; [exact Hrun|].
  intros i j Hi Hj. rewrite (data0_insert top t out Ht), (Hout i j Hi Hj), Hones.
  rewrite Nat.mul_1_r, Nat.add_0_r, at_ones by done. simpl. lra.
Qed.

Lemma Forward_cpu_bias_broadcast_witness :
  layer_ready biased_R /\ io_ready biased_R bottom_R top_R /\
  exists top',
    Forward_cpu biased_R bottom_R top_R = Some (biased_R, top', 0) /\
    at_ (data0 top') 0 = 10 + (0 + 3 * 2 + 4 * 3).
Proof.
  assert (layer_ready biased_R) as Hl by ready.
  assert (io_ready biased_R bottom_R top_R) as Hio by ready.
  split; [exact Hl|]. split; [exact Hio|].
  destruct (Forward_cpu_bias_broadcast biased_R bottom_R top_R Hl Hio eq_refl eq_refl)
    as (top' & Hrun & Hout).
  exists top'. split; [exact Hrun|].
  apply (Hout 0%nat 0%nat); simpl; lia.
Defined.

(** X14: with the all-ones bias multiplier that SetUp leaves, the bias
    gradient Backward_cpu writes is the top gradient summed over the batch:
    in exact arithmetic entry j is the sum over the examples i of
    top_diff[i][j]. *)
Theorem Backward_cpu_bias_gradient_sum (l : InnerProductLayer R) (top : list (Blob R))
    (propagate_down : bool) (bottom : list (Blob R)) :
  layer_ready l -> io_ready l bottom top ->
  bias_term_ l = true -> multiplier l = replicate (M_ l) 1 ->
  exists l' bottom',
    Backward_cpu l top propagate_down bottom = Some (l', bottom') /\
    length (diff1 (blobs_ l')) = N_ l /\
    forall j, (j < N_ l)%nat ->
      at_ (diff1 (blobs_ l')) j = sum_upto (M_ l) (fun i => at_ (diff0 top) (i * N_ l + j)).
Proof.
  intros Hl Hio Hbt Hones.
  destruct (Backward_cpu_spec l top propagate_down bottom Hl Hio)
    as (w & b & wdiff & blobs' & bottom' & Hw & Hb & Hrun & _ & _ & Hbias & _).
  rewrite Hbt in Hbias. destruct Hbias as (bias & bdiff & Hbias1 & -> & Hlenb & Hbdiff).
  assert (1 < length (blobs_ l))%nat as Hstore1 by (by apply lookup_lt_Some in Hbias1).
  eexists _, _. split; [exact Hrun|]. simpl. unfold diff1.
  rewrite list_lookup_insert_eq by (by rewrite length_insert). simpl.
  split; [done|]. intros j Hj. rewrite (Hbdiff j Hj).
  unfold mat_mul, transpose, mat. apply sum_upto_ext.
  intros k Hk. rewrite Hones, Nat.mul_1_r, Nat.add_0_r, at_ones by done.
  simpl. lra.
Qed.

Lemma Backward_cpu_bias_gradient_sum_witness :
  layer_ready layer_R /\ io_ready layer_R bottom_R top_R /\
  exists l' bottom',
    Backward_cpu layer_R top_R false bottom_R = Some (l', bottom') /\
    at_ (diff1 (blobs_ l')) 0 = 0 + 5.
Proof.
  assert (layer_ready layer_R) as Hl by ready.
  assert (io_ready layer_R bottom_R top_R) as Hio by ready.
  split; [exact Hl|]. split; [exact Hio|].
  destruct (Backward_cpu_bias_gradient_sum layer_R top_R false bottom_R Hl Hio eq_refl eq_refl)
    as (l' & bottom' & Hrun & _ & Hsum).
  exists l', bottom'. split; [exact Hrun|].
  apply (Hsum 0%nat). simpl; lia.
Defined.
End BiasMultiplier.
